(** * MagiskHide process monitor (native/jni/magiskhide/proc_monitor.cpp)

    A shallow embedding of the monitor: its four global tables, the procfs
    and data-directory queries it makes, and the decisions taken at every
    ptrace stop.  Kernel and daemon calls are recorded, in order, in an
    event log carried by the monitor state, so that statements such as
    "the hide daemon is called once, after the detach" are statements
    about that log. *)

From Stdlib Require Import ZArith String List Bool Lia.
From stdpp Require Import base option list gmap strings.

Local Open Scope Z_scope.

(** ** Machine integers *)

(** [uid_t] is an unsigned 32-bit integer; it is converted to [int] when used
    as a key of [uid_proc_map] and when stored in [int uid]. *)
Definition to_int (z : Z) : Z := (z + 2 ^ 31) mod 2 ^ 32 - 2 ^ 31.

(** [size_t] and [unsigned long] have the width of a pointer. *)
Definition size_bits (lp64 : bool) : Z := if lp64 then 64 else 32.
Definition to_size_t (lp64 : bool) (z : Z) : Z := z mod 2 ^ size_bits lp64.

(** ** Data *)

(** The fields of [struct stat] the monitor reads. *)
Record stat_t := Stat { st_dev : Z; st_ino : Z; st_uid : Z }.

Inductive ptrace_request :=
| PTRACE_CONT | PTRACE_ATTACH | PTRACE_DETACH
| PTRACE_SETOPTIONS | PTRACE_GETEVENTMSG.

Inductive log_tag := LogIsolated | LogAppZygote | LogTarget.

(** What the monitor does to the outside: ptrace requests (request, pid,
    data argument), the blocking wait of [new_zygote], the hand-off to the
    hide daemon, [setitimer] (interval in microseconds), the three [LOGI]
    lines of [check_pid], and the calls of [term_thread]. *)
Inductive event :=
| Ptrace (req : ptrace_request) (pid data : Z)
| Waitpid (pid : Z)
| HideDaemon (pid : Z)
| Setitimer (usec : Z)
| Logi (tag : log_tag) (cmdline : string) (pid uid : Z)
| SetHideState (b : bool)
| MutexDestroy
| Close (fd : Z)
| PthreadExit.

(** Signals, ptrace events and ptrace options (Linux values). *)
Definition SIGTRAP : Z := 5.
Definition SIGSTOP : Z := 19.
Definition PTRACE_EVENT_FORK : Z := 1.
Definition PTRACE_EVENT_VFORK : Z := 2.
Definition PTRACE_EVENT_CLONE : Z := 3.
Definition PTRACE_EVENT_EXEC : Z := 4.
Definition PTRACE_EVENT_EXIT : Z := 6.
Definition PTRACE_O_TRACEFORK : Z := Z.shiftl 1 PTRACE_EVENT_FORK.
Definition PTRACE_O_TRACEVFORK : Z := Z.shiftl 1 PTRACE_EVENT_VFORK.
Definition PTRACE_O_TRACECLONE : Z := Z.shiftl 1 PTRACE_EVENT_CLONE.
Definition PTRACE_O_TRACEEXEC : Z := Z.shiftl 1 PTRACE_EVENT_EXEC.
Definition PTRACE_O_TRACEEXIT : Z := Z.shiftl 1 PTRACE_EVENT_EXIT.

(** The wait-status macros of <sys/wait.h>, and [WEVENT] of the monitor. *)
Definition WIFSTOPPED (s : Z) : bool := Z.land s 255 =? 127.
Definition WSTOPSIG (s : Z) : Z := Z.shiftr (Z.land s 65280) 8.
Definition WEVENT (s : Z) : Z := Z.shiftr (Z.land s 4294901760) 16.

(** The part of the system the monitor looks at.  Files under /proc are
    indexed by pid: [proc_dir] is [stat("/proc/<pid>")], [proc_cmdline] the
    C string [fgets] leaves in the buffer after reading /proc/<pid>/cmdline,
    [proc_ns] is [stat("/proc/<pid>/ns/mnt")], [proc_ppid] the fourth field
    of /proc/<pid>/stat, and [proc_status] the lines of /proc/<pid>/status,
    each as its first token and the integer that follows it.  [None] means
    that the file cannot be opened.  [proc_entries] lists /proc as
    [crawl_procfs] reads it (the integer value of every entry name), and
    [data_entries] the entry names [xreaddir] yields for the application
    data directory.  [fs_stat] is [stat] on any other path. *)
Record world := World {
  proc_dir : Z -> option stat_t;
  proc_cmdline : Z -> option string;
  proc_ns : Z -> option stat_t;
  proc_ppid : Z -> option Z;
  proc_status : Z -> option (list (string * Z));
  proc_entries : list Z;
  data_entries : list string;
  fs_stat : string -> option stat_t
}.

(** The globals of the translation unit, with the interval timer and the
    event log.  [hide_set] holds the pairs of the [std::set] in iteration
    order; [attaches] is the [bitset<PID_MAX>] as a bit vector. *)
Record monitor := Monitor {
  hide_set : list (string * string);
  zygote_map : gmap Z stat_t;
  uid_proc_map : gmap Z (list string);
  attaches : Z;
  itimer : Z;
  inotify_fd : Z;
  events : list event
}.

Definition set_hide_set (v : list (string * string)) (m : monitor) : monitor :=
  Monitor v (zygote_map m) (uid_proc_map m) (attaches m) (itimer m)
          (inotify_fd m) (events m).
Definition set_zygote_map (v : gmap Z stat_t) (m : monitor) : monitor :=
  Monitor (hide_set m) v (uid_proc_map m) (attaches m) (itimer m)
          (inotify_fd m) (events m).
Definition set_uid_proc_map (v : gmap Z (list string)) (m : monitor) : monitor :=
  Monitor (hide_set m) (zygote_map m) v (attaches m) (itimer m)
          (inotify_fd m) (events m).
Definition set_attaches (v : Z) (m : monitor) : monitor :=
  Monitor (hide_set m) (zygote_map m) (uid_proc_map m) v (itimer m)
          (inotify_fd m) (events m).
Definition set_itimer (v : Z) (m : monitor) : monitor :=
  Monitor (hide_set m) (zygote_map m) (uid_proc_map m) (attaches m) v
          (inotify_fd m) (events m).
Definition set_inotify_fd (v : Z) (m : monitor) : monitor :=
  Monitor (hide_set m) (zygote_map m) (uid_proc_map m) (attaches m) (itimer m)
          v (events m).
Definition set_events (v : list event) (m : monitor) : monitor :=
  Monitor (hide_set m) (zygote_map m) (uid_proc_map m) (attaches m) (itimer m)
          (inotify_fd m) v.

(** ** The monad of the monitor

    A computation reads and writes the monitor state; [None] is undefined
    behaviour (an access outside the bitset). *)
Definition M (A : Type) : Type := monitor -> option (A * monitor).

Definition ret {A} (a : A) : M A := fun m => Some (a, m).
Definition bind {A B} (c : M A) (k : A -> M B) : M B :=
  fun m => match c m with
           | Some (a, m') => k a m'
           | None => None
           end.
Definition gets {A} (f : monitor -> A) : M A := fun m => Some (f m, m).
Definition modify (f : monitor -> monitor) : M unit := fun m => Some (tt, f m).
Definition emit (e : event) : M unit :=
  modify (fun m => set_events (events m ++ [e]) m).

Declare Scope monitor_scope.
Delimit Scope monitor_scope with M.
Notation "x ← y ; z" := (bind y (fun x => z)) : monitor_scope.
Notation "y ;; z" := (bind y (fun _ => z)) : monitor_scope.
Local Open Scope monitor_scope.

(** ** String helpers *)

(** Modelled from the spec: [str_starts] and [str_ends] of utils.hpp are not
    part of the sources; [str_starts s ss] holds when [ss] is a prefix of
    [s], [str_ends s ss] when [ss] is a suffix of [s]. *)
Definition str_starts (s ss : string) : bool := String.prefix ss s.
Definition str_ends (s ss : string) : bool :=
  (String.length ss <=? String.length s)%nat &&
  String.eqb (String.substring (String.length s - String.length ss)
                               (String.length ss) s) ss.

(** ** The attach bitmap *)

Definition PID_MAX : Z := 32768.

Section Monitor.

(** [__LP64__], and two constants of magiskhide.hpp that are not part of
    the sources. *)
Variable lp64 : bool.
Variable ISOLATED_MAGIC : string.
Variable APP_DATA_DIR : string.
Variable w : world.

(** [pid_set::operator[]]: bit [pos - 1] of the bitset, in [size_t]
    arithmetic.  [bitset::operator[]] does not check the index. *)
Definition pid_set_index (pos : Z) : Z :=
  (to_size_t lp64 pos - 1) mod 2 ^ size_bits lp64.

Definition pid_set_in_bounds (pos : Z) : bool := pid_set_index pos <? PID_MAX.

Definition pid_set_get (set : Z) (pos : Z) : option bool :=
  if pid_set_in_bounds pos then Some (Z.testbit set (pid_set_index pos))
  else None.

Definition pid_set_put (set : Z) (pos : Z) (b : bool) : option Z :=
  if pid_set_in_bounds pos
  then Some (if b then Z.setbit set (pid_set_index pos)
             else Z.clearbit set (pid_set_index pos))
  else None.

Definition attaches_get (pos : Z) : M bool :=
  fun m => match pid_set_get (attaches m) pos with
           | Some b => Some (b, m)
           | None => None
           end.

Definition attaches_put (pos : Z) (b : bool) : M unit :=
  fun m => match pid_set_put (attaches m) pos b with
           | Some set => Some (tt, set_attaches set m)
           | None => None
           end.

(** ** Utils *)

(** [read_ns]: [stat] fills [*st] only when it succeeds. *)
Definition read_ns (pid : Z) (st : stat_t) : Z * stat_t :=
  match proc_ns w pid with
  | Some st' => (0, st')
  | None => (-1, st)
  end.

Definition parse_ppid (pid : Z) : Z :=
  match proc_ppid w pid with
  | Some ppid => ppid
  | None => -1
  end.

Definition xptrace (req : ptrace_request) (pid data : Z) : M unit :=
  emit (Ptrace req pid data).

(** ** update_uid_map *)

(** [uid_proc_map[k].emplace_back(v)] *)
Definition emplace_back (k : Z) (v : string) (m : gmap Z (list string))
  : gmap Z (list string) :=
  <[k := default [] (m !! k) ++ [v]]> m.

(** The body of the inner loop, for one pair of [hide_set] and the user
    directory [user_path] (which ends in a slash). *)
Definition uid_map_hide (user_path : string) (first_iter : bool)
    (hide : string * string) (m : gmap Z (list string)) : gmap Z (list string) :=
  if String.eqb hide.1 ISOLATED_MAGIC && negb first_iter then m
  else
    let m1 := if String.eqb hide.1 ISOLATED_MAGIC
              then emplace_back (-1) hide.2 m else m in
    match fs_stat w (user_path +:+ hide.1) with
    | None => m1
    | Some st => emplace_back (to_int (st_uid st)) hide.2 m1
    end.

(** The inner loop over [hide_set]. *)
Definition uid_map_hides (user_path : string) (first_iter : bool)
    (hs : list (string * string)) (m : gmap Z (list string))
  : gmap Z (list string) :=
  fold_left (fun m hide => uid_map_hide user_path first_iter hide m) hs m.

(** [data_path] once the name of a user directory and a slash have been
    appended to it. *)
Definition user_dir (d_name : string) : string :=
  APP_DATA_DIR +:+ "/" +:+ d_name +:+ "/".

(** The outer loop over the entries of the data directory. *)
Fixpoint uid_map_users (entries : list string) (first_iter : bool)
    (hs : list (string * string)) (m : gmap Z (list string))
  : gmap Z (list string) :=
  match entries with
  | [] => m
  | d_name :: rest =>
      uid_map_users rest false hs
        (uid_map_hides (user_dir d_name) first_iter hs m)
  end.

Definition update_uid_map : M unit :=
  modify (set_uid_proc_map ∅);;
  hs ← gets hide_set;
  modify (fun m => set_uid_proc_map
                     (uid_map_users (data_entries w) true hs (uid_proc_map m)) m).

(** ** Zygotes *)

Definition is_zygote_done (m : monitor) : bool :=
  if lp64 then (2 <=? size (zygote_map m))%nat
  else (1 <=? size (zygote_map m))%nat.

Definition new_zygote (pid : Z) : M unit :=
  match proc_ns w pid with
  | None => ret tt
  | Some st =>
      zm ← gets zygote_map;
      match zm !! pid with
      | Some _ => modify (fun m => set_zygote_map (<[pid := st]> (zygote_map m)) m)
      | None =>
          modify (fun m => set_zygote_map (<[pid := st]> (zygote_map m)) m);;
          xptrace PTRACE_ATTACH pid 0;;
          emit (Waitpid pid);;
          xptrace PTRACE_SETOPTIONS pid
            (Z.lor (Z.lor PTRACE_O_TRACEFORK PTRACE_O_TRACEVFORK) PTRACE_O_TRACEEXIT);;
          xptrace PTRACE_CONT pid 0
      end
  end.

(** Modelled from the spec: [crawl_procfs] of utils is not part of the
    sources; it enumerates the pids of procfs and calls [fn] on each one, until
    [fn] returns false. *)
Fixpoint crawl (fn : Z -> M bool) (entries : list Z) : M unit :=
  match entries with
  | [] => ret tt
  | pid :: rest =>
      if 0 <? pid
      then continue ← fn pid;
           if continue then crawl fn rest else ret tt
      else crawl fn rest
  end.

Definition crawl_procfs (fn : Z -> M bool) : M unit := crawl fn (proc_entries w).

(** The callback of [check_zygote]. *)
Definition zygote_callback (pid : Z) : M bool :=
  match proc_cmdline w pid with
  | Some buf =>
      (if String.prefix "zygote"%string buf && (parse_ppid pid =? 1)
       then new_zygote pid else ret tt);;
      ret true
  | None => ret true
  end.

Definition setitimer (usec : Z) : M unit :=
  modify (set_itimer usec);; emit (Setitimer usec).

Definition check_zygote : M unit :=
  crawl_procfs zygote_callback;;
  done ← gets is_zygote_done;
  if done then setitimer 0 else ret tt.

(** ** Signal handlers *)

Definition IN_CLOSE_WRITE : Z := 8.

(** [pending] is the event [read] returns (mask and name), or [None] when
    [poll] reports nothing to read. *)
Definition inotify_event (pending : option (Z * string)) : M unit :=
  match pending with
  | None => ret tt
  | Some (mask, name) =>
      (if negb (Z.land mask IN_CLOSE_WRITE =? 0) && String.eqb name "packages.xml"
       then update_uid_map else ret tt);;
      check_zygote
  end.

Definition term_thread : M unit :=
  modify (set_uid_proc_map ∅);;
  modify (set_zygote_map ∅);;
  modify (set_hide_set []);;
  modify (set_attaches 0);;
  emit (SetHideState false);;
  emit MutexDestroy;;
  (fd ← gets inotify_fd; emit (Close fd));;
  modify (set_inotify_fd (-1));;
  emit PthreadExit.

(** ** Ptrace *)

Definition detach_pid (pid signal : Z) : M unit :=
  attaches_put pid false;;
  emit (Ptrace PTRACE_DETACH pid signal).

Definition hide_daemon (pid : Z) : M unit := emit (HideDaemon pid).

Definition is_zygote_name (cmdline : string) : bool :=
  String.eqb cmdline "zygote"%string || String.eqb cmdline "zygote32" ||
  String.eqb cmdline "zygote64" || String.eqb cmdline "usap32" ||
  String.eqb cmdline "usap64".

Definition is_isolated (uid : Z) : bool := 90000 <? Z.rem uid 100000.

(** The two labels of [check_pid]. *)
Definition not_target (pid : Z) : M bool := detach_pid pid 0;; ret true.
Definition inject_and_hide (pid : Z) : M bool := detach_pid pid 0;; ret true.

(** Some zygote of the registry has the namespace [st]. *)
Definition ns_shared (zm : gmap Z stat_t) (st : stat_t) : bool :=
  existsb (fun zit => (st_ino zit.2 =? st_ino st) && (st_dev zit.2 =? st_dev st))
          (map_to_list zm).

(** The loop over the names configured for [uid]; [st] is the [struct stat]
    filled from /proc/<pid>. *)
Fixpoint check_names (pid uid : Z) (cmdline : string) (st : stat_t)
    (names : list string) : M bool :=
  match names with
  | [] => not_target pid
  | s :: rest =>
      if negb (String.eqb s cmdline) then check_names pid uid cmdline st rest
      else if str_ends s "_zygote"
      then emit (Logi LogAppZygote cmdline pid uid);; inject_and_hide pid
      else
        let st' := (read_ns pid st).2 in
        zm ← gets zygote_map;
        if ns_shared zm st' then not_target pid
        else
          emit (Logi LogTarget cmdline pid uid);;
          detach_pid pid SIGSTOP;;
          hide_daemon pid;;
          ret true
  end.

(** The lookup of [uid] in [uid_proc_map] and the loop that follows it. *)
Definition check_uid (pid uid : Z) (cmdline : string) (st : stat_t) : M bool :=
  map ← gets uid_proc_map;
  match map !! uid with
  | None => not_target pid
  | Some names => check_names pid uid cmdline st names
  end.

Definition check_pid (pid : Z) : M bool :=
  match proc_dir w pid with
  | None => detach_pid pid 0;; ret true
  | Some st =>
      if st_uid st =? 0 then ret false
      else
        match proc_cmdline w pid with
        | None => detach_pid pid 0;; ret true
        | Some cmdline =>
            if is_zygote_name cmdline then ret false
            else
              let uid := to_int (st_uid st) in
              if is_isolated uid then
                map ← gets uid_proc_map;
                match map !! (-1) with
                | None => not_target pid
                | Some prefixes =>
                    if existsb (str_starts cmdline) prefixes
                    then emit (Logi LogIsolated cmdline pid uid);;
                         inject_and_hide pid
                    else check_uid pid uid cmdline st
                end
              else check_uid pid uid cmdline st
        end
  end.

Fixpoint find_tgid (pid : Z) (lines : list (string * Z)) : bool :=
  match lines with
  | [] => false
  | (key, tgid) :: rest =>
      if String.eqb key "Tgid:" then tgid =? pid else find_tgid pid rest
  end.

Definition is_process (pid : Z) : bool :=
  match proc_status w pid with
  | None => false
  | Some lines => find_tgid pid lines
  end.

(** ** The body of the main loop

    One iteration of the loop of [proc_monitor]: [pid] and [status] are what
    [waitpid] returned, [msg] what [PTRACE_GETEVENTMSG] stores. *)
Definition trace_options : Z :=
  Z.lor (Z.lor PTRACE_O_TRACECLONE PTRACE_O_TRACEEXEC) PTRACE_O_TRACEEXIT.

Definition zygote_event (pid event msg : Z) : M unit :=
  if (event =? PTRACE_EVENT_FORK) || (event =? PTRACE_EVENT_VFORK)
  then attaches_put msg true;; xptrace PTRACE_CONT pid 0
  else modify (fun m => set_zygote_map (delete pid (zygote_map m)) m);;
       detach_pid pid 0.

Definition child_event (pid event : Z) : M unit :=
  if event =? PTRACE_EVENT_CLONE
  then
    attached ← attaches_get pid;
    if attached
    then consumed ← check_pid pid;
         if consumed then ret tt else xptrace PTRACE_CONT pid 0
    else xptrace PTRACE_CONT pid 0
  else detach_pid pid 0.

Definition sigstop_stop (pid : Z) : M unit :=
  attached ← attaches_get pid;
  (if attached then ret tt else attaches_put pid (is_process pid));;
  attached ← attaches_get pid;
  if attached
  then xptrace PTRACE_SETOPTIONS pid trace_options;;
       xptrace PTRACE_CONT pid 0
  else detach_pid pid 0.

Definition monitor_step (pid status msg : Z) : M unit :=
  if pid <? 0 then ret tt
  else if negb (WIFSTOPPED status) then detach_pid pid 0
  else
    let event := WEVENT status in
    let signal := WSTOPSIG status in
    if (signal =? SIGTRAP) && negb (event =? 0) then
      xptrace PTRACE_GETEVENTMSG pid 0;;
      zm ← gets zygote_map;
      match zm !! pid with
      | Some _ => zygote_event pid event msg
      | None => child_event pid event
      end
    else if signal =? SIGSTOP then sigstop_stop pid
    else xptrace PTRACE_CONT pid signal.

(** The start of [proc_monitor], after the signal and inotify set-up: a
    first scan, then the 250 ms timer if zygotes are still missing. *)
Definition first_scan : M unit :=
  check_zygote;;
  done ← gets is_zygote_done;
  if done then ret tt else setitimer 250000.

End Monitor.

(** ** Notions used in the statements *)

(** The number of calls of the hide daemon on [pid] in a log. *)
Definition is_hide_daemon (pid : Z) (e : event) : bool :=
  match e with
  | HideDaemon p => p =? pid
  | _ => false
  end.

Definition hide_daemon_calls (pid : Z) (log : list event) : nat :=
  length (List.filter (is_hide_daemon pid) log).

(** The state [detach_pid] leaves when the pid is inside the bitmap. *)
Definition detached (lp64 : bool) (pid signal : Z) (m : monitor) : monitor :=
  set_events (events m ++ [Ptrace PTRACE_DETACH pid signal])
    (set_attaches (Z.clearbit (attaches m) (pid_set_index lp64 pid)) m).

(** The monitor with the isolated bucket [uid_proc_map[-1]] replaced. *)
Definition with_bucket (prefixes : list string) (m : monitor) : monitor :=
  set_uid_proc_map (<[-1 := prefixes]> (uid_proc_map m)) m.

(** The same outcome, up to the isolated bucket. *)
Definition bucket_lift {A} (prefixes : list string) (r : option (A * monitor))
  : option (A * monitor) :=
  match r with
  | Some (a, m) => Some (a, with_bucket prefixes m)
  | None => None
  end.

(** The names listed under [uid] in a uid map (none when the key is
    absent). *)
Definition names_at (uid : Z) (map : gmap Z (list string)) : list string :=
  default [] (map !! uid).

(** What makes [update_uid_map] list a pair of the hide set under [uid] while
    it visits the user directory [user_path]: the isolated bucket for a
    sentinel pair, or the owner of the package directory; sentinel pairs are
    only looked at during the first iteration. *)
Definition contributes (ISOLATED_MAGIC : string) (w : world)
    (user_path : string) (first_iter : bool) (pkg : string) (uid : Z) : Prop :=
  (pkg = ISOLATED_MAGIC -> first_iter = true) /\
  ((pkg = ISOLATED_MAGIC /\ uid = -1) \/
   exists st, fs_stat w (user_path +:+ pkg) = Some st /\ to_int (st_uid st) = uid).

(** The intervals of the [setitimer] calls of a log, in order. *)
Definition timer_calls (log : list event) : list Z :=
  omap (fun e => match e with Setitimer usec => Some usec | _ => None end) log.

(** The processes [check_zygote] takes for zygotes, and the namespace a scan
    of [entries] records for [pid]. *)
Definition is_zygote_proc (w : world) (pid : Z) : bool :=
  (0 <? pid) &&
  match proc_cmdline w pid with
  | Some buf => String.prefix "zygote" buf && (parse_ppid w pid =? 1)
  | None => false
  end.

Definition scanned (w : world) (entries : list Z) (pid : Z) : option stat_t :=
  if existsb (Z.eqb pid) entries && is_zygote_proc w pid
  then proc_ns w pid else None.

(** The number of zygotes [is_zygote_done] waits for. *)
Definition expected_zygotes (lp64 : bool) : nat := if lp64 then 2 else 1.

(** Everything but the registry and the log is as before. *)
Definition scan_frame (m m' : monitor) : Prop :=
  hide_set m' = hide_set m /\ uid_proc_map m' = uid_proc_map m /\
  attaches m' = attaches m /\ itimer m' = itimer m /\
  inotify_fd m' = inotify_fd m /\
  timer_calls (events m') = timer_calls (events m).

(** A computation that leaves the hide set as it found it. *)
Definition preserves_hide_set {A} (c : M A) : Prop :=
  forall m a m', c m = Some (a, m') -> hide_set m' = hide_set m.

(** ** The loop of [proc_monitor] over a sequence of stops

    The loop runs for ever; [proc_monitor_loop] runs it over the stops
    [waitpid] reports one after the other.  Each stop comes with the system
    as it is at that moment, the pid and status [waitpid] returned, and the
    message of the event. *)
Fixpoint proc_monitor_loop (lp64 : bool) (stops : list (world * Z * Z * Z))
  : M unit :=
  match stops with
  | [] => ret tt
  | (w, pid, status, msg) :: rest =>
      monitor_step lp64 w pid status msg;;
      proc_monitor_loop lp64 rest
  end.

(** ** Further notions used in the statements *)

(** The status [waitpid] reports for a traced process stopped by [signal],
    with the ptrace event [event] (zero for a plain signal stop). *)
Definition stop_status (signal event : Z) : Z :=
  127 + signal * 256 + event * 65536.

(** The number of PTRACE_DETACH and PTRACE_ATTACH requests on [pid] in a
    log. *)
Definition is_request (req : ptrace_request) (pid : Z) (e : event) : bool :=
  match e with
  | Ptrace r p _ =>
      (p =? pid) &&
      match req, r with
      | PTRACE_CONT, PTRACE_CONT | PTRACE_ATTACH, PTRACE_ATTACH
      | PTRACE_DETACH, PTRACE_DETACH | PTRACE_SETOPTIONS, PTRACE_SETOPTIONS
      | PTRACE_GETEVENTMSG, PTRACE_GETEVENTMSG => true
      | _, _ => false
      end
  | _ => false
  end.

Definition request_calls (req : ptrace_request) (pid : Z) (log : list event)
  : nat :=
  length (List.filter (is_request req pid) log).

(** The state after the hand-over of [pid] to the hide daemon. *)
Definition handed_off (lp64 : bool) (pid uid : Z) (cmdline : string)
    (m : monitor) : monitor :=
  set_events (events m ++ [Logi LogTarget cmdline pid uid;
                           Ptrace PTRACE_DETACH pid SIGSTOP; HideDaemon pid])
    (set_attaches (Z.clearbit (attaches m) (pid_set_index lp64 pid)) m).

(** The state after a line of the log followed by a plain detach. *)
Definition logged_detach (lp64 : bool) (tag : log_tag) (pid uid : Z)
    (cmdline : string) (m : monitor) : monitor :=
  detached lp64 pid 0 (set_events (events m ++ [Logi tag cmdline pid uid]) m).

(** What [check_pid] requires of a pid before it hands it over. *)
Definition verified_target (w : world) (m : monitor) (pid : Z) (st : stat_t)
    (cmdline : string) : Prop :=
  proc_dir w pid = Some st /\ st_uid st <> 0 /\
  proc_cmdline w pid = Some cmdline /\ is_zygote_name cmdline = false /\
  (exists names, uid_proc_map m !! to_int (st_uid st) = Some names /\
                 In cmdline names) /\
  str_ends cmdline "_zygote" = false /\
  ns_shared (zygote_map m) (read_ns w pid st).2 = false.

(** [check_pid] has nothing to decide yet: the process is still root, or
    still carries the name of its zygote. *)
Definition not_yet (w : world) (pid : Z) : Prop :=
  exists st, proc_dir w pid = Some st /\
             (st_uid st = 0 \/
              exists cmdline, proc_cmdline w pid = Some cmdline /\
                              is_zygote_name cmdline = true).

(** A computation whose outcomes are all related to the state it starts
    from, and a computation that never runs into undefined behaviour. *)
Definition respects {A} (R : monitor -> monitor -> Prop) (c : M A) : Prop :=
  forall m a m', c m = Some (a, m') -> R m m'.

Definition defined {A} (c : M A) : Prop :=
  forall m, exists a m', c m = Some (a, m').

(** The entries the main loop may add to the log: trace requests other than
    PTRACE_ATTACH, the lines of [check_pid] and the calls of the hide
    daemon. *)
Definition loop_event (e : event) : Prop :=
  match e with
  | Ptrace PTRACE_ATTACH _ _ => False
  | Ptrace _ _ _ | Logi _ _ _ _ | HideDaemon _ => True
  | _ => False
  end.

(** Every call of the hide daemon in the log comes right after a
    PTRACE_DETACH of the same pid that delivers SIGSTOP. *)
Definition handoffs_ok (log : list event) : Prop :=
  forall before after pid,
    log = before ++ HideDaemon pid :: after ->
    exists earlier, before = earlier ++ [Ptrace PTRACE_DETACH pid SIGSTOP].

(** What an iteration of the main loop may change: it may drop zygotes from
    the registry and extend the log with [loop_event]s in which every
    hand-over follows its detach; the hide set, the uid map, the timer and
    the inotify descriptor stay. *)
Definition loop_rel (m m' : monitor) : Prop :=
  zygote_map m' ⊆ zygote_map m /\ uid_proc_map m' = uid_proc_map m /\
  hide_set m' = hide_set m /\ itimer m' = itimer m /\
  inotify_fd m' = inotify_fd m /\
  exists added,
    events m' = events m ++ added /\ Forall loop_event added /\
    handoffs_ok added.

(** The status of a fork or vfork event, and a stop whose pid, and whose
    message if it is such an event, lie between 1 and 32768. *)
Definition is_fork_event (status : Z) : bool :=
  WIFSTOPPED status && (WSTOPSIG status =? SIGTRAP) &&
  ((WEVENT status =? PTRACE_EVENT_FORK) || (WEVENT status =? PTRACE_EVENT_VFORK)).

Definition stop_in_range (stop : world * Z * Z * Z) : Prop :=
  let '(_, pid, status, msg) := stop in
  (pid < 0 \/ 1 <= pid <= PID_MAX) /\
  (is_fork_event status = true -> 1 <= msg <= PID_MAX).

(** The options [new_zygote] sets on a zygote. *)
Definition zygote_options : Z :=
  Z.lor (Z.lor PTRACE_O_TRACEFORK PTRACE_O_TRACEVFORK) PTRACE_O_TRACEEXIT.

(** The state after [setitimer] with the interval [usec]. *)
Definition timer_set (usec : Z) (m : monitor) : monitor :=
  set_events (events m ++ [Setitimer usec]) (set_itimer usec m).

(** One when [pid] is in the registry [after] but not in [before]. *)
Definition newly_registered (before after : gmap Z stat_t) (pid : Z) : nat :=
  match before !! pid, after !! pid with
  | None, Some _ => 1
  | _, _ => 0
  end.

(** The processes of the sentinel pairs of a hide set, in order. *)
Definition sentinel_names (ISOLATED_MAGIC : string) (hs : list (string * string))
  : list string :=
  List.map snd (List.filter (fun hide => String.eqb hide.1 ISOLATED_MAGIC) hs).

(** A uid map without empty lists. *)
Definition nonempty_lists (map : gmap Z (list string)) : Prop :=
  forall uid names, map !! uid = Some names -> names <> [].

(** ** Example systems

    A device with the 64-bit and the 32-bit zygote running (pids 600 and
    601), one user, and the package com.example.target installed under uid
    10042.  Pid 1234 is a forked application process; pid 1235 is one of its
    threads. *)

Definition zygote_ns : stat_t := Stat 4 4026531840 0.
Definition app_ns : stat_t := Stat 4 4026532217 0.

Definition ex_proc_dir (uid : Z) (pid : Z) : option stat_t :=
  if (pid =? 600) || (pid =? 601) then Some (Stat 5 pid 0)
  else if (pid =? 1234) || (pid =? 1235) then Some (Stat 5 pid uid)
  else None.

Definition ex_cmdline (name : string) (pid : Z) : option string :=
  if pid =? 600 then Some "zygote64"%string
  else if pid =? 601 then Some "zygote"%string
  else if (pid =? 1234) || (pid =? 1235) then Some name
  else None.

Definition ex_ns (ns : stat_t) (pid : Z) : option stat_t :=
  if (pid =? 600) || (pid =? 601) then Some zygote_ns
  else if (pid =? 1234) || (pid =? 1235) then Some ns
  else None.

Definition ex_ppid (pid : Z) : option Z :=
  if (pid =? 600) || (pid =? 601) then Some 1
  else if (pid =? 1234) || (pid =? 1235) then Some 600
  else None.

Definition ex_status (pid : Z) : option (list (string * Z)) :=
  if (pid =? 1234) || (pid =? 1235)
  then Some [("Name:"%string, 0); ("Umask:"%string, 77); ("State:"%string, 0);
             ("Tgid:"%string, 1234); ("Ngid:"%string, 0); ("Pid:"%string, pid)]
  else None.

Definition ex_fs_stat (path : string) : option stat_t :=
  if String.eqb path "/data/user_de/0/com.example.target"
  then Some (Stat 64 1181 10042) else None.

(** The child has the uid [uid], the command line [name] and the mount
    namespace [ns]. *)
Definition ex_world (uid : Z) (name : string) (ns : stat_t) : world :=
  World (ex_proc_dir uid) (ex_cmdline name) (ex_ns ns) ex_ppid ex_status
        [-1; 1; 600; 601; 1234] ["0"%string] ex_fs_stat.

(** The same system after the 32-bit zygote (pid 601) has exited. *)
Definition ex_world_after_exit : world :=
  World (ex_proc_dir 10042) (ex_cmdline "com.example.target") (ex_ns app_ns)
        ex_ppid ex_status [-1; 1; 600; 1234] ["0"%string] ex_fs_stat.

(** A system on which no zygote runs yet. *)
Definition early_world : world :=
  World (fun _ => None) (fun _ => None) (fun _ => None) (fun _ => None)
        (fun _ => None) [-1; 1] ["0"%string] ex_fs_stat.

Definition ex_hide_set : list (string * string) :=
  [("com.example.target"%string, "com.example.target"%string)].

(** A hide set in which two packages name the same process; only the first
    package is installed. *)
Definition twin_hide_set : list (string * string) :=
  [("com.example.target"%string, "com.example.target"%string);
   ("com.example.twin"%string, "com.example.target"%string)].

(** The monitor when [proc_monitor] starts. *)
Definition init_monitor (hs : list (string * string)) : monitor :=
  Monitor hs ∅ ∅ 0 0 3 [].

(** The monitor once both zygotes are traced, the uid map is built from
    [names] for uid 10042, and pid 1234 is marked in the bitmap. *)
Definition ex_monitor (names : list string) : monitor :=
  Monitor ex_hide_set
          (<[600 := zygote_ns]> (<[601 := zygote_ns]> ∅))
          (<[10042 := names]> ∅)
          (Z.setbit 0 1233) 0 3 [].

(** * Properties *)

(** ** The monad and the bitmap *)

Ltac unfold_monad :=
  unfold xptrace, hide_daemon, setitimer, emit, bind, ret, gets, modify in *.

Ltac fields :=
  cbn [hide_set zygote_map uid_proc_map attaches itimer inotify_fd events
       set_hide_set set_zygote_map set_uid_proc_map set_attaches set_itimer
       set_inotify_fd set_events fst snd] in *.

Lemma size_bits_pow (lp64 : bool) : 2 ^ 32 <= 2 ^ size_bits lp64.
Proof. destruct lp64; cbn; lia. Qed.

Lemma pid_set_index_int (lp64 : bool) (pos : Z) :
  1 <= pos <= PID_MAX -> pid_set_index lp64 pos = pos - 1.
Proof.
  intros Hpos. unfold pid_set_index, to_size_t, PID_MAX in *.
  pose proof (size_bits_pow lp64) as Hw.
  rewrite (Z.mod_small pos) by lia. apply Z.mod_small. lia.
Qed.

Lemma pid_set_index_outside (lp64 : bool) (pos : Z) :
  - 2 ^ 31 <= pos < 2 ^ size_bits lp64 -> pos < 1 \/ PID_MAX < pos ->
  PID_MAX <= pid_set_index lp64 pos.
Proof.
  intros Hrange Hout. unfold pid_set_index, to_size_t, PID_MAX in *.
  pose proof (size_bits_pow lp64) as Hw.
  set (W := 2 ^ size_bits lp64) in *.
  destruct (Z.eq_dec pos 0) as [-> | Hnz].
  - rewrite Z.mod_0_l by lia.
    replace (0 - 1) with ((W - 1) + (-1) * W) by lia.
    rewrite Z.mod_add by lia. rewrite Z.mod_small by lia. lia.
  - destruct (Z.lt_ge_cases pos 0) as [Hneg | Hpos].
    + replace pos with ((pos + W) + (-1) * W) at 1 by lia.
      rewrite Z.mod_add by lia. rewrite (Z.mod_small (pos + W)) by lia.
      rewrite Z.mod_small by lia. lia.
    + rewrite (Z.mod_small pos) by lia. rewrite Z.mod_small by lia. lia.
Qed.

Lemma pid_set_get_put (lp64 : bool) (set set' pos : Z) (b : bool) :
  pid_set_put lp64 set pos b = Some set' -> pid_set_get lp64 set' pos = Some b.
Proof.
  unfold pid_set_put, pid_set_get. destruct (pid_set_in_bounds lp64 pos) eqn:Hb;
    [| discriminate].
  assert (0 <= pid_set_index lp64 pos) as Hi.
  { unfold pid_set_index. apply Z.mod_pos_bound. destruct lp64; cbn; lia. }
  intros [= <-]. f_equal. destruct b.
  - apply Z.setbit_eq. exact Hi.
  - apply Z.clearbit_eq.
Qed.

Lemma detach_pid_defined (lp64 : bool) (pid signal : Z) (m : monitor) :
  pid_set_in_bounds lp64 pid = true ->
  detach_pid lp64 pid signal m =
  Some (tt, set_events (events m ++ [Ptrace PTRACE_DETACH pid signal])
              (set_attaches (Z.clearbit (attaches m) (pid_set_index lp64 pid)) m)).
Proof.
  intros Hb. unfold detach_pid, attaches_put, pid_set_put. unfold_monad.
  rewrite Hb. reflexivity.
Qed.

(** C10: pid p lives at bit p - 1, so [attaches[p]] is inside the bitset
    exactly for 1 <= p <= 32768; pid 0 and every pid above 32768 (as well as
    a negative [int] converted to [size_t]) index outside of it. *)
Theorem pid_set_access_bounds (lp64 : bool) (set pos : Z) (b : bool) :
  - 2 ^ 31 <= pos < 2 ^ size_bits lp64 ->
  (1 <= pos <= PID_MAX ->
     pid_set_index lp64 pos = pos - 1 /\
     pid_set_get lp64 set pos = Some (Z.testbit set (pos - 1)) /\
     is_Some (pid_set_put lp64 set pos b)) /\
  (pos < 1 \/ PID_MAX < pos ->
     PID_MAX <= pid_set_index lp64 pos /\
     pid_set_get lp64 set pos = None /\
     pid_set_put lp64 set pos b = None).
Proof.
  intros Hrange. split.
  - intros Hin. pose proof (pid_set_index_int lp64 pos Hin) as Hi.
    unfold pid_set_get, pid_set_put, pid_set_in_bounds. rewrite Hi.
    assert ((pos - 1 <? PID_MAX) = true) as -> by (apply Z.ltb_lt; lia).
    repeat split; eauto.
  - intros Hout. pose proof (pid_set_index_outside lp64 pos Hrange Hout) as Hi.
    unfold pid_set_get, pid_set_put, pid_set_in_bounds.
    assert ((pid_set_index lp64 pos <? PID_MAX) = false) as ->
      by (apply Z.ltb_ge; lia).
    repeat split; eauto.
Qed.

Lemma pid_set_access_bounds_witness :
  pid_set_get true (Z.setbit 0 1233) 1234 = Some true /\
  pid_set_get true (Z.setbit 0 1233) 0 = None /\
  pid_set_put false (Z.setbit 0 1233) 32769 true = None.
Proof.
  split; [| split].
  - apply (pid_set_access_bounds true (Z.setbit 0 1233) 1234 true);
      [cbn; lia | unfold PID_MAX; lia].
  - apply (pid_set_access_bounds true (Z.setbit 0 1233) 0 true);
      [cbn; lia | lia].
  - apply (pid_set_access_bounds false (Z.setbit 0 1233) 32769 true);
      [cbn; lia | unfold PID_MAX; lia].
Defined.

(** ** The zygote registry *)

(** C5: [new_zygote] on a pid that is already registered, with a readable
    namespace, only overwrites the namespace stored for that pid: the
    registry keeps its size and its other entries, no event is emitted (no
    second PTRACE_ATTACH) and nothing else changes.  With an unreadable
    namespace the call returns with the whole state unchanged. *)
Theorem new_zygote_registered (w : world) (pid : Z) (old : stat_t) (m : monitor) :
  zygote_map m !! pid = Some old ->
  (forall st, proc_ns w pid = Some st ->
     new_zygote w pid m = Some (tt, set_zygote_map (<[pid := st]> (zygote_map m)) m) /\
     <[pid := st]> (zygote_map m) !! pid = Some st /\
     size (<[pid := st]> (zygote_map m)) = size (zygote_map m) /\
     dom (<[pid := st]> (zygote_map m)) = dom (zygote_map m) /\
     (forall q, q <> pid -> <[pid := st]> (zygote_map m) !! q = zygote_map m !! q) /\
     events (set_zygote_map (<[pid := st]> (zygote_map m)) m) = events m) /\
  (proc_ns w pid = None -> new_zygote w pid m = Some (tt, m)).
Proof.
  intros Hreg. split.
  - intros st Hns. unfold new_zygote. rewrite Hns. unfold_monad. rewrite Hreg.
    repeat split.
    + apply lookup_insert_eq.
    + rewrite map_size_insert. rewrite Hreg. reflexivity.
    + apply dom_insert_lookup_L. eauto.
    + intros q Hq. apply lookup_insert_ne. congruence.
  - intros Hns. unfold new_zygote. rewrite Hns. reflexivity.
Qed.

Lemma new_zygote_registered_witness :
  let w := ex_world 10042 "com.example.target" app_ns in
  let m := set_zygote_map (<[600 := Stat 4 1 0]> ∅) (init_monitor ex_hide_set) in
  new_zygote w 600 m = Some (tt, set_zygote_map (<[600 := zygote_ns]> (zygote_map m)) m) /\
  new_zygote early_world 600 m = Some (tt, m).
Proof.
  intros w m.
  assert (zygote_map m !! 600 = Some (Stat 4 1 0)) as Hreg by reflexivity.
  split.
  - destruct (new_zygote_registered w 600 (Stat 4 1 0) m Hreg) as [Hread _].
    destruct (Hread zygote_ns eq_refl) as [Hcall _]. exact Hcall.
  - destruct (new_zygote_registered early_world 600 (Stat 4 1 0) m Hreg)
      as [_ Hunreadable].
    exact (Hunreadable eq_refl).
Defined.

(** ** Threads and processes *)

Lemma clearbit_clear (a i : Z) : Z.testbit a i = false -> Z.clearbit a i = a.
Proof.
  intros Hbit. apply Z.bits_inj'. intros n Hn.
  destruct (Z.eq_dec i n) as [<- | Hne].
  - rewrite Z.clearbit_eq. symmetry. exact Hbit.
  - apply Z.clearbit_neq. exact Hne.
Qed.

Lemma set_attaches_same (m : monitor) : set_attaches (attaches m) m = m.
Proof. destruct m. reflexivity. Qed.

Lemma pid_set_get_in_bounds (lp64 : bool) (set pos : Z) (b : bool) :
  pid_set_get lp64 set pos = Some b ->
  pid_set_in_bounds lp64 pos = true /\ Z.testbit set (pid_set_index lp64 pos) = b.
Proof.
  unfold pid_set_get. destruct (pid_set_in_bounds lp64 pos); [| discriminate].
  intros [= <-]. split; reflexivity.
Qed.

Lemma pid_set_index_nonneg (lp64 : bool) (pos : Z) : 0 <= pid_set_index lp64 pos.
Proof. unfold pid_set_index. apply Z.mod_pos_bound. destruct lp64; cbn; lia. Qed.

(** [find_tgid] answers for the first line whose key is "Tgid:". *)
Lemma find_tgid_true (pid : Z) (lines : list (string * Z)) :
  find_tgid pid lines = true <->
  exists before after,
    lines = before ++ ("Tgid:"%string, pid) :: after /\
    Forall (fun line => line.1 <> "Tgid:"%string) before.
Proof.
  induction lines as [| [key tgid] rest IH]; cbn [find_tgid].
  - split; [discriminate |]. intros (before & after & Heq & _).
    destruct before; discriminate.
  - destruct (String.eqb_spec key "Tgid:") as [-> | Hkey].
    + rewrite Z.eqb_eq. split.
      * intros ->. exists [], rest. split; [reflexivity | constructor].
      * intros (before & after & Heq & Hall). destruct before as [| l before].
        -- injection Heq as ->. reflexivity.
        -- injection Heq as <- _. inversion Hall as [| ? ? Hhead _]. cbn in Hhead.
           congruence.
    + rewrite IH. split.
      * intros (before & after & -> & Hall).
        exists ((key, tgid) :: before), after. split; [reflexivity |].
        constructor; [exact Hkey | exact Hall].
      * intros (before & after & Heq & Hall). destruct before as [| l before].
        -- injection Heq as -> _. congruence.
        -- injection Heq as <- ->. inversion Hall; subst. eauto.
Qed.

(** C9: a SIGSTOP stop of a pid whose bit is clear.  [is_process] holds
    exactly when the status file is readable and its first "Tgid:" line
    carries the pid itself.  When it fails the only event is a plain
    PTRACE_DETACH (no PTRACE_SETOPTIONS, no PTRACE_CONT) and the bitmap is
    unchanged; when it holds the bit is set, PTRACE_SETOPTIONS is issued with
    the clone, exec and exit options, and the process is resumed. *)
Theorem sigstop_unmarked_pid (lp64 : bool) (w : world) (pid status msg : Z)
    (m : monitor) :
  0 <= pid -> WIFSTOPPED status = true -> WSTOPSIG status = SIGSTOP ->
  pid_set_get lp64 (attaches m) pid = Some false ->
  (is_process w pid = true <->
   exists before after,
     proc_status w pid = Some (before ++ ("Tgid:"%string, pid) :: after) /\
     Forall (fun line => line.1 <> "Tgid:"%string) before) /\
  (is_process w pid = false ->
   monitor_step lp64 w pid status msg m =
     Some (tt, set_events (events m ++ [Ptrace PTRACE_DETACH pid 0]) m) /\
   pid_set_get lp64 (attaches m) pid = Some false) /\
  (is_process w pid = true ->
   monitor_step lp64 w pid status msg m =
     Some (tt, set_events
                 (events m ++ [Ptrace PTRACE_SETOPTIONS pid trace_options;
                               Ptrace PTRACE_CONT pid 0])
                 (set_attaches (Z.setbit (attaches m) (pid_set_index lp64 pid)) m)) /\
   pid_set_get lp64 (Z.setbit (attaches m) (pid_set_index lp64 pid)) pid = Some true /\
   Z.testbit trace_options PTRACE_EVENT_CLONE = true /\
   Z.testbit trace_options PTRACE_EVENT_EXEC = true /\
   Z.testbit trace_options PTRACE_EVENT_EXIT = true).
Proof.
  intros Hpid Hstopped Hsig Hbit.
  destruct (pid_set_get_in_bounds _ _ _ _ Hbit) as [Hbounds Hclear].
  assert (monitor_step lp64 w pid status msg m = sigstop_stop lp64 w pid m) as Hstep.
  { unfold monitor_step. rewrite (proj2 (Z.ltb_ge pid 0) Hpid), Hstopped, Hsig.
    reflexivity. }
  split; [| split].
  - unfold is_process. destruct (proc_status w pid) as [lines |].
    + rewrite find_tgid_true. split.
      * intros (before & after & -> & Hall). eauto.
      * intros (before & after & [= ->] & Hall). eauto.
    + split; [discriminate |]. intros (? & ? & ? & _). discriminate.
  - intros Hthread. split; [| exact Hbit]. rewrite Hstep.
    unfold sigstop_stop, attaches_get, attaches_put, pid_set_put. unfold_monad.
    rewrite Hbit, Hbounds, Hthread. fields.
    rewrite (clearbit_clear _ _ Hclear), Hbit.
    rewrite detach_pid_defined by exact Hbounds. fields.
    rewrite (clearbit_clear _ _ Hclear), set_attaches_same. reflexivity.
  - intros Hleader. split; [| split].
    + rewrite Hstep.
      unfold sigstop_stop, attaches_get, attaches_put, pid_set_put. unfold_monad.
      rewrite Hbit, Hbounds, Hleader. fields.
      unfold pid_set_get. rewrite Hbounds.
      rewrite Z.setbit_eq by apply pid_set_index_nonneg. fields.
      rewrite <- app_assoc. reflexivity.
    + unfold pid_set_get. rewrite Hbounds.
      rewrite Z.setbit_eq by apply pid_set_index_nonneg. reflexivity.
    + repeat split; reflexivity.
Qed.

Lemma sigstop_unmarked_pid_witness :
  let w := ex_world 10042 "com.example.target" app_ns in
  let m := init_monitor ex_hide_set in
  monitor_step true w 1235 4991 0 m =
    Some (tt, set_events [Ptrace PTRACE_DETACH 1235 0] m) /\
  monitor_step true w 1234 4991 0 m =
    Some (tt, set_events [Ptrace PTRACE_SETOPTIONS 1234 trace_options;
                          Ptrace PTRACE_CONT 1234 0]
                (set_attaches (Z.setbit 0 1233) m)).
Proof.
  intros w m. split.
  - destruct (sigstop_unmarked_pid true w 1235 4991 0 m) as (_ & Hthread & _);
      [lia | reflexivity | reflexivity | reflexivity |].
    destruct (Hthread eq_refl) as [Hstep _]. exact Hstep.
  - destruct (sigstop_unmarked_pid true w 1234 4991 0 m) as (_ & _ & Hleader);
      [lia | reflexivity | reflexivity | reflexivity |].
    destruct (Hleader eq_refl) as [Hstep _]. exact Hstep.
Defined.

(** ** Classification *)

Lemma ns_shared_true (zm : gmap Z stat_t) (st : stat_t) :
  ns_shared zm st = true <->
  exists zpid zst,
    zm !! zpid = Some zst /\ st_ino zst = st_ino st /\ st_dev zst = st_dev st.
Proof.
  unfold ns_shared. rewrite existsb_exists. split.
  - intros ([zpid zst] & Hin & Heq). apply andb_true_iff in Heq as [Hino Hdev].
    apply Z.eqb_eq in Hino, Hdev. exists zpid, zst.
    apply list_elem_of_In, elem_of_map_to_list in Hin. auto.
  - intros (zpid & zst & Hlook & Hino & Hdev). exists (zpid, zst). split.
    + apply list_elem_of_In, elem_of_map_to_list. exact Hlook.
    + cbn. rewrite Hino, Hdev, !Z.eqb_refl. reflexivity.
Qed.

Lemma ns_shared_false (zm : gmap Z stat_t) (st : stat_t) :
  ns_shared zm st = false <->
  forall zpid zst,
    zm !! zpid = Some zst -> ~ (st_ino zst = st_ino st /\ st_dev zst = st_dev st).
Proof.
  rewrite <- not_true_iff_false, ns_shared_true. split.
  - intros Hno zpid zst Hlook [Hino Hdev]. apply Hno. eauto.
  - intros Hall (zpid & zst & Hlook & Hino & Hdev). exact (Hall _ _ Hlook (conj Hino Hdev)).
Qed.

Lemma detached_bit (lp64 : bool) (pid signal : Z) (m : monitor) :
  pid_set_in_bounds lp64 pid = true ->
  pid_set_get lp64 (attaches (detached lp64 pid signal m)) pid = Some false.
Proof.
  intros Hb. unfold detached, pid_set_get. fields. rewrite Hb, Z.clearbit_eq.
  reflexivity.
Qed.

Lemma not_target_defined (lp64 : bool) (pid : Z) (m : monitor) :
  pid_set_in_bounds lp64 pid = true ->
  not_target lp64 pid m = Some (true, detached lp64 pid 0 m).
Proof.
  intros Hb. unfold not_target, bind. rewrite detach_pid_defined by exact Hb.
  reflexivity.
Qed.

(** The loop of [check_pid] stops at the first configured name equal to the
    command line; what happens there does not depend on the names before
    it. *)
Lemma check_names_match (lp64 : bool) (w : world) (pid uid : Z)
    (cmdline : string) (st : stat_t) (names : list string) :
  In cmdline names ->
  check_names lp64 w pid uid cmdline st names =
  check_names lp64 w pid uid cmdline st [cmdline].
Proof.
  induction names as [| s rest IH]; [intros [] |].
  intros Hin. cbn [check_names]. rewrite String.eqb_refl. cbn [negb].
  destruct (String.eqb_spec s cmdline) as [-> | Hne]; cbn [negb].
  - reflexivity.
  - destruct Hin as [-> | Hin]; [congruence |].
    rewrite (IH Hin). cbn [check_names]. rewrite String.eqb_refl. reflexivity.
Qed.

(** [check_pid] up to the lookup of the uid, for a process that has left
    root, has a readable command line other than the zygote names, and is
    not caught by the isolated bucket. *)
Lemma check_pid_reaches_uid (lp64 : bool) (w : world) (pid : Z) (st : stat_t)
    (cmdline : string) (m : monitor) :
  proc_dir w pid = Some st -> st_uid st <> 0 ->
  proc_cmdline w pid = Some cmdline -> is_zygote_name cmdline = false ->
  (is_isolated (to_int (st_uid st)) = false \/
   exists prefixes, uid_proc_map m !! (-1) = Some prefixes /\
                    existsb (str_starts cmdline) prefixes = false) ->
  check_pid lp64 w pid m = check_uid lp64 w pid (to_int (st_uid st)) cmdline st m.
Proof.
  intros Hdir Huid Hcmd Hzyg Hiso. unfold check_pid.
  rewrite Hdir, (proj2 (Z.eqb_neq _ _) Huid), Hcmd, Hzyg.
  destruct (is_isolated (to_int (st_uid st))) eqn:Eiso; [| reflexivity].
  destruct Hiso as [Hiso | (prefixes & Hbucket & Hnone)]; [discriminate |].
  unfold bind at 1, gets at 1. rewrite Hbucket, Hnone. reflexivity.
Qed.

(** C1 (amended): a pid that has left root, whose command line equals a name
    configured for its uid, does not end in "_zygote" and is none of the
    zygote and usap names, whose uid is outside the isolated range (or is not
    matched by the isolated bucket), and whose mount namespace differs from
    that of every registered zygote, is handed over: [check_pid] returns
    true, and what it does is the log line, PTRACE_DETACH with SIGSTOP, then
    one call of the hide daemon on that pid; the bit of the pid is clear
    afterwards. *)
Theorem final_target_handoff (lp64 : bool) (w : world) (pid : Z)
    (st ns : stat_t) (cmdline : string) (names : list string) (m : monitor) :
  pid_set_in_bounds lp64 pid = true ->
  proc_dir w pid = Some st -> st_uid st <> 0 ->
  proc_cmdline w pid = Some cmdline ->
  uid_proc_map m !! to_int (st_uid st) = Some names -> In cmdline names ->
  str_ends cmdline "_zygote" = false ->
  proc_ns w pid = Some ns ->
  (forall zpid zst, zygote_map m !! zpid = Some zst ->
                    ~ (st_ino zst = st_ino ns /\ st_dev zst = st_dev ns)) ->
  is_zygote_name cmdline = false ->
  (is_isolated (to_int (st_uid st)) = false \/
   exists prefixes, uid_proc_map m !! (-1) = Some prefixes /\
                    existsb (str_starts cmdline) prefixes = false) ->
  let handoff := [Logi LogTarget cmdline pid (to_int (st_uid st));
                  Ptrace PTRACE_DETACH pid SIGSTOP; HideDaemon pid] in
  let m' := set_events (events m ++ handoff)
              (set_attaches (Z.clearbit (attaches m) (pid_set_index lp64 pid)) m) in
  check_pid lp64 w pid m = Some (true, m') /\
  hide_daemon_calls pid (events m') = S (hide_daemon_calls pid (events m)) /\
  pid_set_get lp64 (attaches m') pid = Some false.
Proof.
  intros Hb Hdir Huid Hcmd Hnames Hin Hsuffix Hns Hdistinct Hzyg Hiso handoff m'.
  split; [| split].
  - rewrite (check_pid_reaches_uid lp64 w pid st cmdline m) by assumption.
    unfold check_uid, bind at 1, gets at 1. rewrite Hnames.
    rewrite check_names_match by exact Hin. cbn [check_names].
    rewrite String.eqb_refl, Hsuffix. cbn [negb].
    unfold read_ns. rewrite Hns. cbn [snd].
    unfold bind at 1, gets at 1.
    rewrite (proj2 (ns_shared_false _ _) Hdistinct).
    unfold detach_pid, attaches_put, pid_set_put. unfold_monad. fields.
    rewrite Hb. fields. subst m' handoff. f_equal. f_equal.
    rewrite <- !app_assoc. reflexivity.
  - subst m' handoff. fields. unfold hide_daemon_calls.
    rewrite List.filter_app, length_app. cbn. rewrite Z.eqb_refl. cbn. lia.
  - subst m'. unfold pid_set_get. fields. rewrite Hb, Z.clearbit_eq. reflexivity.
Qed.

Lemma final_target_handoff_witness :
  let w := ex_world 10042 "com.example.target" app_ns in
  let m := ex_monitor ["com.example.other"%string; "com.example.target"%string] in
  check_pid true w 1234 m =
    Some (true,
          set_events [Logi LogTarget "com.example.target" 1234 10042;
                      Ptrace PTRACE_DETACH 1234 SIGSTOP; HideDaemon 1234]
            (set_attaches (Z.clearbit (attaches m) 1233) m)).
Proof.
  intros w m.
  refine (proj1 (final_target_handoff true w 1234 (Stat 5 1234 10042) app_ns
                   "com.example.target"
                   ["com.example.other"%string; "com.example.target"%string] m
                   _ _ _ _ _ _ _ _ _ _ _)).
  - reflexivity.
  - reflexivity.
  - cbn. lia.
  - reflexivity.
  - reflexivity.
  - cbn. auto.
  - reflexivity.
  - reflexivity.
  - apply ns_shared_false. reflexivity.
  - reflexivity.
  - left. reflexivity.
Defined.

(** C1 as stated fails on a configured name that is one of the zygote names
    (the pid is neither detached nor handed over) and on a uid of the
    isolated range (the pid is detached without a signal and not handed
    over), although the pid is not root, its command line equals a name
    configured for its uid, the name does not end in "_zygote" and its
    namespace is that of no registered zygote. *)
Lemma final_target_handoff_counterexample :
  (let w := ex_world 10042 "zygote64" app_ns in
   let m := ex_monitor ["zygote64"%string] in
   proc_dir w 1234 = Some (Stat 5 1234 10042) /\
   proc_cmdline w 1234 = Some "zygote64"%string /\
   uid_proc_map m !! 10042 = Some ["zygote64"%string] /\
   str_ends "zygote64" "_zygote" = false /\
   proc_ns w 1234 = Some app_ns /\
   ns_shared (zygote_map m) app_ns = false /\
   check_pid true w 1234 m = Some (false, m) /\
   hide_daemon_calls 1234 (events m) = 0%nat) /\
  (let w := ex_world 10090001 "com.example.target" app_ns in
   let m := set_uid_proc_map (<[10090001 := ["com.example.target"%string]]> ∅)
              (ex_monitor []) in
   proc_dir w 1234 = Some (Stat 5 1234 10090001) /\
   proc_cmdline w 1234 = Some "com.example.target"%string /\
   uid_proc_map m !! 10090001 = Some ["com.example.target"%string] /\
   str_ends "com.example.target" "_zygote" = false /\
   proc_ns w 1234 = Some app_ns /\
   ns_shared (zygote_map m) app_ns = false /\
   check_pid true w 1234 m = Some (true, detached true 1234 0 m) /\
   hide_daemon_calls 1234 (events (detached true 1234 0 m)) = 0%nat).
Proof. vm_compute. repeat split; reflexivity. Qed.

Lemma clearbit_twice (a i : Z) : Z.clearbit (Z.clearbit a i) i = Z.clearbit a i.
Proof. apply clearbit_clear, Z.clearbit_eq. Qed.

(** A trace-event stop of a pid that is not a zygote. *)
Lemma monitor_step_child_event (lp64 : bool) (w : world) (pid status msg : Z)
    (m : monitor) :
  0 <= pid -> WIFSTOPPED status = true -> WSTOPSIG status = SIGTRAP ->
  WEVENT status <> 0 -> zygote_map m !! pid = None ->
  monitor_step lp64 w pid status msg m =
  child_event lp64 w pid (WEVENT status)
    (set_events (events m ++ [Ptrace PTRACE_GETEVENTMSG pid 0]) m).
Proof.
  intros Hpid Hstopped Hsig Hev Hchild. unfold monitor_step.
  rewrite (proj2 (Z.ltb_ge pid 0) Hpid), Hstopped, Hsig.
  rewrite (proj2 (Z.eqb_neq _ _) Hev). cbn [negb andb Z.eqb SIGTRAP Pos.eqb].
  unfold_monad. fields. rewrite Hchild. reflexivity.
Qed.

(** C2 (amended): when everything makes the pid a target except that its
    mount namespace is that of a registered zygote, [check_pid] takes the
    not-a-target exit: the pid is detached without a signal, its bit is
    cleared, the hide daemon is not called and the stop counts as consumed.
    With the bit clear, a later clone stop of the pid is resumed without
    classification, whatever the system looks like by then, and an exec stop
    is detached without classification. *)
Theorem shared_namespace_detached (lp64 : bool) (w : world) (pid zpid : Z)
    (st ns zst : stat_t) (cmdline : string) (names : list string) (m : monitor) :
  pid_set_in_bounds lp64 pid = true ->
  proc_dir w pid = Some st -> st_uid st <> 0 ->
  proc_cmdline w pid = Some cmdline -> is_zygote_name cmdline = false ->
  is_isolated (to_int (st_uid st)) = false ->
  uid_proc_map m !! to_int (st_uid st) = Some names -> In cmdline names ->
  str_ends cmdline "_zygote" = false ->
  proc_ns w pid = Some ns ->
  zygote_map m !! zpid = Some zst ->
  st_ino zst = st_ino ns -> st_dev zst = st_dev ns ->
  let m' := detached lp64 pid 0 m in
  check_pid lp64 w pid m = Some (true, m') /\
  events m' = events m ++ [Ptrace PTRACE_DETACH pid 0] /\
  hide_daemon_calls pid (events m') = hide_daemon_calls pid (events m) /\
  pid_set_get lp64 (attaches m') pid = Some false /\
  (forall w' status msg,
     0 <= pid -> zygote_map m !! pid = None ->
     WIFSTOPPED status = true -> WSTOPSIG status = SIGTRAP ->
     (WEVENT status = PTRACE_EVENT_CLONE ->
      monitor_step lp64 w' pid status msg m' =
        Some (tt, set_events (events m' ++ [Ptrace PTRACE_GETEVENTMSG pid 0;
                                            Ptrace PTRACE_CONT pid 0]) m')) /\
     (WEVENT status = PTRACE_EVENT_EXEC ->
      monitor_step lp64 w' pid status msg m' =
        Some (tt, set_events (events m' ++ [Ptrace PTRACE_GETEVENTMSG pid 0;
                                            Ptrace PTRACE_DETACH pid 0]) m'))).
Proof.
  intros Hb Hdir Huid Hcmd Hzyg Hiso Hnames Hin Hsuffix Hns Hz Hino Hdev m'.
  assert (pid_set_get lp64 (attaches m') pid = Some false) as Hclear
    by (apply detached_bit; exact Hb).
  split; [| split; [| split; [| split]]].
  - rewrite (check_pid_reaches_uid lp64 w pid st cmdline m) by auto.
    unfold check_uid, bind at 1, gets at 1. rewrite Hnames.
    rewrite check_names_match by exact Hin. cbn [check_names].
    rewrite String.eqb_refl, Hsuffix. cbn [negb].
    unfold read_ns. rewrite Hns. cbn [snd].
    unfold bind at 1, gets at 1.
    rewrite (proj2 (ns_shared_true _ _)) by eauto.
    apply not_target_defined. exact Hb.
  - reflexivity.
  - subst m'. unfold detached, hide_daemon_calls. fields.
    rewrite List.filter_app, length_app. cbn. lia.
  - exact Hclear.
  - intros w' status msg Hpid Hchild Hstopped Hsig. split; intros Hev.
    + rewrite monitor_step_child_event; try assumption;
        [| rewrite Hev; discriminate]. rewrite Hev.
      unfold child_event, attaches_get. cbn [Z.eqb PTRACE_EVENT_CLONE Pos.eqb].
      unfold bind at 1. fields. rewrite Hclear. unfold_monad. fields.
      rewrite <- app_assoc. reflexivity.
    + rewrite monitor_step_child_event; try assumption;
        [| rewrite Hev; discriminate]. rewrite Hev.
      unfold child_event. cbn [Z.eqb PTRACE_EVENT_EXEC PTRACE_EVENT_CLONE Pos.eqb].
      rewrite detach_pid_defined by exact Hb. fields.
      subst m'. unfold detached. fields. rewrite clearbit_twice.
      rewrite <- app_assoc. reflexivity.
Qed.

Lemma shared_namespace_detached_witness :
  let w := ex_world 10042 "com.example.target" zygote_ns in
  let m := ex_monitor ["com.example.target"%string] in
  check_pid true w 1234 m = Some (true, detached true 1234 0 m).
Proof.
  intros w m.
  refine (proj1 (shared_namespace_detached true w 1234 600 (Stat 5 1234 10042)
                   zygote_ns zygote_ns "com.example.target"
                   ["com.example.target"%string] m _ _ _ _ _ _ _ _ _ _ _ _ _)).
  - reflexivity.
  - reflexivity.
  - cbn. lia.
  - reflexivity.
  - reflexivity.
  - reflexivity.
  - reflexivity.
  - cbn. auto.
  - reflexivity.
  - reflexivity.
  - reflexivity.
  - reflexivity.
  - reflexivity.
Defined.

(** C2 as stated fails: with the namespace still shared with a zygote the
    pid is not left attached, it is detached and its bit is cleared; when the
    pid later reports a clone stop (status 0x3057f) or an exec stop (status
    0x4057f) with its namespace now distinct, it is not classified and the
    hide daemon is never called. *)
Lemma shared_namespace_detached_counterexample :
  let m := ex_monitor ["com.example.target"%string] in
  let shared := ex_world 10042 "com.example.target" zygote_ns in
  let unshared := ex_world 10042 "com.example.target" app_ns in
  exists m1 m2 m3,
    check_pid true shared 1234 m = Some (true, m1) /\
    events m1 = [Ptrace PTRACE_DETACH 1234 0] /\
    pid_set_get true (attaches m1) 1234 = Some false /\
    monitor_step true unshared 1234 198015 0 m1 = Some (tt, m2) /\
    events m2 = [Ptrace PTRACE_DETACH 1234 0; Ptrace PTRACE_GETEVENTMSG 1234 0;
                 Ptrace PTRACE_CONT 1234 0] /\
    monitor_step true unshared 1234 263551 0 m1 = Some (tt, m3) /\
    events m3 = [Ptrace PTRACE_DETACH 1234 0; Ptrace PTRACE_GETEVENTMSG 1234 0;
                 Ptrace PTRACE_DETACH 1234 0] /\
    hide_daemon_calls 1234 (events m2) = 0%nat /\
    hide_daemon_calls 1234 (events m3) = 0%nat.
Proof.
  intros m shared unshared. eexists _, _, _.
  split; [vm_compute; reflexivity |].
  split; [reflexivity |]. split; [reflexivity |].
  split; [vm_compute; reflexivity |]. split; [reflexivity |].
  split; [vm_compute; reflexivity |]. repeat split; reflexivity.
Qed.

(** ** The isolated range *)

Ltac bucket_leaf :=
  unfold inject_and_hide, not_target, detach_pid, attaches_put, with_bucket,
    bucket_lift;
  unfold_monad; fields;
  repeat match goal with
         | |- context [pid_set_put ?l ?s ?p ?b] => destruct (pid_set_put l s p b)
         end;
  fields; reflexivity.

Lemma not_target_bucket (lp64 : bool) (pid : Z) (prefixes : list string)
    (m : monitor) :
  not_target lp64 pid (with_bucket prefixes m) =
  bucket_lift prefixes (not_target lp64 pid m).
Proof. bucket_leaf. Qed.

Lemma check_names_bucket (lp64 : bool) (w : world) (pid uid : Z)
    (cmdline : string) (st : stat_t) (names prefixes : list string) (m : monitor) :
  check_names lp64 w pid uid cmdline st names (with_bucket prefixes m) =
  bucket_lift prefixes (check_names lp64 w pid uid cmdline st names m).
Proof.
  induction names as [| s rest IH]; cbn [check_names].
  - apply not_target_bucket.
  - destruct (negb (String.eqb s cmdline)); [exact IH |].
    destruct (str_ends s "_zygote"); [bucket_leaf |].
    unfold bind at 1 5, gets. unfold with_bucket at 1. fields.
    destruct (ns_shared (zygote_map m) (read_ns w pid st).2); bucket_leaf.
Qed.

(** Outside the isolated range the uid lookup never reads the isolated
    bucket. *)
Lemma check_uid_bucket (lp64 : bool) (w : world) (pid uid : Z)
    (cmdline : string) (st : stat_t) (prefixes : list string) (m : monitor) :
  uid <> -1 ->
  check_uid lp64 w pid uid cmdline st (with_bucket prefixes m) =
  bucket_lift prefixes (check_uid lp64 w pid uid cmdline st m).
Proof.
  intros Huid. unfold check_uid, bind, gets. unfold with_bucket at 1. fields.
  rewrite lookup_insert_ne by congruence.
  destruct (uid_proc_map m !! uid) as [names |].
  - apply (check_names_bucket lp64 w pid uid cmdline st names prefixes m).
  - apply not_target_bucket.
Qed.

(** C6: [check_pid] takes the isolated branch exactly when
    uid % 100000 > 90000.  For every uid with uid % 100000 <= 90000 it goes
    straight to the lookup of the uid, and its outcome is the same whatever
    the isolated bucket holds (the uid that reads as -1 apart, whose own list
    is the bucket); for every uid with uid % 100000 > 90000 the isolated
    bucket is looked up first: a missing bucket makes the pid a non-target, a
    matching prefix ends the classification, and only without a match does
    the lookup of the uid follow.  In particular the lookup of the bucket is
    not taken at uid % 100000 = 90000 and is taken at 90001. *)
Theorem isolated_range_boundary (lp64 : bool) (w : world) (pid : Z)
    (st : stat_t) (cmdline : string) (m : monitor) :
  proc_dir w pid = Some st -> st_uid st <> 0 ->
  proc_cmdline w pid = Some cmdline -> is_zygote_name cmdline = false ->
  let uid := to_int (st_uid st) in
  let through_bucket :=
    match uid_proc_map m !! (-1) with
    | None => not_target lp64 pid m
    | Some prefixes =>
        if existsb (str_starts cmdline) prefixes
        then (emit (Logi LogIsolated cmdline pid uid);;
              inject_and_hide lp64 pid) m
        else check_uid lp64 w pid uid cmdline st m
    end in
  (Z.rem uid 100000 <= 90000 ->
     check_pid lp64 w pid m = check_uid lp64 w pid uid cmdline st m /\
     (uid <> -1 ->
      forall prefixes,
        check_pid lp64 w pid (with_bucket prefixes m) =
        bucket_lift prefixes (check_pid lp64 w pid m))) /\
  (90000 < Z.rem uid 100000 -> check_pid lp64 w pid m = through_bucket) /\
  (Z.rem uid 100000 = 90000 ->
     check_pid lp64 w pid m = check_uid lp64 w pid uid cmdline st m /\
     forall prefixes,
       check_pid lp64 w pid (with_bucket prefixes m) =
       bucket_lift prefixes (check_pid lp64 w pid m)) /\
  (Z.rem uid 100000 = 90001 -> check_pid lp64 w pid m = through_bucket).
Proof.
  intros Hdir Huid Hcmd Hzyg uid through_bucket.
  assert (Z.rem uid 100000 <= 90000 ->
          check_pid lp64 w pid m = check_uid lp64 w pid uid cmdline st m /\
          (uid <> -1 ->
           forall prefixes,
             check_pid lp64 w pid (with_bucket prefixes m) =
             bucket_lift prefixes (check_pid lp64 w pid m))) as Hbelow.
  { intros Hrem.
    assert (is_isolated uid = false) as Hiso
      by (unfold is_isolated; apply Z.ltb_ge; exact Hrem).
    split.
    - apply check_pid_reaches_uid; auto.
    - intros Hbucket prefixes.
      rewrite (check_pid_reaches_uid lp64 w pid st cmdline (with_bucket prefixes m))
        by auto.
      rewrite (check_pid_reaches_uid lp64 w pid st cmdline m) by auto.
      apply check_uid_bucket. exact Hbucket. }
  assert (90000 < Z.rem uid 100000 -> check_pid lp64 w pid m = through_bucket)
    as Habove.
  { intros Hrem.
    assert (is_isolated uid = true) as Hiso
      by (unfold is_isolated; apply Z.ltb_lt; exact Hrem).
    unfold check_pid.
    rewrite Hdir, (proj2 (Z.eqb_neq _ _) Huid), Hcmd, Hzyg. fold uid.
    rewrite Hiso. unfold bind at 1, gets at 1. subst through_bucket.
    destruct (uid_proc_map m !! (-1)) as [prefixes |]; [| reflexivity].
    destruct (existsb (str_starts cmdline) prefixes); reflexivity. }
  split; [exact Hbelow |]. split; [exact Habove |]. split.
  - intros Hrem. destruct Hbelow as [Hgo Hfree]; [lia |].
    split; [exact Hgo |]. apply Hfree. intros Heq. rewrite Heq in Hrem.
    discriminate.
  - intros Hrem. apply Habove. lia.
Qed.

Lemma isolated_range_boundary_witness :
  let m := set_uid_proc_map (<[10090000 := ["com.example.target"%string]]> ∅)
             (ex_monitor []) in
  check_pid true (ex_world 10090000 "com.example.target" app_ns) 1234 m =
    check_uid true (ex_world 10090000 "com.example.target" app_ns) 1234
              10090000 "com.example.target" (Stat 5 1234 10090000) m /\
  check_pid true (ex_world 10090001 "com.example.target" app_ns) 1234 m =
    not_target true 1234 m /\
  check_pid true (ex_world 10099123 "com.example.target" app_ns) 1234 m =
    not_target true 1234 m /\
  check_pid true (ex_world 10042 "com.example.target" app_ns) 1234
            (with_bucket ["com.example"%string] m) =
    bucket_lift ["com.example"%string]
      (check_pid true (ex_world 10042 "com.example.target" app_ns) 1234 m).
Proof.
  intros m. split; [| split; [| split]].
  - destruct (isolated_range_boundary true
                (ex_world 10090000 "com.example.target" app_ns) 1234
                (Stat 5 1234 10090000) "com.example.target" m)
      as (_ & _ & Hedge & _);
      [reflexivity | cbn; lia | reflexivity | reflexivity |].
    destruct (Hedge eq_refl) as (Hgo & _). exact Hgo.
  - destruct (isolated_range_boundary true
                (ex_world 10090001 "com.example.target" app_ns) 1234
                (Stat 5 1234 10090001) "com.example.target" m)
      as (_ & _ & _ & Hfirst);
      [reflexivity | cbn; lia | reflexivity | reflexivity |].
    exact (Hfirst eq_refl).
  - destruct (isolated_range_boundary true
                (ex_world 10099123 "com.example.target" app_ns) 1234
                (Stat 5 1234 10099123) "com.example.target" m)
      as (_ & Habove & _);
      [reflexivity | cbn; lia | reflexivity | reflexivity |].
    apply Habove. vm_compute. reflexivity.
  - destruct (isolated_range_boundary true
                (ex_world 10042 "com.example.target" app_ns) 1234
                (Stat 5 1234 10042) "com.example.target" m)
      as (Hbelow & _);
      [reflexivity | cbn; lia | reflexivity | reflexivity |].
    destruct Hbelow as [_ Hfree]; [vm_compute; discriminate |].
    apply Hfree. vm_compute. discriminate.
Defined.

(** ** The uid map *)

Lemma names_at_lookup (uid : Z) (map : gmap Z (list string)) (p : string) :
  In p (names_at uid map) <-> exists names, map !! uid = Some names /\ In p names.
Proof.
  unfold names_at. destruct (map !! uid) as [names |]; cbn.
  - split; [eauto |]. intros (? & [= <-] & Hin). exact Hin.
  - split; [intros [] |]. intros (? & [=] & _).
Qed.

Lemma names_at_emplace_back (uid k : Z) (v p : string) (map : gmap Z (list string)) :
  In p (names_at uid (emplace_back k v map)) <->
  In p (names_at uid map) \/ (uid = k /\ p = v).
Proof.
  unfold names_at, emplace_back. destruct (Z.eq_dec k uid) as [-> | Hne].
  - rewrite lookup_insert_eq. cbn. rewrite in_app_iff. cbn. intuition congruence.
  - rewrite lookup_insert_ne by exact Hne. intuition congruence.
Qed.

Section UidMap.

Variable ISOLATED_MAGIC APP_DATA_DIR : string.
Variable w : world.

Lemma uid_map_hide_names (user_path : string) (first_iter : bool)
    (pkg q : string) (map : gmap Z (list string)) (uid : Z) (p : string) :
  In p (names_at uid (uid_map_hide ISOLATED_MAGIC w user_path first_iter (pkg, q) map)) <->
  In p (names_at uid map) \/
  (p = q /\ contributes ISOLATED_MAGIC w user_path first_iter pkg uid).
Proof.
  unfold uid_map_hide, contributes. cbn [fst snd].
  destruct (String.eqb_spec pkg ISOLATED_MAGIC) as [Hiso | Hpkg];
    destruct first_iter; cbn [andb negb];
    try destruct (fs_stat w (user_path +:+ pkg)) as [st |] eqn:Hstat;
    rewrite ?names_at_emplace_back; split.
  all: intros H;
    repeat match goal with
           | H : _ \/ _ |- _ => destruct H
           | H : _ /\ _ |- _ => destruct H
           | H : exists _, _ |- _ => destruct H
           | H : Some _ = Some _ |- _ => injection H as H
           | H : ?a = ?a -> _ |- _ => specialize (H eq_refl)
           end;
    subst;
    repeat match goal with
           | H : ?a = ?a -> _ |- _ => specialize (H eq_refl)
           end;
    try discriminate; try congruence; eauto 8.
  all: try (right; split; [reflexivity |]; split; [congruence |]; eauto; fail).
Qed.

Lemma uid_map_hides_names (user_path : string) (first_iter : bool)
    (hs : list (string * string)) (map : gmap Z (list string)) (uid : Z) (p : string) :
  In p (names_at uid (uid_map_hides ISOLATED_MAGIC w user_path first_iter hs map)) <->
  In p (names_at uid map) \/
  exists pkg, In (pkg, p) hs /\
              contributes ISOLATED_MAGIC w user_path first_iter pkg uid.
Proof.
  unfold uid_map_hides. revert map.
  induction hs as [| [pkg q] hs IH]; intros map; cbn [fold_left].
  - split; [auto |]. intros [H | (? & [] & _)]. exact H.
  - rewrite IH, uid_map_hide_names. cbn [In]. split.
    + intros [[Hold | [-> Hc]] | (pkg' & Hin & Hc)]; eauto 6.
    + intros [Hold | (pkg' & [[= <- <-] | Hin] & Hc)]; eauto 6.
Qed.

Lemma uid_map_users_names (entries : list string) (first_iter : bool)
    (hs : list (string * string)) (map : gmap Z (list string)) (uid : Z) (p : string) :
  In p (names_at uid
          (uid_map_users ISOLATED_MAGIC APP_DATA_DIR w entries first_iter hs map)) <->
  In p (names_at uid map) \/
  exists pkg (i : nat) d_name,
    entries !! i = Some d_name /\ In (pkg, p) hs /\
    contributes ISOLATED_MAGIC w (user_dir APP_DATA_DIR d_name)
                (first_iter && Nat.eqb i 0) pkg uid.
Proof.
  revert first_iter map.
  induction entries as [| d rest IH]; intros first_iter map; cbn [uid_map_users].
  - split; [auto |]. intros [H | (? & i & ? & Hlook & _)]; [exact H |].
    destruct i; discriminate.
  - rewrite IH, uid_map_hides_names. split.
    + intros [[Hold | (pkg & Hin & Hc)] | (pkg & i & d' & Hlook & Hin & Hc)].
      * left. exact Hold.
      * right. exists pkg, 0%nat, d. cbn [Nat.eqb]. rewrite andb_true_r. auto.
      * right. exists pkg, (S i), d'. cbn [Nat.eqb]. rewrite andb_false_r. auto.
    + intros [Hold | (pkg & i & d' & Hlook & Hin & Hc)]; [auto |].
      destruct i as [| i].
      * injection Hlook as <-. cbn [Nat.eqb] in Hc. rewrite andb_true_r in Hc.
        left. right. eauto.
      * cbn [Nat.eqb] in Hc. rewrite andb_false_r in Hc.
        right. exists pkg, i, d'. auto.
Qed.

Lemma update_uid_map_defined (m : monitor) :
  update_uid_map ISOLATED_MAGIC APP_DATA_DIR w m =
  Some (tt, set_uid_proc_map
              (uid_map_users ISOLATED_MAGIC APP_DATA_DIR w (data_entries w) true
                             (hide_set m) ∅) m).
Proof. unfold update_uid_map. unfold_monad. destruct m. reflexivity. Qed.

End UidMap.

(** C4: [update_uid_map] is idempotent.  It always returns; a second call
    on its result, with the same hide set and file system, changes nothing;
    and the map it builds is the same from any state with the same hide
    set. *)
Theorem update_uid_map_idempotent (ISOLATED_MAGIC APP_DATA_DIR : string)
    (w : world) (m : monitor) :
  exists m1,
    update_uid_map ISOLATED_MAGIC APP_DATA_DIR w m = Some (tt, m1) /\
    hide_set m1 = hide_set m /\
    update_uid_map ISOLATED_MAGIC APP_DATA_DIR w m1 = Some (tt, m1) /\
    forall m0 m2,
      hide_set m0 = hide_set m ->
      update_uid_map ISOLATED_MAGIC APP_DATA_DIR w m0 = Some (tt, m2) ->
      uid_proc_map m2 = uid_proc_map m1.
Proof.
  eexists. split; [apply update_uid_map_defined |]. split; [reflexivity |]. split.
  - rewrite update_uid_map_defined. destruct m. reflexivity.
  - intros m0 m2 Hhs. rewrite update_uid_map_defined. intros [= <-]. fields.
    rewrite Hhs. reflexivity.
Qed.

(** C3 (amended): after [update_uid_map], for every pair (package, process)
    of the hide set whose package is not the sentinel and whose directory
    exists under some user, the list under the uid that owns the directory
    contains the process.  Conversely every name in a list of the map is the
    process of a pair of the hide set, listed under the isolated bucket for
    a sentinel pair or under the owner of that pair's package directory for
    some user.  The map is built from the hide set and the file system alone:
    nothing of the previous map is left in it. *)
Theorem update_uid_map_contents (ISOLATED_MAGIC APP_DATA_DIR : string)
    (w : world) (m : monitor) :
  exists m',
    update_uid_map ISOLATED_MAGIC APP_DATA_DIR w m = Some (tt, m') /\
    (forall pkg p d_name st,
       In (pkg, p) (hide_set m) -> pkg <> ISOLATED_MAGIC ->
       In d_name (data_entries w) ->
       fs_stat w (user_dir APP_DATA_DIR d_name +:+ pkg) = Some st ->
       exists names,
         uid_proc_map m' !! to_int (st_uid st) = Some names /\ In p names) /\
    (forall uid names p,
       uid_proc_map m' !! uid = Some names -> In p names ->
       exists pkg,
         In (pkg, p) (hide_set m) /\
         ((pkg = ISOLATED_MAGIC /\ uid = -1) \/
          exists d_name st,
            In d_name (data_entries w) /\
            fs_stat w (user_dir APP_DATA_DIR d_name +:+ pkg) = Some st /\
            to_int (st_uid st) = uid)) /\
    (forall m0,
       hide_set m0 = hide_set m ->
       exists m0',
         update_uid_map ISOLATED_MAGIC APP_DATA_DIR w m0 = Some (tt, m0') /\
         uid_proc_map m0' = uid_proc_map m').
Proof.
  eexists. split; [apply update_uid_map_defined |]. fields.
  split; [| split].
  3: { intros m0 Hhs. eexists. split; [apply update_uid_map_defined |].
       fields. rewrite Hhs. reflexivity. }
  - intros pkg p d_name st Hin Hpkg Hd Hstat.
    apply names_at_lookup, uid_map_users_names. right.
    apply list_elem_of_In, list_elem_of_lookup in Hd as [i Hi].
    exists pkg, i, d_name. split; [exact Hi |]. split; [exact Hin |].
    split; [congruence |]. right. eauto.
  - intros uid names p Hlook Hp.
    assert (In p (names_at uid
                    (uid_map_users ISOLATED_MAGIC APP_DATA_DIR w (data_entries w)
                                   true (hide_set m) ∅))) as Hnames
      by (apply names_at_lookup; eauto).
    apply uid_map_users_names in Hnames
      as [Hempty | (pkg & i & d_name & Hi & Hin & _ & Hc)].
    + unfold names_at in Hempty. rewrite lookup_empty in Hempty. destruct Hempty.
    + exists pkg. split; [exact Hin |].
      destruct Hc as [Hsent | (st & Hstat & Huid)]; [left; exact Hsent |].
      right. exists d_name, st. split; [| auto].
      apply list_elem_of_In, list_elem_of_lookup. eauto.
Qed.

Lemma update_uid_map_idempotent_witness :
  let w := ex_world 10042 "com.example.target" app_ns in
  exists m1,
    update_uid_map "isolated" "/data/user_de" w (ex_monitor ["stale"%string]) =
      Some (tt, m1) /\
    update_uid_map "isolated" "/data/user_de" w m1 = Some (tt, m1).
Proof.
  intros w.
  destruct (update_uid_map_idempotent "isolated" "/data/user_de" w
              (ex_monitor ["stale"%string])) as (m1 & Hfirst & _ & Hsecond & _).
  exists m1. split; assumption.
Defined.

Lemma update_uid_map_contents_witness :
  let w := ex_world 10042 "com.example.target" app_ns in
  exists m' names,
    update_uid_map "isolated" "/data/user_de" w (ex_monitor ["stale"%string]) =
      Some (tt, m') /\
    uid_proc_map m' !! 10042 = Some names /\ In "com.example.target"%string names.
Proof.
  intros w.
  destruct (update_uid_map_contents "isolated" "/data/user_de" w
              (ex_monitor ["stale"%string])) as (m' & Hcall & Hpresent & _).
  destruct (Hpresent "com.example.target"%string "com.example.target"%string
                     "0"%string (Stat 64 1181 10042))
    as (names & Hlook & Hin).
  - cbn. auto.
  - discriminate.
  - cbn. auto.
  - reflexivity.
  - exists m', names. auto.
Defined.

(** C3 as stated fails when two pairs of the hide set name the same process:
    the directory of com.example.twin exists for no user, yet after the
    refresh a list of the map (the one of uid 10042, owner of the directory
    of com.example.target) contains the process of that pair. *)
Lemma update_uid_map_contents_counterexample :
  let w := ex_world 10042 "com.example.target" app_ns in
  exists m',
    update_uid_map "isolated" "/data/user_de" w (init_monitor twin_hide_set) =
      Some (tt, m') /\
    In ("com.example.twin"%string, "com.example.target"%string) (hide_set m') /\
    "com.example.twin"%string <> "isolated"%string /\
    (exists uid names, uid_proc_map m' !! uid = Some names /\
                       In "com.example.target"%string names) /\
    ~ (exists d_name,
         In d_name (data_entries w) /\
         fs_stat w (user_dir "/data/user_de" d_name +:+ "com.example.twin") <> None).
Proof.
  intros w. eexists. split; [vm_compute; reflexivity |].
  split; [cbn; auto |]. split; [discriminate |]. split.
  - exists 10042, ["com.example.target"%string].
    split; [vm_compute; reflexivity | cbn; auto].
  - intros (d_name & [<- | []] & Hstat). apply Hstat. reflexivity.
Qed.

(** ** Zygote scans *)

Lemma timer_calls_app (l1 l2 : list event) :
  timer_calls (l1 ++ l2) = timer_calls l1 ++ timer_calls l2.
Proof. unfold timer_calls. apply omap_app. Qed.

Lemma new_zygote_scan (w : world) (pid : Z) (m : monitor) :
  exists m',
    new_zygote w pid m = Some (tt, m') /\ scan_frame m m' /\
    forall q, zygote_map m' !! q =
              match (if Z.eqb q pid then proc_ns w pid else None) with
              | Some st => Some st
              | None => zygote_map m !! q
              end.
Proof.
  unfold new_zygote, scan_frame. destruct (proc_ns w pid) as [st |] eqn:Hns.
  - unfold_monad. destruct (zygote_map m !! pid) eqn:Hreg; fields;
      (eexists; split; [reflexivity |]; fields; split;
       [ rewrite ?timer_calls_app, ?app_nil_r; cbn; rewrite ?app_nil_r; auto 10
       | intros q; destruct (Z.eqb_spec q pid) as [-> | Hne];
         [apply lookup_insert_eq | apply lookup_insert_ne; congruence] ]).
  - exists m. split; [reflexivity |]. split; [auto 10 |].
    intros q. destruct (Z.eqb q pid); reflexivity.
Qed.

Lemma scan_frame_refl (m : monitor) : scan_frame m m.
Proof. unfold scan_frame. auto 10. Qed.

Lemma scan_frame_trans (m1 m2 m3 : monitor) :
  scan_frame m1 m2 -> scan_frame m2 m3 -> scan_frame m1 m3.
Proof. unfold scan_frame. intuition congruence. Qed.

Lemma zygote_callback_scan (w : world) (pid : Z) (m : monitor) :
  0 < pid ->
  exists m',
    zygote_callback w pid m = Some (true, m') /\ scan_frame m m' /\
    forall q, zygote_map m' !! q =
              match (if Z.eqb q pid && is_zygote_proc w pid
                     then proc_ns w pid else None) with
              | Some st => Some st
              | None => zygote_map m !! q
              end.
Proof.
  intros Hpid. unfold zygote_callback, is_zygote_proc.
  rewrite (proj2 (Z.ltb_lt 0 pid) Hpid). cbn [andb].
  destruct (proc_cmdline w pid) as [buf |].
  - destruct (String.prefix "zygote" buf && (parse_ppid w pid =? 1)).
    + destruct (new_zygote_scan w pid m) as (m' & Hcall & Hframe & Hmap).
      exists m'. unfold bind, ret. rewrite Hcall. split; [reflexivity |].
      split; [exact Hframe |]. intros q. rewrite Hmap, andb_true_r. reflexivity.
    + exists m. split; [reflexivity |]. split; [apply scan_frame_refl |].
      intros q. rewrite andb_false_r. reflexivity.
  - exists m. split; [reflexivity |]. split; [apply scan_frame_refl |].
    intros q. rewrite andb_false_r. reflexivity.
Qed.

(** The scan always completes, touches nothing but the registry and the
    trace requests of the log, and leaves in the registry the namespace of
    every zygote it met on top of the entries it started with. *)
Lemma crawl_zygotes (w : world) (entries : list Z) (m : monitor) :
  exists m',
    crawl (zygote_callback w) entries m = Some (tt, m') /\ scan_frame m m' /\
    forall q, zygote_map m' !! q =
              match scanned w entries q with
              | Some st => Some st
              | None => zygote_map m !! q
              end.
Proof.
  revert m. induction entries as [| pid rest IH]; intros m; cbn [crawl].
  - exists m. split; [reflexivity |]. split; [apply scan_frame_refl |].
    intros q. reflexivity.
  - destruct (Z.ltb_spec 0 pid) as [Hpos | Hneg].
    + destruct (zygote_callback_scan w pid m Hpos) as (m1 & Hcall & Hframe1 & Hmap1).
      destruct (IH m1) as (m' & Hrest & Hframe & Hmap).
      exists m'. unfold bind at 1. rewrite Hcall. split; [exact Hrest |].
      split; [eapply scan_frame_trans; eassumption |].
      intros q. rewrite Hmap, Hmap1. unfold scanned. cbn [existsb].
      destruct (Z.eqb_spec q pid) as [-> | Hne]; cbn [orb andb]; [| reflexivity].
      destruct (existsb (Z.eqb pid) rest); cbn [andb];
        destruct (is_zygote_proc w pid); try reflexivity.
      destruct (proc_ns w pid); reflexivity.
    + destruct (IH m) as (m' & Hrest & Hframe & Hmap).
      exists m'. split; [exact Hrest |]. split; [exact Hframe |].
      intros q. rewrite Hmap. unfold scanned. cbn [existsb].
      destruct (Z.eqb_spec q pid) as [-> | Hne]; cbn [orb andb]; [| reflexivity].
      assert (is_zygote_proc w pid = false) as Hno.
      { unfold is_zygote_proc. rewrite (proj2 (Z.ltb_ge 0 pid) Hneg). reflexivity. }
      rewrite Hno, andb_false_r. reflexivity.
Qed.

(** C7 (amended): [check_zygote] always completes; it calls
    [setitimer] with a zero interval exactly when the registry holds the
    expected number of zygotes after the scan (two on 64-bit builds, one
    otherwise), and otherwise leaves the timer as it was, so a timer that
    is armed stays armed and a timer that is not armed stays so.  The scan
    keeps every entry of the registry and adds every zygote it meets,
    however many there are. *)
Theorem check_zygote_timer (lp64 : bool) (w : world) (m : monitor) :
  exists m',
    check_zygote lp64 w m = Some (tt, m') /\
    (is_zygote_done lp64 m' = true <->
     (expected_zygotes lp64 <= size (zygote_map m'))%nat) /\
    (is_zygote_done lp64 m' = true ->
     itimer m' = 0 /\
     timer_calls (events m') = timer_calls (events m) ++ [0]) /\
    (is_zygote_done lp64 m' = false ->
     itimer m' = itimer m /\
     timer_calls (events m') = timer_calls (events m)) /\
    (itimer m <> 0 -> (itimer m' = 0 <-> is_zygote_done lp64 m' = true)) /\
    (forall q, is_Some (zygote_map m !! q) -> is_Some (zygote_map m' !! q)) /\
    (forall q st,
       In q (proc_entries w) -> is_zygote_proc w q = true ->
       proc_ns w q = Some st -> zygote_map m' !! q = Some st) /\
    (forall q, zygote_map m' !! q =
               match scanned w (proc_entries w) q with
               | Some st => Some st
               | None => zygote_map m !! q
               end).
Proof.
  destruct (crawl_zygotes w (proc_entries w) m) as (m1 & Hcrawl & Hframe & Hmap).
  destruct Hframe as (_ & _ & _ & Htimer & _ & Hcalls).
  assert (forall m2, zygote_map m2 = zygote_map m1 ->
            (is_zygote_done lp64 m2 = true <->
             (expected_zygotes lp64 <= size (zygote_map m2))%nat)) as Hdone.
  { intros m2 _. unfold is_zygote_done, expected_zygotes.
    destruct lp64; apply Nat.leb_le. }
  assert (forall m2, zygote_map m2 = zygote_map m1 ->
            (forall q, is_Some (zygote_map m !! q) -> is_Some (zygote_map m2 !! q)) /\
            (forall q st,
               In q (proc_entries w) -> is_zygote_proc w q = true ->
               proc_ns w q = Some st -> zygote_map m2 !! q = Some st) /\
            (forall q, zygote_map m2 !! q =
                       match scanned w (proc_entries w) q with
                       | Some st => Some st
                       | None => zygote_map m !! q
                       end)) as Htracked.
  { intros m2 ->. split; [| split; [| exact Hmap]].
    - intros q Hq. rewrite Hmap. destruct (scanned w (proc_entries w) q); eauto.
    - intros q st Hin Hz Hns. rewrite Hmap. unfold scanned.
      assert (existsb (Z.eqb q) (proc_entries w) = true) as ->.
      { apply existsb_exists. exists q. split; [exact Hin | apply Z.eqb_refl]. }
      rewrite Hz, Hns. reflexivity. }
  unfold check_zygote, crawl_procfs. unfold bind at 1. rewrite Hcrawl.
  unfold bind at 1, gets at 1.
  destruct (is_zygote_done lp64 m1) eqn:Edone.
  - eexists. split; [unfold_monad; reflexivity |]. fields.
    split; [exact (Hdone _ eq_refl) |].
    split; [intros _; split; [reflexivity |];
            rewrite timer_calls_app, Hcalls; reflexivity |].
    split; [intros Hnot; exfalso;
            change (is_zygote_done lp64 m1 = false) in Hnot; congruence |].
    split; [intros _; split; [intros _; exact Edone | reflexivity] |].
    exact (Htracked _ eq_refl).
  - exists m1. split; [reflexivity |]. split; [exact (Hdone _ eq_refl) |].
    split; [intros Hyes; congruence |]. split; [auto |].
    split; [intros Harmed; split; [intros Hzero | intros Hyes]; congruence |].
    exact (Htracked _ eq_refl).
Qed.

Lemma check_zygote_timer_witness :
  let w := ex_world 10042 "com.example.target" app_ns in
  let armed := set_itimer 250000 (init_monitor ex_hide_set) in
  exists m',
    check_zygote true w armed = Some (tt, m') /\
    itimer m' = 0 /\ zygote_map m' !! 601 = Some zygote_ns.
Proof.
  intros w armed.
  destruct (check_zygote_timer true w armed)
    as (m' & Hcall & Hdone & Hdisarm & _ & _ & _ & Hadds & _).
  exists m'. split; [exact Hcall |]. split.
  - apply Hdisarm. injection Hcall as <-. reflexivity.
  - apply Hadds; [cbn; auto | reflexivity | reflexivity].
Defined.

(** C7 as stated fails in the direction "disarmed only if the count is
    reached": the first scan of [proc_monitor], on a system where no zygote
    runs yet, ends with an empty registry and a timer that is not armed; and
    once a zygote has exited (stop status 0x6057f of pid 601) a new scan ends
    with one zygote out of two and the timer still disarmed. *)
Lemma check_zygote_timer_counterexample :
  (exists m',
     check_zygote false early_world (init_monitor ex_hide_set) = Some (tt, m') /\
     itimer m' = 0 /\ size (zygote_map m') = 0%nat /\
     is_zygote_done false m' = false) /\
  (exists m1 m2,
     monitor_step true (ex_world 10042 "com.example.target" app_ns) 601 394623 0
                  (ex_monitor []) = Some (tt, m1) /\
     check_zygote true ex_world_after_exit m1 = Some (tt, m2) /\
     itimer m2 = 0 /\ size (zygote_map m2) = 1%nat /\
     is_zygote_done true m2 = false).
Proof.
  split.
  - eexists. split; [vm_compute; reflexivity |]. repeat split; reflexivity.
  - eexists _, _. split; [vm_compute; reflexivity |].
    split; [vm_compute; reflexivity |]. repeat split; reflexivity.
Qed.

(** ** The hide set *)

Lemma preserves_ret {A} (a : A) : preserves_hide_set (ret a).
Proof. intros m a' m' [= _ <-]. reflexivity. Qed.

Lemma preserves_gets {A} (f : monitor -> A) : preserves_hide_set (gets f).
Proof. intros m a m' [= _ <-]. reflexivity. Qed.

Lemma preserves_modify (f : monitor -> monitor) :
  (forall m, hide_set (f m) = hide_set m) -> preserves_hide_set (modify f).
Proof. intros Hf m a m' [= _ <-]. apply Hf. Qed.

Lemma preserves_bind {A B} (c : M A) (k : A -> M B) :
  preserves_hide_set c -> (forall a, preserves_hide_set (k a)) ->
  preserves_hide_set (bind c k).
Proof.
  intros Hc Hk m b m'. unfold bind.
  destruct (c m) as [[a m1] |] eqn:Ec; [| discriminate].
  intros Hk'. rewrite (Hk a m1 b m' Hk'). exact (Hc m a m1 Ec).
Qed.

Lemma preserves_emit (e : event) : preserves_hide_set (emit e).
Proof. apply preserves_modify. reflexivity. Qed.

Lemma preserves_attaches_get (lp64 : bool) (pos : Z) :
  preserves_hide_set (attaches_get lp64 pos).
Proof.
  intros m a m'. unfold attaches_get.
  destruct (pid_set_get lp64 (attaches m) pos); [| discriminate].
  intros [= _ <-]. reflexivity.
Qed.

Lemma preserves_attaches_put (lp64 : bool) (pos : Z) (b : bool) :
  preserves_hide_set (attaches_put lp64 pos b).
Proof.
  intros m a m'. unfold attaches_put.
  destruct (pid_set_put lp64 (attaches m) pos b); [| discriminate].
  intros [= _ <-]. reflexivity.
Qed.

Create HintDb frame.
#[local] Hint Resolve preserves_ret preserves_gets preserves_emit
  preserves_attaches_get preserves_attaches_put : frame.

Ltac frame_step :=
  match goal with
  | |- preserves_hide_set (bind _ _) => apply preserves_bind; [| intros ?]
  | |- preserves_hide_set (modify _) => apply preserves_modify; reflexivity
  | |- preserves_hide_set (match ?x with _ => _ end) => destruct x
  | |- preserves_hide_set (let _ := _ in _) => cbv zeta
  | |- preserves_hide_set _ => solve [auto with frame]
  end.

Ltac frame := repeat frame_step.

Lemma preserves_detach_pid (lp64 : bool) (pid signal : Z) :
  preserves_hide_set (detach_pid lp64 pid signal).
Proof. unfold detach_pid. frame. Qed.

#[local] Hint Resolve preserves_detach_pid : frame.

Lemma preserves_check_names (lp64 : bool) (w : world) (pid uid : Z)
    (cmdline : string) (st : stat_t) (names : list string) :
  preserves_hide_set (check_names lp64 w pid uid cmdline st names).
Proof.
  induction names as [| s rest IH]; cbn [check_names];
    unfold not_target, inject_and_hide, hide_daemon; frame.
Qed.

#[local] Hint Resolve preserves_check_names : frame.

Lemma preserves_check_pid (lp64 : bool) (w : world) (pid : Z) :
  preserves_hide_set (check_pid lp64 w pid).
Proof.
  unfold check_pid, check_uid, not_target, inject_and_hide. frame.
Qed.

Lemma preserves_update_uid_map (ISOLATED_MAGIC APP_DATA_DIR : string) (w : world) :
  preserves_hide_set (update_uid_map ISOLATED_MAGIC APP_DATA_DIR w).
Proof. unfold update_uid_map. frame. Qed.

Lemma preserves_new_zygote (w : world) (pid : Z) :
  preserves_hide_set (new_zygote w pid).
Proof. unfold new_zygote, xptrace. frame. Qed.

#[local] Hint Resolve preserves_check_pid preserves_update_uid_map
  preserves_new_zygote : frame.

Lemma preserves_crawl (fn : Z -> M bool) (entries : list Z) :
  (forall pid, preserves_hide_set (fn pid)) ->
  preserves_hide_set (crawl fn entries).
Proof.
  intros Hfn. induction entries as [| pid rest IH]; cbn [crawl]; frame.
Qed.

Lemma preserves_check_zygote (lp64 : bool) (w : world) :
  preserves_hide_set (check_zygote lp64 w).
Proof.
  unfold check_zygote, crawl_procfs, setitimer. frame.
  apply preserves_crawl. intros pid. unfold zygote_callback. frame.
Qed.

#[local] Hint Resolve preserves_check_zygote : frame.

Lemma preserves_monitor_step (lp64 : bool) (w : world) (pid status msg : Z) :
  preserves_hide_set (monitor_step lp64 w pid status msg).
Proof.
  unfold monitor_step, zygote_event, child_event, sigstop_stop, xptrace. frame.
Qed.

(** C8 (amended): classification, the refresh of the uid map, zygote
    registration and scanning, the inotify handler, every iteration of the
    main loop and the first scan leave the hide set as it is; termination,
    which always completes, empties it. *)
Theorem hide_set_frame (lp64 : bool) (ISOLATED_MAGIC APP_DATA_DIR : string)
    (w : world) :
  (forall pid, preserves_hide_set (check_pid lp64 w pid)) /\
  preserves_hide_set (update_uid_map ISOLATED_MAGIC APP_DATA_DIR w) /\
  (forall pid, preserves_hide_set (new_zygote w pid)) /\
  preserves_hide_set (check_zygote lp64 w) /\
  (forall pending,
     preserves_hide_set (inotify_event lp64 ISOLATED_MAGIC APP_DATA_DIR w pending)) /\
  (forall pid status msg,
     preserves_hide_set (monitor_step lp64 w pid status msg)) /\
  preserves_hide_set (first_scan lp64 w) /\
  (forall m, exists m', term_thread m = Some (tt, m') /\ hide_set m' = []).
Proof.
  repeat split.
  - intros pid. apply preserves_check_pid.
  - apply preserves_update_uid_map.
  - intros pid. apply preserves_new_zygote.
  - apply preserves_check_zygote.
  - intros pending. unfold inotify_event. frame.
  - intros pid status msg. apply preserves_monitor_step.
  - unfold first_scan, setitimer. frame.
  - intros m. eexists. split; reflexivity.
Qed.

(** C8 as stated fails for termination: [term_thread] clears the hide
    set. *)
Lemma hide_set_frame_counterexample :
  exists m',
    term_thread (ex_monitor []) = Some (tt, m') /\
    hide_set (ex_monitor []) = ex_hide_set /\
    hide_set m' = [] /\
    ~ preserves_hide_set term_thread.
Proof.
  eexists. split; [reflexivity |]. split; [reflexivity |]. split; [reflexivity |].
  intros Hframe.
  specialize (Hframe (ex_monitor []) tt _ eq_refl). discriminate.
Qed.

Lemma hide_set_frame_witness :
  hide_set (detached true 1234 0 (ex_monitor ["com.example.other"%string])) =
  hide_set (ex_monitor ["com.example.other"%string]).
Proof.
  destruct (hide_set_frame true "isolated" "/data/user_de"
              (ex_world 10042 "com.example.target" app_ns)) as (Hcheck & _).
  exact (Hcheck 1234 (ex_monitor ["com.example.other"%string]) true
                (detached true 1234 0 (ex_monitor ["com.example.other"%string]))
                eq_refl).
Defined.

(** * Further properties of the monitor *)

(** ** What a classification can do *)

Lemma inject_and_hide_defined (lp64 : bool) (pid : Z) (m : monitor) :
  pid_set_in_bounds lp64 pid = true ->
  inject_and_hide lp64 pid m = Some (true, detached lp64 pid 0 m).
Proof.
  intros Hb. unfold inject_and_hide, bind. rewrite detach_pid_defined by exact Hb.
  reflexivity.
Qed.

(** The loop over the configured names ends in a plain detach, in a detach
    after the app-zygote line, or in the hand-over. *)
Lemma check_names_cases (lp64 : bool) (w : world) (pid uid : Z)
    (cmdline : string) (st : stat_t) (names : list string) (m : monitor) :
  pid_set_in_bounds lp64 pid = true ->
  check_names lp64 w pid uid cmdline st names m = Some (true, detached lp64 pid 0 m) \/
  (In cmdline names /\ str_ends cmdline "_zygote" = true /\
   check_names lp64 w pid uid cmdline st names m =
     Some (true, logged_detach lp64 LogAppZygote pid uid cmdline m)) \/
  (In cmdline names /\ str_ends cmdline "_zygote" = false /\
   ns_shared (zygote_map m) (read_ns w pid st).2 = false /\
   check_names lp64 w pid uid cmdline st names m =
     Some (true, handed_off lp64 pid uid cmdline m)).
Proof.
  intros Hb. induction names as [| s rest IH]; cbn [check_names].
  - left. apply not_target_defined. exact Hb.
  - destruct (String.eqb_spec s cmdline) as [-> | Hne]; cbn [negb].
    + destruct (str_ends cmdline "_zygote") eqn:Hsuffix.
      * right. left. split; [left; reflexivity |]. split; [reflexivity |].
        unfold bind at 1, emit, modify. rewrite inject_and_hide_defined by exact Hb.
        reflexivity.
      * destruct (ns_shared (zygote_map m) (read_ns w pid st).2) eqn:Hshared.
        -- left. unfold bind at 1, gets at 1. fields. rewrite Hshared.
           apply not_target_defined. exact Hb.
        -- right. right. split; [left; reflexivity |]. split; [reflexivity |].
           split; [reflexivity |].
           unfold detach_pid, attaches_put, pid_set_put. unfold_monad. fields.
           rewrite Hshared, Hb. fields. unfold handed_off. rewrite <- !app_assoc.
           reflexivity.
    + destruct IH as [Hplain | [(Hin & Hsuffix & Hcall) | (Hin & Hsuffix & Hns & Hcall)]].
      * left. exact Hplain.
      * right. left. split; [right; exact Hin | split; assumption].
      * right. right. split; [right; exact Hin |]. repeat split; assumption.
Qed.

Lemma check_uid_lookup (lp64 : bool) (w : world) (pid uid : Z)
    (cmdline : string) (st : stat_t) (m : monitor) :
  check_uid lp64 w pid uid cmdline st m =
  match uid_proc_map m !! uid with
  | Some names => check_names lp64 w pid uid cmdline st names m
  | None => not_target lp64 pid m
  end.
Proof.
  unfold check_uid, bind, gets. destruct (uid_proc_map m !! uid); reflexivity.
Qed.

(** [check_pid] either leaves the state as it is and reports that there is
    nothing to decide yet, or detaches the pid, possibly after a line of the
    log, or hands it over; it hands over verified targets only. *)
Lemma check_pid_cases (lp64 : bool) (w : world) (pid : Z) (m : monitor) :
  pid_set_in_bounds lp64 pid = true ->
  (not_yet w pid /\ check_pid lp64 w pid m = Some (false, m)) \/
  (~ not_yet w pid /\
   (check_pid lp64 w pid m = Some (true, detached lp64 pid 0 m) \/
    (exists tag uid cmdline,
       tag <> LogTarget /\
       check_pid lp64 w pid m =
         Some (true, logged_detach lp64 tag pid uid cmdline m)) \/
    (exists st cmdline,
       verified_target w m pid st cmdline /\
       check_pid lp64 w pid m =
         Some (true, handed_off lp64 pid (to_int (st_uid st)) cmdline m)))).
Proof.
  intros Hb. unfold not_yet.
  remember (check_pid lp64 w pid m) as result eqn:Hres. unfold check_pid in Hres.
  destruct (proc_dir w pid) as [st |] eqn:Hdir.
  2: { right. split; [intros (? & [=] & _) |]. left. subst result.
       unfold bind. rewrite detach_pid_defined by exact Hb. reflexivity. }
  destruct (Z.eqb_spec (st_uid st) 0) as [Hroot | Huid].
  { left. split; [eauto | exact Hres]. }
  destruct (proc_cmdline w pid) as [cmdline |] eqn:Hcmd.
  2: { right. split.
       - intros (st' & [= <-] & [Hz | (? & [=] & _)]). congruence.
       - left. subst result. unfold bind.
         rewrite detach_pid_defined by exact Hb. reflexivity. }
  destruct (is_zygote_name cmdline) eqn:Hzyg.
  { left. split; [eauto 6 | exact Hres]. }
  right. split.
  { intros (st' & [= <-] & [Hz | (c & [= <-] & Hname)]); congruence. }
  assert (result = check_uid lp64 w pid (to_int (st_uid st)) cmdline st m ->
          result = Some (true, detached lp64 pid 0 m) \/
          (exists tag uid cmdline0,
             tag <> LogTarget /\
             result = Some (true, logged_detach lp64 tag pid uid cmdline0 m)) \/
          (exists st0 cmdline0,
             verified_target w m pid st0 cmdline0 /\
             result =
               Some (true, handed_off lp64 pid (to_int (st_uid st0)) cmdline0 m)))
    as Huidcase.
  { intros ->. rewrite check_uid_lookup.
    destruct (uid_proc_map m !! to_int (st_uid st)) as [names |] eqn:Hnames.
    - destruct (check_names_cases lp64 w pid (to_int (st_uid st)) cmdline st names m Hb)
        as [Hplain | [(Hin & Hsuffix & Hcall) | (Hin & Hsuffix & Hns & Hcall)]].
      + left. exact Hplain.
      + right. left. exists LogAppZygote, (to_int (st_uid st)), cmdline.
        split; [discriminate | exact Hcall].
      + right. right. exists st, cmdline. split; [| exact Hcall].
        unfold verified_target. repeat split; eauto.
    - left. apply not_target_defined. exact Hb. }
  destruct (is_isolated (to_int (st_uid st))); [| exact (Huidcase Hres)].
  unfold bind at 1, gets at 1 in Hres.
  destruct (uid_proc_map m !! (-1)) as [prefixes |].
  - destruct (existsb (str_starts cmdline) prefixes); [| exact (Huidcase Hres)].
    right. left. exists LogIsolated, (to_int (st_uid st)), cmdline.
    split; [discriminate |]. subst result.
    unfold bind at 1, emit, modify. rewrite inject_and_hide_defined by exact Hb.
    reflexivity.
  - left. subst result. apply not_target_defined. exact Hb.
Qed.

Lemma request_calls_app (req : ptrace_request) (pid : Z) (l1 l2 : list event) :
  request_calls req pid (l1 ++ l2) =
  (request_calls req pid l1 + request_calls req pid l2)%nat.
Proof. unfold request_calls. rewrite List.filter_app, length_app. reflexivity. Qed.

Lemma hide_daemon_calls_app (pid : Z) (l1 l2 : list event) :
  hide_daemon_calls pid (l1 ++ l2) =
  (hide_daemon_calls pid l1 + hide_daemon_calls pid l2)%nat.
Proof. unfold hide_daemon_calls. rewrite List.filter_app, length_app. reflexivity. Qed.

Lemma handed_off_bit (lp64 : bool) (pid uid : Z) (cmdline : string) (m : monitor) :
  pid_set_in_bounds lp64 pid = true ->
  pid_set_get lp64 (attaches (handed_off lp64 pid uid cmdline m)) pid = Some false.
Proof.
  intros Hb. unfold handed_off, pid_set_get. fields. rewrite Hb, Z.clearbit_eq.
  reflexivity.
Qed.

(** X1: [check_pid] reports a pid as not consumed exactly when the process
    is still root or still carries a zygote name, and then changes nothing.
    In every other case the pid is consumed: its bit is cleared and exactly
    one PTRACE_DETACH, and no PTRACE_CONT, is issued on it. *)
Theorem check_pid_consumed_detached (lp64 : bool) (w : world) (pid : Z)
    (m : monitor) :
  pid_set_in_bounds lp64 pid = true ->
  exists consumed m',
    check_pid lp64 w pid m = Some (consumed, m') /\
    (consumed = false <-> not_yet w pid) /\
    (consumed = false -> m' = m) /\
    (consumed = true ->
     pid_set_get lp64 (attaches m') pid = Some false /\
     request_calls PTRACE_DETACH pid (events m') =
       S (request_calls PTRACE_DETACH pid (events m)) /\
     request_calls PTRACE_CONT pid (events m') =
       request_calls PTRACE_CONT pid (events m)).
Proof.
  intros Hb.
  destruct (check_pid_cases lp64 w pid m Hb)
    as [[Hyet Hcall] | [Hnot [Hcall | [(tag & uid & c & _ & Hcall) |
                                       (st & c & _ & Hcall)]]]];
    rewrite Hcall; eexists _, _; (split; [reflexivity |]).
  - split; [tauto |]. split; [reflexivity | discriminate].
  - split; [split; [discriminate | tauto] |]. split; [discriminate |]. intros _.
    split; [apply detached_bit; exact Hb |].
    unfold detached. fields. rewrite !request_calls_app. cbn.
    rewrite Z.eqb_refl. cbn. lia.
  - split; [split; [discriminate | tauto] |]. split; [discriminate |]. intros _.
    split; [apply detached_bit; exact Hb |].
    unfold logged_detach, detached. fields. rewrite !request_calls_app. cbn.
    rewrite Z.eqb_refl. cbn. lia.
  - split; [split; [discriminate | tauto] |]. split; [discriminate |]. intros _.
    split; [apply handed_off_bit; exact Hb |].
    unfold handed_off. fields. rewrite !request_calls_app. cbn.
    rewrite Z.eqb_refl. cbn. lia.
Qed.

Lemma check_pid_consumed_detached_witness :
  exists m',
    check_pid true (ex_world 10042 "com.example.other" app_ns) 1234
              (ex_monitor ["com.example.target"%string]) = Some (true, m') /\
    pid_set_get true (attaches m') 1234 = Some false.
Proof.
  destruct (check_pid_consumed_detached true
              (ex_world 10042 "com.example.other" app_ns) 1234
              (ex_monitor ["com.example.target"%string]) eq_refl)
    as (consumed & m' & Hcall & _ & _ & Hdetached).
  assert (consumed = true) as -> by (vm_compute in Hcall; congruence).
  exists m'. split; [exact Hcall |]. apply Hdetached. reflexivity.
Defined.

(** X2: the hide daemon is called for verified targets only.  If a
    classification changes the number of hide-daemon calls in the log for
    some pid, then that pid is the classified one, it has left root, its
    command line is a name configured for its uid that is no zygote name and
    does not end in "_zygote", no registered zygote shares its namespace, and
    the call was made once, after PTRACE_DETACH with SIGSTOP. *)
Theorem hide_daemon_only_verified (lp64 : bool) (w : world) (pid q : Z)
    (m m' : monitor) (consumed : bool) :
  pid_set_in_bounds lp64 pid = true ->
  check_pid lp64 w pid m = Some (consumed, m') ->
  hide_daemon_calls q (events m') <> hide_daemon_calls q (events m) ->
  q = pid /\
  exists st cmdline,
    verified_target w m pid st cmdline /\
    m' = handed_off lp64 pid (to_int (st_uid st)) cmdline m /\
    hide_daemon_calls pid (events m') = S (hide_daemon_calls pid (events m)).
Proof.
  intros Hb Hcall Hcalls.
  destruct (check_pid_cases lp64 w pid m Hb)
    as [[_ Hcase] | [_ [Hcase | [(tag & uid & c & _ & Hcase) |
                                 (st & c & Htarget & Hcase)]]]];
    rewrite Hcase in Hcall; injection Hcall as <- <-.
  - congruence.
  - exfalso. apply Hcalls. unfold detached. fields.
    rewrite hide_daemon_calls_app. cbn. lia.
  - exfalso. apply Hcalls. unfold logged_detach, detached. fields.
    rewrite !hide_daemon_calls_app. cbn. lia.
  - assert (forall p, hide_daemon_calls p (events (handed_off lp64 pid
                        (to_int (st_uid st)) c m)) =
                      (hide_daemon_calls p (events m) +
                       if (pid =? p)%Z then 1 else 0)%nat) as Hcount.
    { intros p. unfold handed_off. fields. rewrite hide_daemon_calls_app.
      unfold hide_daemon_calls at 3. cbn. destruct (pid =? p); reflexivity. }
    rewrite Hcount in Hcalls. destruct (Z.eqb_spec pid q) as [<- | Hne]; [| lia].
    split; [reflexivity |]. exists st, c. split; [exact Htarget |].
    split; [reflexivity |]. rewrite Hcount, Z.eqb_refl. lia.
Qed.

Lemma hide_daemon_only_verified_witness :
  let w := ex_world 10042 "com.example.target" app_ns in
  let m := ex_monitor ["com.example.target"%string] in
  exists st cmdline, verified_target w m 1234 st cmdline.
Proof.
  intros w m.
  destruct (hide_daemon_only_verified true w 1234 1234 m
              (handed_off true 1234 10042 "com.example.target" m) true)
    as (_ & st & cmdline & Htarget & _).
  - reflexivity.
  - vm_compute. reflexivity.
  - vm_compute. discriminate.
  - exists st, cmdline. exact Htarget.
Defined.

Lemma pid_set_get_clearbit_other (lp64 : bool) (set pid q : Z) :
  pid_set_index lp64 q <> pid_set_index lp64 pid ->
  pid_set_get lp64 (Z.clearbit set (pid_set_index lp64 pid)) q =
  pid_set_get lp64 set q.
Proof.
  intros Hne. unfold pid_set_get. destruct (pid_set_in_bounds lp64 q); [| reflexivity].
  rewrite Z.clearbit_neq by congruence. reflexivity.
Qed.

Lemma pid_set_get_setbit_other (lp64 : bool) (set pid q : Z) :
  pid_set_index lp64 q <> pid_set_index lp64 pid ->
  pid_set_get lp64 (Z.setbit set (pid_set_index lp64 pid)) q =
  pid_set_get lp64 set q.
Proof.
  intros Hne. unfold pid_set_get. destruct (pid_set_in_bounds lp64 q); [| reflexivity].
  rewrite Z.setbit_neq; [reflexivity | apply pid_set_index_nonneg | congruence].
Qed.

(** X3: a classification touches nothing but the bit of the classified pid
    and the end of the log: the zygote registry, the uid map, the timer and
    the bits of all other pids are as before, and the log is only
    extended. *)
Theorem check_pid_frame (lp64 : bool) (w : world) (pid : Z) (m m' : monitor)
    (consumed : bool) :
  pid_set_in_bounds lp64 pid = true ->
  check_pid lp64 w pid m = Some (consumed, m') ->
  zygote_map m' = zygote_map m /\ uid_proc_map m' = uid_proc_map m /\
  itimer m' = itimer m /\ inotify_fd m' = inotify_fd m /\
  (forall q, pid_set_index lp64 q <> pid_set_index lp64 pid ->
             pid_set_get lp64 (attaches m') q = pid_set_get lp64 (attaches m) q) /\
  exists added, events m' = events m ++ added.
Proof.
  intros Hb Hcall.
  destruct (check_pid_cases lp64 w pid m Hb)
    as [[_ Hcase] | [_ [Hcase | [(tag & uid & c & _ & Hcase) |
                                 (st & c & _ & Hcase)]]]];
    rewrite Hcase in Hcall; injection Hcall as <- <-;
    unfold logged_detach, detached, handed_off; fields.
  - repeat split; try reflexivity. exists []. rewrite app_nil_r. reflexivity.
  - repeat split; try reflexivity; [| eauto].
    intros q Hq. apply pid_set_get_clearbit_other. exact Hq.
  - repeat split; try reflexivity.
    + intros q Hq. apply pid_set_get_clearbit_other. exact Hq.
    + rewrite <- app_assoc. eauto.
  - repeat split; try reflexivity; [| eauto].
    intros q Hq. apply pid_set_get_clearbit_other. exact Hq.
Qed.

Lemma check_pid_frame_witness :
  let w := ex_world 10042 "com.example.target" app_ns in
  let m := set_attaches (Z.setbit (Z.setbit 0 1233) 1234)
             (ex_monitor ["com.example.target"%string]) in
  pid_set_get true (attaches (handed_off true 1234 10042 "com.example.target" m))
              1235 = Some true.
Proof.
  intros w m.
  destruct (check_pid_frame true w 1234 m
              (handed_off true 1234 10042 "com.example.target" m) true)
    as (_ & _ & _ & _ & Hbits & _).
  - reflexivity.
  - vm_compute. reflexivity.
  - rewrite (Hbits 1235); [reflexivity | vm_compute; discriminate].
Defined.

(** X4: a process whose uid is in the isolated range is detached without a
    signal and without a call of the hide daemon as soon as an entry of the
    isolated bucket is a prefix of its command line, whatever is configured
    for its uid; and when there is no isolated bucket it is detached as a
    non-target, again whatever is configured for its uid. *)
Theorem isolated_process_detached (lp64 : bool) (w : world) (pid : Z)
    (st : stat_t) (cmdline : string) (m : monitor) :
  pid_set_in_bounds lp64 pid = true ->
  proc_dir w pid = Some st -> st_uid st <> 0 ->
  proc_cmdline w pid = Some cmdline -> is_zygote_name cmdline = false ->
  is_isolated (to_int (st_uid st)) = true ->
  (forall prefixes s,
     uid_proc_map m !! (-1) = Some prefixes -> In s prefixes ->
     String.prefix s cmdline = true ->
     check_pid lp64 w pid m =
       Some (true, logged_detach lp64 LogIsolated pid (to_int (st_uid st)) cmdline m) /\
     hide_daemon_calls pid
       (events (logged_detach lp64 LogIsolated pid (to_int (st_uid st)) cmdline m)) =
     hide_daemon_calls pid (events m)) /\
  (uid_proc_map m !! (-1) = None ->
   check_pid lp64 w pid m = Some (true, detached lp64 pid 0 m) /\
   hide_daemon_calls pid (events (detached lp64 pid 0 m)) =
   hide_daemon_calls pid (events m)).
Proof.
  intros Hb Hdir Huid Hcmd Hzyg Hiso.
  assert (check_pid lp64 w pid m =
          match uid_proc_map m !! (-1) with
          | None => not_target lp64 pid m
          | Some prefixes =>
              if existsb (str_starts cmdline) prefixes
              then (emit (Logi LogIsolated cmdline pid (to_int (st_uid st)));;
                    inject_and_hide lp64 pid) m
              else check_uid lp64 w pid (to_int (st_uid st)) cmdline st m
          end) as Hcheck.
  { unfold check_pid. rewrite Hdir, (proj2 (Z.eqb_neq _ _) Huid), Hcmd, Hzyg, Hiso.
    unfold bind at 1, gets at 1.
    destruct (uid_proc_map m !! (-1)) as [prefixes |]; [| reflexivity].
    destruct (existsb (str_starts cmdline) prefixes); reflexivity. }
  split.
  - intros prefixes s Hbucket Hin Hprefix. rewrite Hcheck, Hbucket.
    assert (existsb (str_starts cmdline) prefixes = true) as ->
      by (apply existsb_exists; exists s; auto).
    split.
    + unfold bind at 1, emit, modify. rewrite inject_and_hide_defined by exact Hb.
      reflexivity.
    + unfold logged_detach, detached. fields. rewrite !hide_daemon_calls_app.
      cbn. lia.
  - intros Hbucket. rewrite Hcheck, Hbucket. split.
    + apply not_target_defined. exact Hb.
    + unfold detached. fields. rewrite hide_daemon_calls_app. cbn. lia.
Qed.

Lemma isolated_process_detached_witness :
  let w := ex_world 10090001 "com.example.target:iso:worker" app_ns in
  let m := with_bucket ["com.example.target:iso"%string]
             (ex_monitor ["com.example.target:iso:worker"%string]) in
  check_pid true w 1234 m =
    Some (true, logged_detach true LogIsolated 1234 10090001
                  "com.example.target:iso:worker" m).
Proof.
  intros w m.
  destruct (isolated_process_detached true w 1234 (Stat 5 1234 10090001)
              "com.example.target:iso:worker" m) as [Hmatch _].
  - reflexivity.
  - reflexivity.
  - cbn. lia.
  - reflexivity.
  - reflexivity.
  - reflexivity.
  - destruct (Hmatch ["com.example.target:iso"%string]
                     "com.example.target:iso"%string) as [Hcall _].
    + reflexivity.
    + cbn. auto.
    + reflexivity.
    + exact Hcall.
Defined.

(** X5: a process whose command line equals a name configured for its uid
    that ends in "_zygote" is detached without a signal after the app-zygote
    line of the log; the hide daemon is not called and the namespace is not
    looked at. *)
Theorem app_zygote_detached (lp64 : bool) (w : world) (pid : Z)
    (st : stat_t) (cmdline : string) (names : list string) (m : monitor) :
  pid_set_in_bounds lp64 pid = true ->
  proc_dir w pid = Some st -> st_uid st <> 0 ->
  proc_cmdline w pid = Some cmdline -> is_zygote_name cmdline = false ->
  is_isolated (to_int (st_uid st)) = false ->
  uid_proc_map m !! to_int (st_uid st) = Some names -> In cmdline names ->
  str_ends cmdline "_zygote" = true ->
  check_pid lp64 w pid m =
    Some (true, logged_detach lp64 LogAppZygote pid (to_int (st_uid st)) cmdline m) /\
  hide_daemon_calls pid
    (events (logged_detach lp64 LogAppZygote pid (to_int (st_uid st)) cmdline m)) =
  hide_daemon_calls pid (events m).
Proof.
  intros Hb Hdir Huid Hcmd Hzyg Hiso Hnames Hin Hsuffix. split.
  - rewrite (check_pid_reaches_uid lp64 w pid st cmdline m) by auto.
    rewrite check_uid_lookup, Hnames.
    rewrite check_names_match by exact Hin. cbn [check_names].
    rewrite String.eqb_refl, Hsuffix. cbn [negb].
    unfold bind at 1, emit, modify. rewrite inject_and_hide_defined by exact Hb.
    reflexivity.
  - unfold logged_detach, detached. fields. rewrite !hide_daemon_calls_app.
    cbn. lia.
Qed.

Lemma app_zygote_detached_witness :
  let w := ex_world 10042 "com.example.target_zygote" zygote_ns in
  let m := ex_monitor ["com.example.target_zygote"%string] in
  check_pid true w 1234 m =
    Some (true, logged_detach true LogAppZygote 1234 10042
                  "com.example.target_zygote" m).
Proof.
  intros w m.
  refine (proj1 (app_zygote_detached true w 1234 (Stat 5 1234 10042)
                   "com.example.target_zygote"
                   ["com.example.target_zygote"%string] m _ _ _ _ _ _ _ _ _)).
  - reflexivity.
  - reflexivity.
  - cbn. lia.
  - reflexivity.
  - reflexivity.
  - reflexivity.
  - reflexivity.
  - cbn. auto.
  - reflexivity.
Defined.

(** ** Wait statuses and the bitmap *)

(** X6: decoding a stop status: for a signal below 256 and an event below
    65536 the status of the stop is recognised as a stop, and [WSTOPSIG] and
    [WEVENT] give the signal and the event back. *)
Theorem stop_status_decode (signal event : Z) :
  0 <= signal < 256 -> 0 <= event < 65536 ->
  WIFSTOPPED (stop_status signal event) = true /\
  WSTOPSIG (stop_status signal event) = signal /\
  WEVENT (stop_status signal event) = event.
Proof.
  intros Hsig Hev. unfold WIFSTOPPED, WSTOPSIG, WEVENT, stop_status.
  split; [| split].
  - apply Z.eqb_eq. change 255 with (Z.ones 8). rewrite Z.land_ones by lia.
    change (2 ^ 8) with 256.
    replace (127 + signal * 256 + event * 65536)
      with (127 + (signal + event * 256) * 256) by lia.
    rewrite Z.mod_add by lia. reflexivity.
  - rewrite Z.shiftr_land. change (Z.shiftr 65280 8) with (Z.ones 8).
    rewrite Z.land_ones, Z.shiftr_div_pow2 by lia. change (2 ^ 8) with 256.
    replace (127 + signal * 256 + event * 65536)
      with (127 + (signal + event * 256) * 256) by lia.
    rewrite Z.div_add by lia. change (127 / 256) with 0.
    replace (0 + (signal + event * 256)) with (signal + event * 256) by lia.
    rewrite Z.mod_add by lia. apply Z.mod_small. lia.
  - rewrite Z.shiftr_land. change (Z.shiftr 4294901760 16) with (Z.ones 16).
    rewrite Z.land_ones, Z.shiftr_div_pow2 by lia. change (2 ^ 16) with 65536.
    replace (127 + signal * 256 + event * 65536)
      with ((127 + signal * 256) + event * 65536) by lia.
    rewrite Z.div_add by lia. rewrite (Z.div_small (127 + signal * 256)) by lia.
    apply Z.mod_small. lia.
Qed.

Lemma stop_status_decode_witness :
  WIFSTOPPED 198015 = true /\ WSTOPSIG 198015 = SIGTRAP /\
  WEVENT 198015 = PTRACE_EVENT_CLONE.
Proof.
  apply (stop_status_decode SIGTRAP PTRACE_EVENT_CLONE); unfold SIGTRAP,
    PTRACE_EVENT_CLONE; lia.
Defined.

(** X7: writing the bit of a pid and reading the bit of a pid, both between
    1 and 32768: the read gives the written value for the same pid and the
    old value for any other pid; after [reset] every bit reads as clear. *)
Theorem pid_set_put_get (lp64 : bool) (set p q : Z) (b : bool) :
  1 <= p <= PID_MAX -> 1 <= q <= PID_MAX ->
  exists set',
    pid_set_put lp64 set p b = Some set' /\
    pid_set_get lp64 set' q =
      (if q =? p then Some b else pid_set_get lp64 set q) /\
    pid_set_get lp64 0 q = Some false.
Proof.
  intros Hp Hq.
  pose proof (pid_set_index_int lp64 p Hp) as Hip.
  pose proof (pid_set_index_int lp64 q Hq) as Hiq.
  assert (pid_set_in_bounds lp64 p = true) as Hbp
    by (unfold pid_set_in_bounds; rewrite Hip; apply Z.ltb_lt; lia).
  assert (pid_set_in_bounds lp64 q = true) as Hbq
    by (unfold pid_set_in_bounds; rewrite Hiq; apply Z.ltb_lt; lia).
  unfold pid_set_put. rewrite Hbp. eexists. split; [reflexivity |]. split.
  - destruct (Z.eqb_spec q p) as [-> | Hne].
    + apply (pid_set_get_put lp64 set). unfold pid_set_put. rewrite Hbp. reflexivity.
    + destruct b.
      * apply pid_set_get_setbit_other. lia.
      * apply pid_set_get_clearbit_other. lia.
  - unfold pid_set_get. rewrite Hbq, Z.bits_0. reflexivity.
Qed.

Lemma pid_set_put_get_witness :
  exists set',
    pid_set_put true (Z.setbit 0 1233) 1235 true = Some set' /\
    pid_set_get true set' 1234 = Some true.
Proof.
  destruct (pid_set_put_get true (Z.setbit 0 1233) 1235 1234 true)
    as (set' & Hput & Hget & _); [unfold PID_MAX; lia | unfold PID_MAX; lia |].
  exists set'. split; [exact Hput | exact Hget].
Defined.

(** ** The iterations of the main loop *)

Lemma monitor_step_zygote_event (lp64 : bool) (w : world) (pid status msg : Z)
    (ns : stat_t) (m : monitor) :
  0 <= pid -> WIFSTOPPED status = true -> WSTOPSIG status = SIGTRAP ->
  WEVENT status <> 0 -> zygote_map m !! pid = Some ns ->
  monitor_step lp64 w pid status msg m =
  zygote_event lp64 pid (WEVENT status) msg
    (set_events (events m ++ [Ptrace PTRACE_GETEVENTMSG pid 0]) m).
Proof.
  intros Hpid Hstopped Hsig Hev Hzygote. unfold monitor_step.
  rewrite (proj2 (Z.ltb_ge pid 0) Hpid), Hstopped, Hsig.
  rewrite (proj2 (Z.eqb_neq _ _) Hev). cbn [negb andb Z.eqb SIGTRAP Pos.eqb].
  unfold_monad. fields. rewrite Hzygote. reflexivity.
Qed.

Lemma monitor_step_sigstop (lp64 : bool) (w : world) (pid status msg : Z)
    (m : monitor) :
  0 <= pid -> WIFSTOPPED status = true -> WSTOPSIG status = SIGSTOP ->
  monitor_step lp64 w pid status msg m = sigstop_stop lp64 w pid m.
Proof.
  intros Hpid Hstopped Hsig. unfold monitor_step.
  rewrite (proj2 (Z.ltb_ge pid 0) Hpid), Hstopped, Hsig. reflexivity.
Qed.

(** X8: a stop caused by any other signal (neither SIGSTOP nor a SIGTRAP that
    carries an event) is answered by PTRACE_CONT with that same signal, for
    zygotes and children alike; nothing else is done and nothing else
    changes. *)
Theorem foreign_signal_forwarded (lp64 : bool) (w : world) (pid status msg : Z)
    (m : monitor) :
  0 <= pid -> WIFSTOPPED status = true ->
  WSTOPSIG status <> SIGSTOP ->
  WSTOPSIG status <> SIGTRAP \/ WEVENT status = 0 ->
  monitor_step lp64 w pid status msg m =
  Some (tt, set_events (events m ++ [Ptrace PTRACE_CONT pid (WSTOPSIG status)]) m).
Proof.
  intros Hpid Hstopped Hstop Hplain. unfold monitor_step.
  rewrite (proj2 (Z.ltb_ge pid 0) Hpid), Hstopped. cbn [negb].
  assert ((WSTOPSIG status =? SIGTRAP) && negb (WEVENT status =? 0) = false) as ->.
  { destruct Hplain as [Hsig | Hev].
    - rewrite (proj2 (Z.eqb_neq _ _) Hsig). reflexivity.
    - rewrite Hev. cbn. apply andb_false_r. }
  rewrite (proj2 (Z.eqb_neq _ _) Hstop). reflexivity.
Qed.

Lemma foreign_signal_forwarded_witness :
  let m := ex_monitor [] in
  monitor_step true early_world 1234 (stop_status 11 0) 0 m =
  Some (tt, set_events [Ptrace PTRACE_CONT 1234 11] m).
Proof.
  intros m.
  apply (foreign_signal_forwarded true early_world 1234 (stop_status 11 0) 0 m).
  - lia.
  - reflexivity.
  - vm_compute. discriminate.
  - right. reflexivity.
Defined.

(** X9: a fork or vfork event of a registered zygote marks the new child,
    whose pid is the message of the event, in the bitmap and resumes the
    zygote; the registry and the bits of other pids are untouched and nothing
    is classified.  When the message is 0 or lies above 32768 the iteration
    indexes outside the bitset. *)
Theorem zygote_fork_marks_child (lp64 : bool) (w : world) (pid status msg : Z)
    (ns : stat_t) (m : monitor) :
  0 <= pid -> WIFSTOPPED status = true -> WSTOPSIG status = SIGTRAP ->
  WEVENT status = PTRACE_EVENT_FORK \/ WEVENT status = PTRACE_EVENT_VFORK ->
  zygote_map m !! pid = Some ns ->
  0 <= msg < 2 ^ size_bits lp64 ->
  (1 <= msg <= PID_MAX ->
   monitor_step lp64 w pid status msg m =
     Some (tt, set_events (events m ++ [Ptrace PTRACE_GETEVENTMSG pid 0;
                                        Ptrace PTRACE_CONT pid 0])
                 (set_attaches (Z.setbit (attaches m) (msg - 1)) m)) /\
   pid_set_get lp64 (Z.setbit (attaches m) (msg - 1)) msg = Some true /\
   forall q, 1 <= q <= PID_MAX -> q <> msg ->
             pid_set_get lp64 (Z.setbit (attaches m) (msg - 1)) q =
             pid_set_get lp64 (attaches m) q) /\
  (msg = 0 \/ PID_MAX < msg -> monitor_step lp64 w pid status msg m = None).
Proof.
  intros Hpid Hstopped Hsig Hev Hzygote Hmsg.
  assert (WEVENT status <> 0) as Hnz by (destruct Hev as [-> | ->]; discriminate).
  rewrite (monitor_step_zygote_event lp64 w pid status msg ns m) by assumption.
  assert ((WEVENT status =? PTRACE_EVENT_FORK) ||
          (WEVENT status =? PTRACE_EVENT_VFORK) = true) as Hfork
    by (destruct Hev as [-> | ->]; reflexivity).
  unfold zygote_event. rewrite Hfork. split.
  - intros Hin. pose proof (pid_set_index_int lp64 msg Hin) as Hi.
    assert (pid_set_in_bounds lp64 msg = true) as Hb
      by (unfold pid_set_in_bounds; rewrite Hi; apply Z.ltb_lt; lia).
    split; [| split].
    + unfold attaches_put, pid_set_put. unfold_monad. fields. rewrite Hb, Hi.
      fields. rewrite <- app_assoc. reflexivity.
    + rewrite <- Hi. unfold pid_set_get. rewrite Hb.
      rewrite Z.setbit_eq by apply pid_set_index_nonneg. reflexivity.
    + intros q Hq Hne. rewrite <- Hi. apply pid_set_get_setbit_other.
      rewrite Hi, (pid_set_index_int lp64 q Hq). lia.
  - intros Hout.
    assert (PID_MAX <= pid_set_index lp64 msg) as Hi
      by (apply pid_set_index_outside; unfold PID_MAX in *; lia).
    unfold attaches_put, pid_set_put, pid_set_in_bounds. unfold_monad. fields.
    rewrite (proj2 (Z.ltb_ge _ _) Hi). reflexivity.
Qed.

Lemma zygote_fork_marks_child_witness :
  let m := set_attaches 0 (ex_monitor []) in
  monitor_step true early_world 600 (stop_status SIGTRAP PTRACE_EVENT_FORK) 1234 m =
    Some (tt, set_events [Ptrace PTRACE_GETEVENTMSG 600 0; Ptrace PTRACE_CONT 600 0]
                (set_attaches (Z.setbit 0 1233) m)) /\
  monitor_step true early_world 600 (stop_status SIGTRAP PTRACE_EVENT_FORK) 0 m = None.
Proof.
  intros m.
  destruct (zygote_fork_marks_child true early_world 600
              (stop_status SIGTRAP PTRACE_EVENT_FORK) 1234 zygote_ns m)
    as [Hin _]; [lia | reflexivity | reflexivity | left; reflexivity
                 | reflexivity | cbn; lia |].
  destruct (zygote_fork_marks_child true early_world 600
              (stop_status SIGTRAP PTRACE_EVENT_FORK) 0 zygote_ns m)
    as [_ Hout]; [lia | reflexivity | reflexivity | left; reflexivity
                  | reflexivity | cbn; lia |].
  split.
  - apply Hin. unfold PID_MAX. lia.
  - apply Hout. left. reflexivity.
Defined.

(** X10: any other event of a registered zygote (its exit, an exec, a clone)
    removes the zygote from the registry and detaches it without a signal;
    the zygote is not resumed and the other entries of the registry stay. *)
Theorem zygote_event_unregisters (lp64 : bool) (w : world) (pid status msg : Z)
    (ns : stat_t) (m : monitor) :
  0 <= pid -> pid_set_in_bounds lp64 pid = true ->
  WIFSTOPPED status = true -> WSTOPSIG status = SIGTRAP ->
  WEVENT status <> 0 -> WEVENT status <> PTRACE_EVENT_FORK ->
  WEVENT status <> PTRACE_EVENT_VFORK ->
  zygote_map m !! pid = Some ns ->
  exists m',
    monitor_step lp64 w pid status msg m = Some (tt, m') /\
    zygote_map m' = delete pid (zygote_map m) /\
    zygote_map m' !! pid = None /\
    (forall q, q <> pid -> zygote_map m' !! q = zygote_map m !! q) /\
    size (zygote_map m') = pred (size (zygote_map m)) /\
    events m' = events m ++ [Ptrace PTRACE_GETEVENTMSG pid 0;
                             Ptrace PTRACE_DETACH pid 0] /\
    pid_set_get lp64 (attaches m') pid = Some false.
Proof.
  intros Hpid Hb Hstopped Hsig Hnz Hfork Hvfork Hzygote.
  rewrite (monitor_step_zygote_event lp64 w pid status msg ns m) by assumption.
  unfold zygote_event.
  rewrite (proj2 (Z.eqb_neq _ _) Hfork), (proj2 (Z.eqb_neq _ _) Hvfork).
  cbn [orb]. unfold bind at 1, modify at 1.
  rewrite detach_pid_defined by exact Hb. eexists. split; [reflexivity |].
  unfold detached. fields. split; [reflexivity |].
  split; [apply lookup_delete_eq |].
  split; [intros q Hq; apply lookup_delete_ne; congruence |].
  split; [rewrite map_size_delete, Hzygote; reflexivity |].
  split; [rewrite <- app_assoc; reflexivity |].
  unfold pid_set_get. rewrite Hb, Z.clearbit_eq. reflexivity.
Qed.

Lemma zygote_event_unregisters_witness :
  exists m',
    monitor_step true early_world 601 (stop_status SIGTRAP PTRACE_EVENT_EXIT) 0
                 (ex_monitor []) = Some (tt, m') /\
    zygote_map m' !! 601 = None /\ zygote_map m' !! 600 = Some zygote_ns.
Proof.
  destruct (zygote_event_unregisters true early_world 601
              (stop_status SIGTRAP PTRACE_EVENT_EXIT) 0 zygote_ns (ex_monitor []))
    as (m' & Hstep & _ & Hgone & Hothers & _);
    [lia | reflexivity | reflexivity | reflexivity | vm_compute; discriminate
     | vm_compute; discriminate | vm_compute; discriminate | reflexivity |].
  exists m'. split; [exact Hstep |]. split; [exact Hgone |].
  rewrite Hothers by lia. reflexivity.
Defined.

(** X11: trace events of a process that is no registered zygote.  Any event
    but a clone (an exec, an exit, ...) detaches the process without a
    signal; a clone of a process whose bit is clear resumes it.  In neither
    case is the process classified: the outcome does not depend on the
    system. *)
Theorem child_event_unclassified (lp64 : bool) (w : world) (pid status msg : Z)
    (m : monitor) :
  0 <= pid -> WIFSTOPPED status = true -> WSTOPSIG status = SIGTRAP ->
  WEVENT status <> 0 -> zygote_map m !! pid = None ->
  (WEVENT status <> PTRACE_EVENT_CLONE -> pid_set_in_bounds lp64 pid = true ->
   monitor_step lp64 w pid status msg m =
     Some (tt, detached lp64 pid 0
                 (set_events (events m ++ [Ptrace PTRACE_GETEVENTMSG pid 0]) m))) /\
  (WEVENT status = PTRACE_EVENT_CLONE ->
   pid_set_get lp64 (attaches m) pid = Some false ->
   monitor_step lp64 w pid status msg m =
     Some (tt, set_events (events m ++ [Ptrace PTRACE_GETEVENTMSG pid 0;
                                        Ptrace PTRACE_CONT pid 0]) m)).
Proof.
  intros Hpid Hstopped Hsig Hnz Hchild.
  rewrite (monitor_step_child_event lp64 w pid status msg m) by assumption.
  unfold child_event. split.
  - intros Hev Hb. rewrite (proj2 (Z.eqb_neq _ _) Hev).
    apply detach_pid_defined. exact Hb.
  - intros Hev Hclear. rewrite Hev. cbn [Z.eqb PTRACE_EVENT_CLONE Pos.eqb].
    unfold attaches_get, bind at 1. fields. rewrite Hclear.
    unfold_monad. fields. rewrite <- app_assoc. reflexivity.
Qed.

Lemma child_event_unclassified_witness :
  let w := ex_world 10042 "com.example.target" app_ns in
  let m := set_attaches 0 (ex_monitor ["com.example.target"%string]) in
  monitor_step true w 1234 (stop_status SIGTRAP PTRACE_EVENT_CLONE) 0 m =
    Some (tt, set_events [Ptrace PTRACE_GETEVENTMSG 1234 0;
                          Ptrace PTRACE_CONT 1234 0] m).
Proof.
  intros w m.
  destruct (child_event_unclassified true w 1234
              (stop_status SIGTRAP PTRACE_EVENT_CLONE) 0 m) as [_ Hclone];
    [lia | reflexivity | reflexivity | vm_compute; discriminate | reflexivity |].
  apply Hclone; reflexivity.
Defined.

(** X12: the SIGSTOP stop of a pid whose bit is already set (a child marked
    at the fork event of its zygote) enables the clone, exec and exit options
    and resumes it; /proc/<pid>/status is not consulted and the bitmap stays
    as it is. *)
Theorem sigstop_marked_pid (lp64 : bool) (w : world) (pid status msg : Z)
    (m : monitor) :
  0 <= pid -> WIFSTOPPED status = true -> WSTOPSIG status = SIGSTOP ->
  pid_set_get lp64 (attaches m) pid = Some true ->
  monitor_step lp64 w pid status msg m =
  Some (tt, set_events (events m ++ [Ptrace PTRACE_SETOPTIONS pid trace_options;
                                     Ptrace PTRACE_CONT pid 0]) m).
Proof.
  intros Hpid Hstopped Hsig Hset.
  rewrite monitor_step_sigstop by assumption.
  unfold sigstop_stop, attaches_get. unfold_monad. rewrite Hset. fields.
  rewrite Hset. fields. rewrite <- app_assoc. reflexivity.
Qed.

Lemma sigstop_marked_pid_witness :
  let m := ex_monitor [] in
  monitor_step true early_world 1234 (stop_status SIGSTOP 0) 0 m =
  Some (tt, set_events [Ptrace PTRACE_SETOPTIONS 1234 trace_options;
                        Ptrace PTRACE_CONT 1234 0] m).
Proof.
  intros m.
  apply (sigstop_marked_pid true early_world 1234 (stop_status SIGSTOP 0) 0 m);
    [lia | reflexivity | reflexivity | reflexivity].
Defined.

(** The hand-over, from the conditions [check_pid] checks. *)
Lemma check_pid_verified_target (lp64 : bool) (w : world) (pid : Z)
    (st : stat_t) (cmdline : string) (m : monitor) :
  pid_set_in_bounds lp64 pid = true ->
  verified_target w m pid st cmdline ->
  (is_isolated (to_int (st_uid st)) = false \/
   exists prefixes, uid_proc_map m !! (-1) = Some prefixes /\
                    existsb (str_starts cmdline) prefixes = false) ->
  check_pid lp64 w pid m =
  Some (true, handed_off lp64 pid (to_int (st_uid st)) cmdline m).
Proof.
  intros Hb (Hdir & Huid & Hcmd & Hzyg & (names & Hnames & Hin) & Hsuffix & Hns) Hiso.
  rewrite (check_pid_reaches_uid lp64 w pid st cmdline m) by assumption.
  rewrite check_uid_lookup, Hnames.
  rewrite check_names_match by exact Hin. cbn [check_names].
  rewrite String.eqb_refl, Hsuffix. cbn [negb].
  unfold detach_pid, attaches_put, pid_set_put. unfold_monad. fields.
  rewrite Hns, Hb. fields. unfold handed_off. rewrite <- !app_assoc. reflexivity.
Qed.

(** A clone event of a marked process that is no zygote: the process is
    classified, and resumed when the classification does not consume it. *)
Lemma monitor_step_classifies (lp64 : bool) (w : world) (pid status msg : Z)
    (m : monitor) :
  0 <= pid -> WIFSTOPPED status = true -> WSTOPSIG status = SIGTRAP ->
  WEVENT status = PTRACE_EVENT_CLONE -> zygote_map m !! pid = None ->
  pid_set_get lp64 (attaches m) pid = Some true ->
  monitor_step lp64 w pid status msg m =
  match check_pid lp64 w pid
          (set_events (events m ++ [Ptrace PTRACE_GETEVENTMSG pid 0]) m) with
  | Some (true, m') => Some (tt, m')
  | Some (false, m') =>
      Some (tt, set_events (events m' ++ [Ptrace PTRACE_CONT pid 0]) m')
  | None => None
  end.
Proof.
  intros Hpid Hstopped Hsig Hev Hchild Hset.
  rewrite (monitor_step_child_event lp64 w pid status msg m); try assumption;
    [| rewrite Hev; discriminate].
  rewrite Hev. unfold child_event. cbn [Z.eqb PTRACE_EVENT_CLONE Pos.eqb].
  unfold attaches_get, bind at 1. fields. rewrite Hset. unfold bind at 1.
  destruct (check_pid lp64 w pid _) as [[[] m'] |]; reflexivity.
Qed.

(** ** Sequences of stops *)

Lemma check_pid_not_yet (lp64 : bool) (w : world) (pid : Z) (m : monitor) :
  pid_set_in_bounds lp64 pid = true -> not_yet w pid ->
  check_pid lp64 w pid m = Some (false, m).
Proof.
  intros Hb Hyet.
  destruct (check_pid_cases lp64 w pid m Hb) as [[_ Hcall] | [Hnot _]];
    [exact Hcall | contradiction].
Qed.

Lemma loop_cons (lp64 : bool) (w : world) (pid status msg : Z)
    (rest : list (world * Z * Z * Z)) (m m1 : monitor) :
  monitor_step lp64 w pid status msg m = Some (tt, m1) ->
  proc_monitor_loop lp64 ((w, pid, status, msg) :: rest) m =
  proc_monitor_loop lp64 rest m1.
Proof. intros Hstep. cbn [proc_monitor_loop]. unfold bind. rewrite Hstep. reflexivity. Qed.

(** X13: from the fork to the hand-over.  A registered zygote reports a fork
    whose message is the pid of the child, the child reports its SIGSTOP
    stop, then a clone stop at which it is a verified target: the zygote is
    resumed, the child gets the clone, exec and exit options and is resumed,
    and at the clone stop it is detached with SIGSTOP and handed to the hide
    daemon, once; its bit is clear at the end. *)
Theorem fork_to_handoff (lp64 : bool) (w1 w2 w3 : world)
    (zygote child msg2 msg3 : Z) (zns st : stat_t) (cmdline : string)
    (m : monitor) :
  0 <= zygote -> zygote_map m !! zygote = Some zns ->
  1 <= child <= PID_MAX -> zygote_map m !! child = None ->
  verified_target w3 m child st cmdline ->
  (is_isolated (to_int (st_uid st)) = false \/
   exists prefixes, uid_proc_map m !! (-1) = Some prefixes /\
                    existsb (str_starts cmdline) prefixes = false) ->
  let m' :=
    set_events
      (events m ++
       [Ptrace PTRACE_GETEVENTMSG zygote 0; Ptrace PTRACE_CONT zygote 0;
        Ptrace PTRACE_SETOPTIONS child trace_options; Ptrace PTRACE_CONT child 0;
        Ptrace PTRACE_GETEVENTMSG child 0;
        Logi LogTarget cmdline child (to_int (st_uid st));
        Ptrace PTRACE_DETACH child SIGSTOP; HideDaemon child])
      (set_attaches (Z.clearbit (Z.setbit (attaches m) (child - 1)) (child - 1)) m) in
  proc_monitor_loop lp64
    [(w1, zygote, stop_status SIGTRAP PTRACE_EVENT_FORK, child);
     (w2, child, stop_status SIGSTOP 0, msg2);
     (w3, child, stop_status SIGTRAP PTRACE_EVENT_CLONE, msg3)] m = Some (tt, m') /\
  hide_daemon_calls child (events m') = S (hide_daemon_calls child (events m)) /\
  pid_set_get lp64 (attaches m') child = Some false.
Proof.
  intros Hz Hzygote Hchild Hnz Htarget Hiso m'.
  pose proof (pid_set_index_int lp64 child Hchild) as Hi.
  assert (pid_set_in_bounds lp64 child = true) as Hb
    by (unfold pid_set_in_bounds; rewrite Hi; apply Z.ltb_lt; lia).
  set (m1 := set_events (events m ++ [Ptrace PTRACE_GETEVENTMSG zygote 0;
                                      Ptrace PTRACE_CONT zygote 0])
               (set_attaches (Z.setbit (attaches m) (child - 1)) m)).
  set (m2 := set_events (events m1 ++ [Ptrace PTRACE_SETOPTIONS child trace_options;
                                       Ptrace PTRACE_CONT child 0]) m1).
  assert (pid_set_get lp64 (attaches m1) child = Some true) as Hset.
  { subst m1. fields. unfold pid_set_get. rewrite Hb, Hi.
    rewrite Z.setbit_eq by lia. reflexivity. }
  split; [| split].
  - rewrite (loop_cons lp64 w1 zygote _ child _ m m1).
    2: { rewrite (monitor_step_zygote_event lp64 w1 zygote _ child zns m);
           [| lia | reflexivity | reflexivity | vm_compute; discriminate | exact Hzygote].
         unfold zygote_event. cbn [orb].
         change (WEVENT (stop_status SIGTRAP PTRACE_EVENT_FORK) =? PTRACE_EVENT_FORK)
           with true. cbn [orb].
         unfold attaches_put, pid_set_put. unfold_monad. fields. rewrite Hb, Hi.
         fields. subst m1. rewrite <- app_assoc. reflexivity. }
    rewrite (loop_cons lp64 w2 child _ msg2 _ m1 m2).
    2: { rewrite monitor_step_sigstop by (try reflexivity; lia).
         unfold sigstop_stop, attaches_get. unfold_monad. rewrite Hset. fields.
         rewrite Hset. fields. subst m2. rewrite <- app_assoc. reflexivity. }
    rewrite (loop_cons lp64 w3 child _ msg3 _ m2
               (handed_off lp64 child (to_int (st_uid st)) cmdline
                  (set_events (events m2 ++ [Ptrace PTRACE_GETEVENTMSG child 0]) m2))).
    2: { rewrite monitor_step_classifies;
           [| lia | reflexivity | reflexivity | reflexivity | exact Hnz | exact Hset].
         rewrite (check_pid_verified_target lp64 w3 child st cmdline);
           [reflexivity | exact Hb | exact Htarget | exact Hiso]. }
    cbn [proc_monitor_loop]. unfold ret. f_equal. f_equal.
    subst m' m2 m1. unfold handed_off. fields. rewrite Hi.
    rewrite <- !app_assoc. reflexivity.
  - subst m'. fields. rewrite hide_daemon_calls_app.
    unfold hide_daemon_calls at 2. cbn. rewrite Z.eqb_refl. cbn. lia.
  - subst m'. fields. unfold pid_set_get. rewrite Hb, Hi, Z.clearbit_eq.
    reflexivity.
Qed.

Lemma fork_to_handoff_witness :
  let w := ex_world 10042 "com.example.target" app_ns in
  let m := set_attaches 0 (ex_monitor ["com.example.target"%string]) in
  exists m',
    proc_monitor_loop true
      [(w, 600, stop_status SIGTRAP PTRACE_EVENT_FORK, 1234);
       (w, 1234, stop_status SIGSTOP 0, 0);
       (w, 1234, stop_status SIGTRAP PTRACE_EVENT_CLONE, 1235)] m = Some (tt, m') /\
    hide_daemon_calls 1234 (events m') = 1%nat.
Proof.
  intros w m.
  destruct (fork_to_handoff true w w w 600 1234 0 1235 zygote_ns
              (Stat 5 1234 10042) "com.example.target" m)
    as (Hrun & Hcalls & _).
  - lia.
  - reflexivity.
  - unfold PID_MAX. lia.
  - reflexivity.
  - unfold verified_target. repeat split; try reflexivity; try (cbn; lia).
    exists ["com.example.target"%string]. split; [reflexivity | cbn; auto].
  - left. reflexivity.
  - eexists. split; [exact Hrun | exact Hcalls].
Defined.

(** X14: a marked child that is still root, or still carries a zygote name,
    at a clone stop is resumed with its bit left set, so that its next clone
    stop classifies it again; if it is a verified target by then it is handed
    over at that second stop. *)
Theorem early_clone_reclassified (lp64 : bool) (w1 w2 : world)
    (child msg1 msg2 : Z) (st : stat_t) (cmdline : string) (m : monitor) :
  0 <= child -> zygote_map m !! child = None ->
  pid_set_get lp64 (attaches m) child = Some true ->
  not_yet w1 child ->
  verified_target w2 m child st cmdline ->
  (is_isolated (to_int (st_uid st)) = false \/
   exists prefixes, uid_proc_map m !! (-1) = Some prefixes /\
                    existsb (str_starts cmdline) prefixes = false) ->
  let m1 := set_events (events m ++ [Ptrace PTRACE_GETEVENTMSG child 0;
                                     Ptrace PTRACE_CONT child 0]) m in
  monitor_step lp64 w1 child (stop_status SIGTRAP PTRACE_EVENT_CLONE) msg1 m =
    Some (tt, m1) /\
  pid_set_get lp64 (attaches m1) child = Some true /\
  proc_monitor_loop lp64
    [(w1, child, stop_status SIGTRAP PTRACE_EVENT_CLONE, msg1);
     (w2, child, stop_status SIGTRAP PTRACE_EVENT_CLONE, msg2)] m =
    Some (tt, handed_off lp64 child (to_int (st_uid st)) cmdline
                (set_events (events m1 ++ [Ptrace PTRACE_GETEVENTMSG child 0]) m1)).
Proof.
  intros Hchild Hnz Hset Hyet Htarget Hiso m1.
  destruct (pid_set_get_in_bounds _ _ _ _ Hset) as [Hb _].
  assert (monitor_step lp64 w1 child (stop_status SIGTRAP PTRACE_EVENT_CLONE) msg1 m =
          Some (tt, m1)) as Hfirst.
  { rewrite monitor_step_classifies;
      [| exact Hchild | reflexivity | reflexivity | reflexivity | exact Hnz | exact Hset].
    rewrite check_pid_not_yet by assumption. fields. subst m1.
    rewrite <- app_assoc. reflexivity. }
  split; [exact Hfirst |]. split; [exact Hset |].
  rewrite (loop_cons lp64 w1 child _ msg1 _ m m1 Hfirst).
  rewrite (loop_cons lp64 w2 child _ msg2 _ m1
             (handed_off lp64 child (to_int (st_uid st)) cmdline
                (set_events (events m1 ++ [Ptrace PTRACE_GETEVENTMSG child 0]) m1))).
  - reflexivity.
  - rewrite monitor_step_classifies;
      [| exact Hchild | reflexivity | reflexivity | reflexivity | exact Hnz | exact Hset].
    rewrite (check_pid_verified_target lp64 w2 child st cmdline);
      [reflexivity | exact Hb | exact Htarget | exact Hiso].
Qed.

Lemma early_clone_reclassified_witness :
  let w1 := ex_world 0 "zygote64" zygote_ns in
  let w2 := ex_world 10042 "com.example.target" app_ns in
  let m := ex_monitor ["com.example.target"%string] in
  exists m',
    proc_monitor_loop true
      [(w1, 1234, stop_status SIGTRAP PTRACE_EVENT_CLONE, 0);
       (w2, 1234, stop_status SIGTRAP PTRACE_EVENT_CLONE, 0)] m = Some (tt, m') /\
    hide_daemon_calls 1234 (events m') = 1%nat.
Proof.
  intros w1 w2 m.
  destruct (early_clone_reclassified true w1 w2 1234 0 0 (Stat 5 1234 10042)
              "com.example.target" m) as (_ & _ & Hrun).
  - lia.
  - reflexivity.
  - reflexivity.
  - exists (Stat 5 1234 0). split; [reflexivity | left; reflexivity].
  - unfold verified_target. repeat split; try reflexivity; try (cbn; lia).
    exists ["com.example.target"%string]. split; [reflexivity | cbn; auto].
  - left. reflexivity.
  - eexists. split; [exact Hrun | reflexivity].
Defined.

(** ** What the main loop never does *)

Lemma handoffs_ok_none (log : list event) :
  (forall pid, ~ In (HideDaemon pid) log) -> handoffs_ok log.
Proof.
  intros Hnone before after pid ->. exfalso. apply (Hnone pid).
  apply in_or_app. right. left. reflexivity.
Qed.

Lemma handoffs_ok_app (l1 l2 : list event) :
  handoffs_ok l1 -> handoffs_ok l2 -> handoffs_ok (l1 ++ l2).
Proof.
  intros H1 H2 before after pid Heq.
  apply List.app_eq_app in Heq as [l [[Hl1 Hl2] | [Hb Hl2]]].
  - destruct l as [| e l].
    + cbn in Hl2. rewrite app_nil_r in Hl1. subst l1.
      destruct (H2 [] after pid) as [earlier Hearlier]; [symmetry; exact Hl2 |].
      destruct earlier; discriminate.
    + injection Hl2 as <- _. apply (H1 before l pid). exact Hl1.
  - destruct (H2 l after pid Hl2) as [earlier ->].
    exists (l1 ++ earlier). rewrite Hb, app_assoc. reflexivity.
Qed.

Lemma handoffs_ok_handoff (tag : log_tag) (cmdline : string) (pid uid : Z) :
  handoffs_ok [Logi tag cmdline pid uid; Ptrace PTRACE_DETACH pid SIGSTOP;
               HideDaemon pid].
Proof.
  intros before after q Heq.
  destruct before as [| e1 [| e2 [| e3 before]]]; try discriminate.
  - injection Heq as <- <- <- _. exists [Logi tag cmdline pid uid]. reflexivity.
  - injection Heq as _ _ _ Heq. destruct before; discriminate.
Qed.

Lemma loop_rel_refl (m : monitor) : loop_rel m m.
Proof.
  unfold loop_rel. repeat split; try reflexivity.
  exists []. rewrite app_nil_r. repeat split; [constructor |].
  apply handoffs_ok_none. intros pid [].
Qed.

Lemma loop_rel_trans (m1 m2 m3 : monitor) :
  loop_rel m1 m2 -> loop_rel m2 m3 -> loop_rel m1 m3.
Proof.
  intros (Hz1 & Hu1 & Hh1 & Ht1 & Hf1 & a1 & He1 & Hl1 & Ho1)
         (Hz2 & Hu2 & Hh2 & Ht2 & Hf2 & a2 & He2 & Hl2 & Ho2).
  unfold loop_rel. repeat split; try congruence.
  - etransitivity; eassumption.
  - exists (a1 ++ a2). rewrite He2, He1, app_assoc. repeat split.
    + apply Forall_app. auto.
    + apply handoffs_ok_app; assumption.
Qed.

Lemma loop_rel_log (m : monitor) (added : list event) :
  Forall loop_event added -> handoffs_ok added ->
  loop_rel m (set_events (events m ++ added) m).
Proof.
  intros Hl Ho. unfold loop_rel. fields. repeat split; try reflexivity. eauto.
Qed.

Lemma respects_ret {A} (a : A) : respects loop_rel (ret a).
Proof. intros m a' m' [= _ <-]. apply loop_rel_refl. Qed.

Lemma respects_gets {A} (f : monitor -> A) : respects loop_rel (gets f).
Proof. intros m a m' [= _ <-]. apply loop_rel_refl. Qed.

Lemma respects_bind {A B} (c : M A) (k : A -> M B) :
  respects loop_rel c -> (forall a, respects loop_rel (k a)) ->
  respects loop_rel (bind c k).
Proof.
  intros Hc Hk m b m'. unfold bind.
  destruct (c m) as [[a m1] |] eqn:Ec; [| discriminate].
  intros Hk'. eapply loop_rel_trans; [exact (Hc m a m1 Ec) | exact (Hk a m1 b m' Hk')].
Qed.

Lemma respects_xptrace (req : ptrace_request) (pid data : Z) :
  req <> PTRACE_ATTACH -> respects loop_rel (xptrace req pid data).
Proof.
  intros Hreq m a m' [= _ <-]. apply loop_rel_log.
  - constructor; [| constructor]. destruct req; cbn; first [exact I | congruence].
  - apply handoffs_ok_none. intros q [[=] | []].
Qed.

Lemma respects_attaches_get (lp64 : bool) (pos : Z) :
  respects loop_rel (attaches_get lp64 pos).
Proof.
  intros m a m'. unfold attaches_get.
  destruct (pid_set_get lp64 (attaches m) pos); [| discriminate].
  intros [= _ <-]. apply loop_rel_refl.
Qed.

Lemma respects_attaches_put (lp64 : bool) (pos : Z) (b : bool) :
  respects loop_rel (attaches_put lp64 pos b).
Proof.
  intros m a m'. unfold attaches_put.
  destruct (pid_set_put lp64 (attaches m) pos b) as [set |]; [| discriminate].
  intros [= _ <-]. unfold loop_rel. fields. repeat split; try reflexivity.
  exists []. rewrite app_nil_r. repeat split; [constructor |].
  apply handoffs_ok_none. intros pid [].
Qed.

Lemma respects_detach_pid (lp64 : bool) (pid signal : Z) :
  respects loop_rel (detach_pid lp64 pid signal).
Proof.
  unfold detach_pid. apply respects_bind; [apply respects_attaches_put |].
  intros _. apply (respects_xptrace PTRACE_DETACH). discriminate.
Qed.

Lemma detach_pid_undefined (lp64 : bool) (pid signal : Z) (m : monitor) :
  pid_set_in_bounds lp64 pid = false -> detach_pid lp64 pid signal m = None.
Proof.
  intros Hb. unfold detach_pid, attaches_put, pid_set_put, bind. rewrite Hb.
  reflexivity.
Qed.

Lemma check_names_undefined (lp64 : bool) (w : world) (pid uid : Z)
    (cmdline : string) (st : stat_t) (names : list string) (m : monitor) :
  pid_set_in_bounds lp64 pid = false ->
  check_names lp64 w pid uid cmdline st names m = None.
Proof.
  intros Hb. induction names as [| s rest IH]; cbn [check_names].
  - unfold not_target, bind. rewrite detach_pid_undefined by exact Hb. reflexivity.
  - destruct (negb (String.eqb s cmdline)); [exact IH |].
    destruct (str_ends s "_zygote").
    + unfold inject_and_hide, bind, emit, modify.
      rewrite detach_pid_undefined by exact Hb. reflexivity.
    + unfold bind at 1, gets at 1. cbv beta iota zeta.
      destruct (ns_shared _ _).
      * unfold not_target, bind. rewrite detach_pid_undefined by exact Hb.
        reflexivity.
      * unfold bind, emit, modify. rewrite detach_pid_undefined by exact Hb.
        reflexivity.
Qed.

(** Outside the bitmap a classification either has nothing to decide yet or
    is undefined. *)
Lemma check_pid_out_of_range (lp64 : bool) (w : world) (pid : Z)
    (m m' : monitor) (consumed : bool) :
  pid_set_in_bounds lp64 pid = false ->
  check_pid lp64 w pid m = Some (consumed, m') -> consumed = false /\ m' = m.
Proof.
  intros Hb. unfold check_pid.
  assert (forall uid cmdline st, check_uid lp64 w pid uid cmdline st m = None) as Huid.
  { intros uid cmdline st. rewrite check_uid_lookup.
    destruct (uid_proc_map m !! uid).
    - apply check_names_undefined. exact Hb.
    - unfold not_target, bind. rewrite detach_pid_undefined by exact Hb. reflexivity. }
  destruct (proc_dir w pid) as [st |].
  2: { unfold bind. rewrite detach_pid_undefined by exact Hb. discriminate. }
  destruct (st_uid st =? 0); [intros [= <- <-]; auto |].
  destruct (proc_cmdline w pid) as [cmdline |].
  2: { unfold bind. rewrite detach_pid_undefined by exact Hb. discriminate. }
  destruct (is_zygote_name cmdline); [intros [= <- <-]; auto |].
  destruct (is_isolated (to_int (st_uid st))); [| rewrite Huid; discriminate].
  unfold bind at 1, gets at 1.
  destruct (uid_proc_map m !! (-1)) as [prefixes |].
  - destruct (existsb (str_starts cmdline) prefixes); [| rewrite Huid; discriminate].
    unfold inject_and_hide, bind, emit, modify.
    rewrite detach_pid_undefined by exact Hb. discriminate.
  - unfold not_target, bind. rewrite detach_pid_undefined by exact Hb. discriminate.
Qed.

Lemma loop_rel_detached (lp64 : bool) (pid signal : Z) (m : monitor) :
  loop_rel m (detached lp64 pid signal m).
Proof.
  unfold loop_rel, detached. fields. repeat split; try reflexivity.
  eexists. repeat split.
  - constructor; [exact I | constructor].
  - apply handoffs_ok_none. intros q [[=] | []].
Qed.

Lemma respects_check_pid (lp64 : bool) (w : world) (pid : Z) :
  respects loop_rel (check_pid lp64 w pid).
Proof.
  intros m consumed m' Hcall.
  destruct (pid_set_in_bounds lp64 pid) eqn:Hb.
  - destruct (check_pid_cases lp64 w pid m Hb)
      as [[_ Hcase] | [_ [Hcase | [(tag & uid & c & Htag & Hcase) |
                                   (st & c & _ & Hcase)]]]];
      rewrite Hcase in Hcall; injection Hcall as <- <-.
    + apply loop_rel_refl.
    + apply loop_rel_detached.
    + eapply loop_rel_trans; [| apply loop_rel_detached].
      apply loop_rel_log.
      * constructor; [exact I | constructor].
      * apply handoffs_ok_none. intros q [[=] | []].
    + unfold handed_off, loop_rel. fields. repeat split; try reflexivity.
      eexists. repeat split.
      * repeat constructor.
      * apply handoffs_ok_handoff.
  - destruct (check_pid_out_of_range lp64 w pid m m' consumed Hb Hcall) as [_ ->].
    apply loop_rel_refl.
Qed.

Ltac respects_step :=
  match goal with
  | |- respects loop_rel (bind _ _) => apply respects_bind; [| intros ?]
  | |- respects loop_rel (match ?x with _ => _ end) => destruct x
  | |- respects loop_rel (let _ := _ in _) => cbv zeta
  | |- respects loop_rel (ret _) => apply respects_ret
  | |- respects loop_rel (gets _) => apply respects_gets
  | |- respects loop_rel (xptrace _ _ _) => apply respects_xptrace; discriminate
  | |- respects loop_rel (attaches_get _ _) => apply respects_attaches_get
  | |- respects loop_rel (attaches_put _ _ _) => apply respects_attaches_put
  | |- respects loop_rel (detach_pid _ _ _) => apply respects_detach_pid
  | |- respects loop_rel (check_pid _ _ _) => apply respects_check_pid
  end.

Lemma respects_monitor_step (lp64 : bool) (w : world) (pid status msg : Z) :
  respects loop_rel (monitor_step lp64 w pid status msg).
Proof.
  unfold monitor_step, zygote_event, child_event, sigstop_stop.
  repeat respects_step.
  intros m0 r m1 [= _ <-]. unfold loop_rel. fields. repeat split; try reflexivity.
  - apply delete_subseteq.
  - exists []. rewrite app_nil_r. repeat split; [constructor |].
    apply handoffs_ok_none. intros q [].
Qed.

Lemma respects_proc_monitor_loop (lp64 : bool) (stops : list (world * Z * Z * Z)) :
  respects loop_rel (proc_monitor_loop lp64 stops).
Proof.
  induction stops as [| [[[w pid] status] msg] rest IH]; cbn [proc_monitor_loop].
  - apply respects_ret.
  - apply respects_bind; [apply respects_monitor_step | intros _; exact IH].
Qed.

Lemma loop_event_counts (added : list event) (q : Z) :
  Forall loop_event added ->
  request_calls PTRACE_ATTACH q added = 0%nat /\ timer_calls added = [].
Proof.
  induction 1 as [| e added He _ [IHa IHt]]; [split; reflexivity |].
  unfold request_calls, timer_calls in *. cbn [List.filter omap].
  destruct e as [req p d | | | | | | | |]; try destruct He; cbn.
  - destruct req; try destruct He; cbn; rewrite ?andb_false_r; split; assumption.
  - split; assumption.
  - split; assumption.
Qed.

(** X15: what the main loop never does.  Over any sequence of stops the
    loop issues no PTRACE_ATTACH and no [setitimer], adds no zygote to the
    registry (it can only drop entries), and leaves the uid map, the hide set
    and the timer untouched. *)
Theorem loop_never_attaches (lp64 : bool) (stops : list (world * Z * Z * Z))
    (m m' : monitor) :
  proc_monitor_loop lp64 stops m = Some (tt, m') ->
  zygote_map m' ⊆ zygote_map m /\
  (forall q ns, zygote_map m' !! q = Some ns -> zygote_map m !! q = Some ns) /\
  uid_proc_map m' = uid_proc_map m /\ hide_set m' = hide_set m /\
  itimer m' = itimer m /\
  (forall q, request_calls PTRACE_ATTACH q (events m') =
             request_calls PTRACE_ATTACH q (events m)) /\
  timer_calls (events m') = timer_calls (events m).
Proof.
  intros Hrun.
  destruct (respects_proc_monitor_loop lp64 stops m tt m' Hrun)
    as (Hz & Hu & Hh & Ht & _ & added & He & Hl & _).
  split; [exact Hz |]. split.
  { intros q ns Hq. eapply lookup_weaken; eassumption. }
  repeat split; try assumption.
  - intros q. rewrite He, request_calls_app.
    destruct (loop_event_counts added q Hl) as [-> _]. lia.
  - rewrite He, timer_calls_app.
    destruct (loop_event_counts added 0 Hl) as [_ ->]. apply app_nil_r.
Qed.

Lemma loop_never_attaches_witness :
  let w := ex_world 10042 "com.example.target" app_ns in
  exists m',
    proc_monitor_loop true
      [(w, 601, stop_status SIGTRAP PTRACE_EVENT_EXIT, 0);
       (w, 1234, stop_status SIGTRAP PTRACE_EVENT_CLONE, 0)]
      (ex_monitor ["com.example.target"%string]) = Some (tt, m') /\
    zygote_map m' ⊆ zygote_map (ex_monitor ["com.example.target"%string]) /\
    itimer m' = 0.
Proof.
  intros w. eexists. split; [vm_compute; reflexivity |].
  match goal with
  | |- ?z' ⊆ _ /\ _ =>
      destruct (loop_never_attaches true
                  [(w, 601, stop_status SIGTRAP PTRACE_EVENT_EXIT, 0);
                   (w, 1234, stop_status SIGTRAP PTRACE_EVENT_CLONE, 0)]
                  (ex_monitor ["com.example.target"%string]) _
                  ltac:(vm_compute; reflexivity))
        as (Hsub & _ & _ & _ & Htimer & _)
  end.
  split; [exact Hsub | exact Htimer].
Defined.

(** X16: over any sequence of stops, every call of the hide daemon that the
    loop adds to the log comes right after a PTRACE_DETACH of the same pid
    delivering SIGSTOP: the daemon never receives a pid the monitor still
    traces. *)
Theorem loop_handoffs_after_detach (lp64 : bool)
    (stops : list (world * Z * Z * Z)) (m m' : monitor) :
  handoffs_ok (events m) ->
  proc_monitor_loop lp64 stops m = Some (tt, m') ->
  handoffs_ok (events m') /\
  forall before after pid,
    events m' = before ++ HideDaemon pid :: after ->
    exists earlier, before = earlier ++ [Ptrace PTRACE_DETACH pid SIGSTOP].
Proof.
  intros Hok Hrun.
  destruct (respects_proc_monitor_loop lp64 stops m tt m' Hrun)
    as (_ & _ & _ & _ & _ & added & He & _ & Hadded).
  assert (handoffs_ok (events m')) as Hok'
    by (rewrite He; apply handoffs_ok_app; assumption).
  split; [exact Hok' | exact Hok'].
Qed.

Lemma loop_handoffs_after_detach_witness :
  let w := ex_world 10042 "com.example.target" app_ns in
  exists m',
    proc_monitor_loop true
      [(w, 1234, stop_status SIGTRAP PTRACE_EVENT_CLONE, 0)]
      (ex_monitor ["com.example.target"%string]) = Some (tt, m') /\
    handoffs_ok (events m').
Proof.
  intros w.
  assert (handoffs_ok (events (ex_monitor ["com.example.target"%string]))) as Hok
    by (apply handoffs_ok_none; intros pid []).
  eexists. split; [vm_compute; reflexivity |].
  refine (proj1 (loop_handoffs_after_detach true
                   [(w, 1234, stop_status SIGTRAP PTRACE_EVENT_CLONE, 0)]
                   (ex_monitor ["com.example.target"%string]) _ Hok _)).
  vm_compute. reflexivity.
Defined.

(** ** Where the main loop is defined *)

Lemma defined_ret {A} (a : A) : defined (ret a).
Proof. intros m. eexists _, _. reflexivity. Qed.

Lemma defined_gets {A} (f : monitor -> A) : defined (gets f).
Proof. intros m. eexists _, _. reflexivity. Qed.

Lemma defined_modify (f : monitor -> monitor) : defined (modify f).
Proof. intros m. eexists _, _. reflexivity. Qed.

Lemma defined_xptrace (req : ptrace_request) (pid data : Z) :
  defined (xptrace req pid data).
Proof. intros m. eexists _, _. reflexivity. Qed.

Lemma defined_bind {A B} (c : M A) (k : A -> M B) :
  defined c -> (forall a, defined (k a)) -> defined (bind c k).
Proof.
  intros Hc Hk m. destruct (Hc m) as (a & m1 & Ec).
  destruct (Hk a m1) as (b & m2 & Ek). exists b, m2. unfold bind.
  rewrite Ec. exact Ek.
Qed.

Lemma defined_attaches_get (lp64 : bool) (pos : Z) :
  pid_set_in_bounds lp64 pos = true -> defined (attaches_get lp64 pos).
Proof.
  intros Hb m. unfold attaches_get, pid_set_get. rewrite Hb. eexists _, _.
  reflexivity.
Qed.

Lemma defined_attaches_put (lp64 : bool) (pos : Z) (b : bool) :
  pid_set_in_bounds lp64 pos = true -> defined (attaches_put lp64 pos b).
Proof.
  intros Hb m. unfold attaches_put, pid_set_put. rewrite Hb. eexists _, _.
  reflexivity.
Qed.

Lemma defined_detach_pid (lp64 : bool) (pid signal : Z) :
  pid_set_in_bounds lp64 pid = true -> defined (detach_pid lp64 pid signal).
Proof.
  intros Hb m. rewrite detach_pid_defined by exact Hb. eexists _, _. reflexivity.
Qed.

Lemma defined_check_pid (lp64 : bool) (w : world) (pid : Z) :
  pid_set_in_bounds lp64 pid = true -> defined (check_pid lp64 w pid).
Proof.
  intros Hb m.
  destruct (check_pid_cases lp64 w pid m Hb)
    as [[_ Hcase] | [_ [Hcase | [(tag & uid & c & _ & Hcase) |
                                 (st & c & _ & Hcase)]]]];
    rewrite Hcase; eexists _, _; reflexivity.
Qed.

Lemma pid_in_range_bounds (lp64 : bool) (pid : Z) :
  1 <= pid <= PID_MAX -> pid_set_in_bounds lp64 pid = true.
Proof.
  intros Hin. unfold pid_set_in_bounds. rewrite (pid_set_index_int lp64 pid Hin).
  apply Z.ltb_lt. lia.
Qed.

Ltac defined_step :=
  match goal with
  | |- defined (bind _ _) => apply defined_bind; [| intros ?]
  | |- defined (match ?x with _ => _ end) => destruct x
  | |- defined (ret _) => apply defined_ret
  | |- defined (gets _) => apply defined_gets
  | |- defined (modify _) => apply defined_modify
  | |- defined (xptrace _ _ _) => apply defined_xptrace
  | |- defined (attaches_get _ _) => apply defined_attaches_get; assumption
  | |- defined (attaches_put _ _ _) => apply defined_attaches_put; assumption
  | |- defined (detach_pid _ _ _) => apply defined_detach_pid; assumption
  | |- defined (check_pid _ _ _) => apply defined_check_pid; assumption
  end.

Lemma defined_monitor_step (lp64 : bool) (w : world) (pid status msg : Z) :
  stop_in_range (w, pid, status, msg) ->
  defined (monitor_step lp64 w pid status msg).
Proof.
  intros [Hpid Hmsg]. unfold monitor_step.
  destruct (Z.ltb_spec pid 0) as [Hneg | Hpos]; [apply defined_ret |].
  assert (pid_set_in_bounds lp64 pid = true) as Hb
    by (apply pid_in_range_bounds; lia).
  unfold is_fork_event in Hmsg.
  destruct (WIFSTOPPED status); cbn [negb andb] in *; [| defined_step].
  destruct (WSTOPSIG status =? SIGTRAP) eqn:Hsig; cbn [andb] in *.
  - destruct (WEVENT status =? 0); cbn [negb].
    + unfold sigstop_stop. repeat defined_step.
    + unfold zygote_event, child_event.
      destruct ((WEVENT status =? PTRACE_EVENT_FORK) ||
                (WEVENT status =? PTRACE_EVENT_VFORK)).
      * assert (pid_set_in_bounds lp64 msg = true) as Hbm
          by (apply pid_in_range_bounds; auto).
        repeat defined_step.
      * repeat defined_step.
  - unfold sigstop_stop. repeat defined_step.
Qed.

(** X17: the loop indexes inside the bitset as long as the pids it meets fit
    in it: over stops whose pid lies between 1 and 32768 (or is the error
    value of [waitpid]) and whose message, for a fork or vfork event, lies
    between 1 and 32768, every iteration is defined. *)
Theorem loop_defined_in_range (lp64 : bool) (stops : list (world * Z * Z * Z))
    (m : monitor) :
  Forall stop_in_range stops ->
  exists m', proc_monitor_loop lp64 stops m = Some (tt, m').
Proof.
  intros Hstops. revert m.
  induction Hstops as [| [[[w pid] status] msg] rest Hstop _ IH]; intros m.
  - exists m. reflexivity.
  - cbn [proc_monitor_loop].
    destruct (defined_monitor_step lp64 w pid status msg Hstop m) as ([] & m1 & Hstep).
    destruct (IH m1) as (m' & Hrest). exists m'. unfold bind. rewrite Hstep.
    exact Hrest.
Qed.

Lemma loop_defined_in_range_witness :
  let w := ex_world 10042 "com.example.target" app_ns in
  exists m',
    proc_monitor_loop false
      [(w, 600, stop_status SIGTRAP PTRACE_EVENT_VFORK, 32768);
       (w, 32768, stop_status SIGSTOP 0, 0);
       (w, -1, 0, 0)] (ex_monitor []) = Some (tt, m').
Proof.
  intros w. apply loop_defined_in_range.
  constructor; [| constructor; [| constructor; [| constructor]]].
  - split; [right; unfold PID_MAX; lia | intros _; unfold PID_MAX; lia].
  - split; [right; unfold PID_MAX; lia | intros Hfork; discriminate Hfork].
  - split; [left; lia | intros Hfork; discriminate Hfork].
Defined.

(** ** Registering zygotes *)

(** X18: [new_zygote] on a pid that is not registered, with a readable
    namespace, registers it and issues PTRACE_ATTACH, the wait for the stop,
    PTRACE_SETOPTIONS with the fork, vfork and exit options (not clone, not
    exec) and PTRACE_CONT, in this order.  A second call only refreshes the
    namespace: after both calls the pid has been attached once. *)
Theorem new_zygote_attaches_once (w1 w2 : world) (pid : Z) (st1 st2 : stat_t)
    (m : monitor) :
  zygote_map m !! pid = None ->
  proc_ns w1 pid = Some st1 -> proc_ns w2 pid = Some st2 ->
  let m1 := set_events (events m ++ [Ptrace PTRACE_ATTACH pid 0; Waitpid pid;
                                     Ptrace PTRACE_SETOPTIONS pid zygote_options;
                                     Ptrace PTRACE_CONT pid 0])
              (set_zygote_map (<[pid := st1]> (zygote_map m)) m) in
  let m2 := set_zygote_map (<[pid := st2]> (zygote_map m)) m1 in
  new_zygote w1 pid m = Some (tt, m1) /\
  size (zygote_map m1) = S (size (zygote_map m)) /\
  (new_zygote w1 pid;; new_zygote w2 pid) m = Some (tt, m2) /\
  request_calls PTRACE_ATTACH pid (events m2) =
    S (request_calls PTRACE_ATTACH pid (events m)) /\
  Z.testbit zygote_options PTRACE_EVENT_FORK = true /\
  Z.testbit zygote_options PTRACE_EVENT_VFORK = true /\
  Z.testbit zygote_options PTRACE_EVENT_EXIT = true /\
  Z.testbit zygote_options PTRACE_EVENT_CLONE = false /\
  Z.testbit zygote_options PTRACE_EVENT_EXEC = false.
Proof.
  intros Hfresh Hns1 Hns2 m1 m2.
  assert (new_zygote w1 pid m = Some (tt, m1)) as Hfirst.
  { unfold new_zygote. rewrite Hns1. unfold_monad. rewrite Hfresh. fields.
    subst m1. rewrite <- !app_assoc. reflexivity. }
  split; [exact Hfirst |]. split.
  { subst m1. fields. apply map_size_insert_None. exact Hfresh. }
  split.
  { unfold bind. rewrite Hfirst. unfold new_zygote. rewrite Hns2.
    unfold_monad. subst m2 m1. fields. rewrite lookup_insert_eq. fields.
    rewrite insert_insert_eq. reflexivity. }
  split.
  { subst m2 m1. fields. rewrite request_calls_app. cbn.
    rewrite Z.eqb_refl. cbn. lia. }
  repeat split; reflexivity.
Qed.

Lemma new_zygote_attaches_once_witness :
  let w := ex_world 10042 "com.example.target" app_ns in
  exists m2,
    (new_zygote w 600;; new_zygote w 600) (init_monitor ex_hide_set) = Some (tt, m2) /\
    request_calls PTRACE_ATTACH 600 (events m2) = 1%nat.
Proof.
  intros w.
  destruct (new_zygote_attaches_once w w 600 zygote_ns zygote_ns
              (init_monitor ex_hide_set))
    as (_ & _ & Htwice & Hcalls & _); [reflexivity | reflexivity | reflexivity |].
  eexists. split; [exact Htwice | exact Hcalls].
Defined.

Lemma newly_registered_trans (zm1 zm2 zm3 : gmap Z stat_t) (q : Z) :
  (is_Some (zm1 !! q) -> is_Some (zm2 !! q)) ->
  (is_Some (zm2 !! q) -> is_Some (zm3 !! q)) ->
  (newly_registered zm1 zm2 q + newly_registered zm2 zm3 q)%nat =
  newly_registered zm1 zm3 q.
Proof.
  unfold newly_registered. intros H12 H23.
  destruct (zm1 !! q), (zm2 !! q), (zm3 !! q); try reflexivity.
  all: first [ destruct H12 as [? Hx]; [eauto | discriminate Hx]
             | destruct H23 as [? Hx]; [eauto | discriminate Hx] ].
Qed.

Lemma new_zygote_attach_calls (w : world) (pid : Z) (m m' : monitor) :
  new_zygote w pid m = Some (tt, m') ->
  forall q,
    (is_Some (zygote_map m !! q) -> is_Some (zygote_map m' !! q)) /\
    request_calls PTRACE_ATTACH q (events m') =
    (request_calls PTRACE_ATTACH q (events m) +
     newly_registered (zygote_map m) (zygote_map m') q)%nat.
Proof.
  unfold new_zygote, newly_registered. destruct (proc_ns w pid) as [st |].
  2: { intros [= <-] q. split; [auto |]. destruct (zygote_map m !! q); lia. }
  unfold_monad. destruct (zygote_map m !! pid) eqn:Hreg; fields;
    intros [= <-] q; fields; destruct (Z.eq_dec q pid) as [-> | Hne];
    rewrite ?lookup_insert_eq, ?(lookup_insert_ne _ pid q) by congruence;
    rewrite ?Hreg; (split; [eauto |]);
    rewrite ?request_calls_app; cbn; rewrite ?Z.eqb_refl;
    rewrite ?(proj2 (Z.eqb_neq pid q)) by congruence; cbn;
    try (destruct (zygote_map m !! q)); lia.
Qed.

Lemma crawl_attach_calls (w : world) (entries : list Z) (m m' : monitor) :
  crawl (zygote_callback w) entries m = Some (tt, m') ->
  forall q,
    (is_Some (zygote_map m !! q) -> is_Some (zygote_map m' !! q)) /\
    request_calls PTRACE_ATTACH q (events m') =
    (request_calls PTRACE_ATTACH q (events m) +
     newly_registered (zygote_map m) (zygote_map m') q)%nat.
Proof.
  assert (forall m0 q,
            (is_Some (zygote_map m0 !! q) -> is_Some (zygote_map m0 !! q)) /\
            request_calls PTRACE_ATTACH q (events m0) =
            (request_calls PTRACE_ATTACH q (events m0) +
             newly_registered (zygote_map m0) (zygote_map m0) q)%nat) as Hsame.
  { intros m0 q. split; [auto |]. unfold newly_registered.
    destruct (zygote_map m0 !! q); lia. }
  revert m. induction entries as [| pid rest IH]; intros m; cbn [crawl].
  - intros [= <-]. apply Hsame.
  - destruct (0 <? pid); [| apply IH].
    unfold bind at 1.
    destruct (zygote_callback w pid m) as [[continue m1] |] eqn:Hcb; [| discriminate].
    assert (continue = true /\
            forall q,
              (is_Some (zygote_map m !! q) -> is_Some (zygote_map m1 !! q)) /\
              request_calls PTRACE_ATTACH q (events m1) =
              (request_calls PTRACE_ATTACH q (events m) +
               newly_registered (zygote_map m) (zygote_map m1) q)%nat) as [-> Hhead].
    { unfold zygote_callback in Hcb. destruct (proc_cmdline w pid) as [buf |].
      - destruct (String.prefix "zygote" buf && (parse_ppid w pid =? 1)).
        + unfold bind in Hcb.
          destruct (new_zygote w pid m) as [[[] m1'] |] eqn:Hnew; [| discriminate].
          injection Hcb as <- <-. split; [reflexivity |].
          apply (new_zygote_attach_calls w pid m m1' Hnew).
        + injection Hcb as <- <-. split; [reflexivity | apply Hsame].
      - injection Hcb as <- <-. split; [reflexivity | apply Hsame]. }
    intros Hrest q. destruct (Hhead q) as [Hgrow1 Hcount1].
    destruct (IH m1 Hrest q) as [Hgrow2 Hcount2]. split; [auto |].
    rewrite Hcount2, Hcount1, <- Nat.add_assoc.
    rewrite newly_registered_trans by assumption. reflexivity.
Qed.

Lemma check_zygote_defined (lp64 : bool) (w : world) (m m1 : monitor) :
  crawl (zygote_callback w) (proc_entries w) m = Some (tt, m1) ->
  check_zygote lp64 w m =
  Some (tt, if is_zygote_done lp64 m1 then timer_set 0 m1 else m1).
Proof.
  intros Hcrawl. unfold check_zygote, crawl_procfs. unfold bind at 1.
  rewrite Hcrawl. unfold bind at 1, gets at 1.
  destruct (is_zygote_done lp64 m1); reflexivity.
Qed.

(** X19: a scan attaches exactly the zygotes it adds to the registry, each
    of them once, and no process that is already registered; so if every
    registered pid has a PTRACE_ATTACH in the log before the scan, this is
    still so after it. *)
Theorem check_zygote_attach_accounting (lp64 : bool) (w : world) (m : monitor) :
  exists m',
    check_zygote lp64 w m = Some (tt, m') /\
    (forall q,
       request_calls PTRACE_ATTACH q (events m') =
       (request_calls PTRACE_ATTACH q (events m) +
        newly_registered (zygote_map m) (zygote_map m') q)%nat) /\
    ((forall q, is_Some (zygote_map m !! q) ->
                (1 <= request_calls PTRACE_ATTACH q (events m))%nat) ->
     forall q, is_Some (zygote_map m' !! q) ->
               (1 <= request_calls PTRACE_ATTACH q (events m'))%nat).
Proof.
  destruct (crawl_zygotes w (proc_entries w) m) as (m1 & Hcrawl & _ & _).
  pose proof (crawl_attach_calls w (proc_entries w) m m1 Hcrawl) as Hcalls.
  eexists. split; [apply (check_zygote_defined lp64 w m m1 Hcrawl) |].
  assert (forall q,
            request_calls PTRACE_ATTACH q
              (events (if is_zygote_done lp64 m1 then timer_set 0 m1 else m1)) =
            request_calls PTRACE_ATTACH q (events m1)) as Hlog.
  { intros q. destruct (is_zygote_done lp64 m1); [| reflexivity].
    unfold timer_set. fields. rewrite request_calls_app. cbn. lia. }
  assert (zygote_map (if is_zygote_done lp64 m1 then timer_set 0 m1 else m1) =
          zygote_map m1) as Hmap
    by (destruct (is_zygote_done lp64 m1); reflexivity).
  split.
  - intros q. rewrite Hlog, Hmap. apply Hcalls.
  - intros Hinv q Hq. rewrite Hlog. rewrite Hmap in Hq.
    destruct (Hcalls q) as [_ ->]. unfold newly_registered.
    destruct (zygote_map m !! q) eqn:Hbefore.
    + specialize (Hinv q ltac:(rewrite Hbefore; eauto)). lia.
    + destruct Hq as [ns ->]. lia.
Qed.

Lemma check_zygote_attach_accounting_witness :
  let w := ex_world 10042 "com.example.target" app_ns in
  let m := set_zygote_map (<[600 := zygote_ns]> ∅)
             (set_events [Ptrace PTRACE_ATTACH 600 0] (init_monitor ex_hide_set)) in
  exists m',
    check_zygote true w m = Some (tt, m') /\
    request_calls PTRACE_ATTACH 600 (events m') = 1%nat /\
    request_calls PTRACE_ATTACH 601 (events m') = 1%nat.
Proof.
  intros w m.
  destruct (check_zygote_attach_accounting true w m) as (m' & Hcall & Hcalls & _).
  exists m'. split; [exact Hcall |].
  rewrite !Hcalls. injection Hcall as <-. split; reflexivity.
Defined.

Lemma scanned_tail (w : world) (pid : Z) (rest : list Z) (q : Z) (st : stat_t) :
  scanned w rest q = Some st -> scanned w (pid :: rest) q = Some st.
Proof.
  unfold scanned. cbn [existsb].
  destruct (existsb (Z.eqb q) rest); [| discriminate].
  rewrite orb_true_r. auto.
Qed.

(** A scan that finds every zygote it meets registered with its current
    namespace changes nothing. *)
Lemma crawl_fixed (w : world) (entries : list Z) (m : monitor) :
  (forall q st, scanned w entries q = Some st -> zygote_map m !! q = Some st) ->
  crawl (zygote_callback w) entries m = Some (tt, m).
Proof.
  induction entries as [| pid rest IH]; intros Hreg; cbn [crawl]; [reflexivity |].
  assert (crawl (zygote_callback w) rest m = Some (tt, m)) as Hrest.
  { apply IH. intros q st Hq. apply Hreg. apply scanned_tail. exact Hq. }
  destruct (0 <? pid) eqn:Hpos; [| exact Hrest].
  assert (zygote_callback w pid m = Some (true, m)) as Hcb.
  { unfold zygote_callback. destruct (proc_cmdline w pid) as [buf |] eqn:Hcmd;
      [| reflexivity].
    destruct (String.prefix "zygote" buf && (parse_ppid w pid =? 1)) eqn:Hz;
      [| reflexivity].
    unfold new_zygote. destruct (proc_ns w pid) as [st |] eqn:Hns; [| reflexivity].
    assert (zygote_map m !! pid = Some st) as Hpid.
    { apply Hreg. unfold scanned, is_zygote_proc. cbn [existsb].
      rewrite Z.eqb_refl, Hpos, Hcmd, Hz. exact Hns. }
    unfold_monad. rewrite Hpid. fields. rewrite insert_id by exact Hpid.
    destruct m. reflexivity. }
  unfold bind at 1. rewrite Hcb. exact Hrest.
Qed.

(** X20: rescanning an unchanged system.  After a scan, a second scan of the
    same system registers nothing, refreshes no namespace and issues no trace
    request: it returns the state of the first, up to one more [setitimer]
    with a zero interval when the zygotes are complete. *)
Theorem check_zygote_rescan (lp64 : bool) (w : world) (m : monitor) :
  exists m1,
    check_zygote lp64 w m = Some (tt, m1) /\
    check_zygote lp64 w m1 =
      Some (tt, if is_zygote_done lp64 m1 then timer_set 0 m1 else m1).
Proof.
  destruct (crawl_zygotes w (proc_entries w) m) as (m0 & Hcrawl & _ & Hmap).
  rewrite (check_zygote_defined lp64 w m m0 Hcrawl).
  eexists. split; [reflexivity |].
  apply check_zygote_defined. apply crawl_fixed. intros q st Hq.
  assert (zygote_map m0 !! q = Some st) as Hreg by (rewrite Hmap, Hq; reflexivity).
  destruct (is_zygote_done lp64 m0); exact Hreg.
Qed.

(** X21: the start of [proc_monitor].  The first scan always completes and
    makes one [setitimer] call: with a zero interval when the expected
    number of zygotes is registered after it, and with an interval of 250 ms
    otherwise. *)
Theorem first_scan_timer (lp64 : bool) (w : world) (m : monitor) :
  exists m',
    first_scan lp64 w m = Some (tt, m') /\
    (is_zygote_done lp64 m' = true <->
     (expected_zygotes lp64 <= size (zygote_map m'))%nat) /\
    itimer m' = (if is_zygote_done lp64 m' then 0 else 250000) /\
    timer_calls (events m') = timer_calls (events m) ++ [itimer m'].
Proof.
  destruct (crawl_zygotes w (proc_entries w) m)
    as (m1 & Hcrawl & (_ & _ & _ & _ & _ & Hcalls) & _).
  exists (timer_set (if is_zygote_done lp64 m1 then 0 else 250000) m1).
  assert (forall usec, is_zygote_done lp64 (timer_set usec m1) =
                       is_zygote_done lp64 m1) as Hdone by reflexivity.
  split; [| split; [| split]].
  - unfold first_scan, bind at 1.
    rewrite (check_zygote_defined lp64 w m m1 Hcrawl).
    unfold bind at 1, gets at 1.
    destruct (is_zygote_done lp64 m1) eqn:Edone.
    + change (is_zygote_done lp64 (timer_set 0 m1)) with (is_zygote_done lp64 m1).
      rewrite Edone. reflexivity.
    + rewrite Edone. reflexivity.
  - rewrite Hdone. unfold is_zygote_done, expected_zygotes, timer_set. fields.
    destruct lp64; apply Nat.leb_le.
  - rewrite Hdone. reflexivity.
  - unfold timer_set. fields. rewrite timer_calls_app, Hcalls. reflexivity.
Qed.

(** ** More on the uid map *)

Lemma names_at_emplace_back_eq (k : Z) (v : string) (map : gmap Z (list string)) :
  names_at k (emplace_back k v map) = names_at k map ++ [v].
Proof. unfold names_at, emplace_back. rewrite lookup_insert_eq. reflexivity. Qed.

Lemma names_at_emplace_back_ne (uid k : Z) (v : string) (map : gmap Z (list string)) :
  uid <> k -> names_at uid (emplace_back k v map) = names_at uid map.
Proof.
  intros Hne. unfold names_at, emplace_back. rewrite lookup_insert_ne by congruence.
  reflexivity.
Qed.

Lemma nonempty_emplace_back (k : Z) (v : string) (map : gmap Z (list string)) :
  nonempty_lists map -> nonempty_lists (emplace_back k v map).
Proof.
  intros Hmap uid names. unfold emplace_back.
  destruct (Z.eq_dec k uid) as [-> | Hne].
  - rewrite lookup_insert_eq. intros [= <-]. destruct (default [] (map !! uid)); discriminate.
  - rewrite lookup_insert_ne by exact Hne. apply Hmap.
Qed.

Section UidMapMore.

Variable ISOLATED_MAGIC APP_DATA_DIR : string.
Variable w : world.

Lemma nonempty_uid_map_hides (user_path : string) (first_iter : bool)
    (hs : list (string * string)) (map : gmap Z (list string)) :
  nonempty_lists map ->
  nonempty_lists (uid_map_hides ISOLATED_MAGIC w user_path first_iter hs map).
Proof.
  unfold uid_map_hides. revert map.
  induction hs as [| hide hs IH]; intros map Hmap; cbn [fold_left]; [exact Hmap |].
  apply IH. unfold uid_map_hide.
  destruct (String.eqb hide.1 ISOLATED_MAGIC && negb first_iter); [exact Hmap |].
  destruct (String.eqb hide.1 ISOLATED_MAGIC), (fs_stat w (user_path +:+ hide.1));
    repeat apply nonempty_emplace_back; exact Hmap.
Qed.

Lemma nonempty_uid_map_users (entries : list string) (first_iter : bool)
    (hs : list (string * string)) (map : gmap Z (list string)) :
  nonempty_lists map ->
  nonempty_lists
    (uid_map_users ISOLATED_MAGIC APP_DATA_DIR w entries first_iter hs map).
Proof.
  revert first_iter map.
  induction entries as [| d rest IH]; intros first_iter map Hmap;
    cbn [uid_map_users]; [exact Hmap |].
  apply IH, nonempty_uid_map_hides, Hmap.
Qed.

Lemma uid_map_users_no_hides (entries : list string) (first_iter : bool)
    (map : gmap Z (list string)) :
  uid_map_users ISOLATED_MAGIC APP_DATA_DIR w entries first_iter [] map = map.
Proof.
  revert first_iter. induction entries as [| d rest IH]; intros first_iter;
    cbn [uid_map_users]; [reflexivity | apply IH].
Qed.

Hypothesis no_owner_minus_one :
  forall path st, fs_stat w path = Some st -> to_int (st_uid st) <> -1.

Lemma bucket_uid_map_hides (user_path : string) (first_iter : bool)
    (hs : list (string * string)) (map : gmap Z (list string)) :
  names_at (-1) (uid_map_hides ISOLATED_MAGIC w user_path first_iter hs map) =
  names_at (-1) map ++
  (if first_iter then sentinel_names ISOLATED_MAGIC hs else []).
Proof.
  unfold uid_map_hides, sentinel_names. revert map.
  induction hs as [| [pkg q] hs IH]; intros map; cbn [fold_left List.filter].
  - destruct first_iter; cbn; rewrite app_nil_r; reflexivity.
  - rewrite IH. unfold uid_map_hide. cbn [fst snd].
    destruct (String.eqb pkg ISOLATED_MAGIC), first_iter; cbn [andb negb List.map];
      destruct (fs_stat w (user_path +:+ pkg)) as [st |] eqn:Hstat;
      rewrite ?names_at_emplace_back_ne
        by (intros Heq; apply (no_owner_minus_one _ _ Hstat); congruence);
      rewrite ?names_at_emplace_back_eq, <- ?app_assoc; reflexivity.
Qed.

Lemma bucket_uid_map_users (entries : list string) (first_iter : bool)
    (hs : list (string * string)) (map : gmap Z (list string)) :
  names_at (-1)
    (uid_map_users ISOLATED_MAGIC APP_DATA_DIR w entries first_iter hs map) =
  names_at (-1) map ++
  (match entries with
   | [] => []
   | _ :: _ => if first_iter then sentinel_names ISOLATED_MAGIC hs else []
   end).
Proof.
  revert first_iter map.
  induction entries as [| d rest IH]; intros first_iter map; cbn [uid_map_users].
  - rewrite app_nil_r. reflexivity.
  - rewrite IH, bucket_uid_map_hides.
    destruct rest; rewrite ?app_nil_r; reflexivity.
Qed.

End UidMapMore.

(** X22: after [update_uid_map] no key of the uid map holds an empty list: a
    uid is in the map only if some process is to be matched under it. *)
Theorem update_uid_map_nonempty (ISOLATED_MAGIC APP_DATA_DIR : string)
    (w : world) (m : monitor) :
  exists m',
    update_uid_map ISOLATED_MAGIC APP_DATA_DIR w m = Some (tt, m') /\
    forall uid names, uid_proc_map m' !! uid = Some names -> names <> [].
Proof.
  eexists. split; [apply update_uid_map_defined |]. fields.
  apply nonempty_uid_map_users. intros uid names. rewrite lookup_empty.
  discriminate.
Qed.

(** X23: when the application data directory has no entry, or the hide set
    is empty, [update_uid_map] leaves the uid map empty; without an entry in
    the data directory not even the isolated bucket is filled, whatever
    sentinel pairs the hide set holds. *)
Theorem update_uid_map_empty (ISOLATED_MAGIC APP_DATA_DIR : string)
    (w : world) (m : monitor) :
  data_entries w = [] \/ hide_set m = [] ->
  exists m',
    update_uid_map ISOLATED_MAGIC APP_DATA_DIR w m = Some (tt, m') /\
    uid_proc_map m' = ∅.
Proof.
  intros Hempty. eexists. split; [apply update_uid_map_defined |]. fields.
  destruct Hempty as [-> | ->]; [reflexivity | apply uid_map_users_no_hides].
Qed.

Lemma update_uid_map_empty_witness :
  exists m',
    update_uid_map "isolated" "/data/user_de"
      (World (fun _ => None) (fun _ => None) (fun _ => None) (fun _ => None)
             (fun _ => None) [] [] ex_fs_stat)
      (set_hide_set [("isolated"%string, "com.example.target:iso"%string)]
                    (ex_monitor ["stale"%string])) = Some (tt, m') /\
    uid_proc_map m' = ∅.
Proof.
  apply update_uid_map_empty. left. reflexivity.
Defined.

(** X24: the isolated bucket.  When the data directory has at least one
    entry and no directory is owned by the uid that reads as -1, the list
    under the key -1 is, after [update_uid_map], the processes of the
    sentinel pairs in the order of the hide set, each once however many users
    there are; the key is absent when there is no sentinel pair. *)
Theorem isolated_bucket_contents (ISOLATED_MAGIC APP_DATA_DIR : string)
    (w : world) (m : monitor) :
  data_entries w <> [] ->
  (forall path st, fs_stat w path = Some st -> to_int (st_uid st) <> -1) ->
  exists m',
    update_uid_map ISOLATED_MAGIC APP_DATA_DIR w m = Some (tt, m') /\
    names_at (-1) (uid_proc_map m') = sentinel_names ISOLATED_MAGIC (hide_set m) /\
    (sentinel_names ISOLATED_MAGIC (hide_set m) = [] ->
     uid_proc_map m' !! (-1) = None).
Proof.
  intros Hentries Howner. eexists. split; [apply update_uid_map_defined |]. fields.
  assert (names_at (-1)
            (uid_map_users ISOLATED_MAGIC APP_DATA_DIR w (data_entries w) true
                           (hide_set m) ∅) =
          sentinel_names ISOLATED_MAGIC (hide_set m)) as Hbucket.
  { rewrite bucket_uid_map_users by exact Howner.
    destruct (data_entries w); [congruence |].
    unfold names_at. rewrite lookup_empty. reflexivity. }
  split; [exact Hbucket |].
  intros Hnone. rewrite Hnone in Hbucket. unfold names_at in Hbucket.
  destruct (uid_map_users ISOLATED_MAGIC APP_DATA_DIR w (data_entries w) true
                          (hide_set m) ∅ !! (-1)) as [names |] eqn:Hlook;
    [| reflexivity].
  exfalso. cbn in Hbucket. subst names.
  refine (nonempty_uid_map_users ISOLATED_MAGIC APP_DATA_DIR w (data_entries w)
            true (hide_set m) ∅ _ (-1) [] Hlook eq_refl).
  intros uid names. rewrite lookup_empty. discriminate.
Qed.

Lemma isolated_bucket_contents_witness :
  let w := World (fun _ => None) (fun _ => None) (fun _ => None) (fun _ => None)
                 (fun _ => None) [] ["0"%string; "10"%string] ex_fs_stat in
  exists m',
    update_uid_map "isolated" "/data/user_de" w
      (init_monitor [("com.example.target"%string, "com.example.target"%string);
                     ("isolated"%string, "com.example.target:iso"%string)]) =
      Some (tt, m') /\
    names_at (-1) (uid_proc_map m') = ["com.example.target:iso"%string].
Proof.
  intros w.
  destruct (isolated_bucket_contents "isolated" "/data/user_de" w
              (init_monitor [("com.example.target"%string, "com.example.target"%string);
                             ("isolated"%string, "com.example.target:iso"%string)]))
    as (m' & Hcall & Hbucket & _).
  - discriminate.
  - intros path st. cbn. unfold ex_fs_stat.
    destruct (String.eqb path "/data/user_de/0/com.example.target");
      [intros [= <-]; vm_compute; discriminate | discriminate].
  - exists m'. split; [exact Hcall | exact Hbucket].
Defined.

(** ** Edges of the classification *)

(** X25: a target whose namespace file cannot be read is still handed over:
    [read_ns] then leaves the [struct stat] of /proc/<pid> in place, and it
    is the device and inode of that directory that are compared with the
    namespaces of the zygotes. *)
Theorem unreadable_namespace_handoff (lp64 : bool) (w : world) (pid : Z)
    (st : stat_t) (cmdline : string) (names : list string) (m : monitor) :
  pid_set_in_bounds lp64 pid = true ->
  proc_dir w pid = Some st -> st_uid st <> 0 ->
  proc_cmdline w pid = Some cmdline -> is_zygote_name cmdline = false ->
  is_isolated (to_int (st_uid st)) = false ->
  uid_proc_map m !! to_int (st_uid st) = Some names -> In cmdline names ->
  str_ends cmdline "_zygote" = false ->
  proc_ns w pid = None ->
  (forall zpid zst, zygote_map m !! zpid = Some zst ->
                    ~ (st_ino zst = st_ino st /\ st_dev zst = st_dev st)) ->
  check_pid lp64 w pid m =
  Some (true, handed_off lp64 pid (to_int (st_uid st)) cmdline m).
Proof.
  intros Hb Hdir Huid Hcmd Hzyg Hiso Hnames Hin Hsuffix Hns Hdistinct.
  apply (check_pid_verified_target lp64 w pid st cmdline m Hb); [| left; exact Hiso].
  unfold verified_target. repeat split; eauto.
  unfold read_ns. rewrite Hns. apply ns_shared_false. exact Hdistinct.
Qed.

Lemma unreadable_namespace_handoff_witness :
  let w := World (ex_proc_dir 10042) (ex_cmdline "com.example.target")
                 (fun _ => None) ex_ppid ex_status [1234] ["0"%string] ex_fs_stat in
  let m := ex_monitor ["com.example.target"%string] in
  check_pid true w 1234 m =
  Some (true, handed_off true 1234 10042 "com.example.target" m).
Proof.
  intros w m.
  apply (unreadable_namespace_handoff true w 1234 (Stat 5 1234 10042)
           "com.example.target" ["com.example.target"%string] m).
  - reflexivity.
  - reflexivity.
  - cbn. lia.
  - reflexivity.
  - reflexivity.
  - reflexivity.
  - reflexivity.
  - cbn. auto.
  - reflexivity.
  - reflexivity.
  - apply ns_shared_false. reflexivity.
Defined.

(** X26: for a pid outside the bitmap (0, or above 32768) a classification
    is defined only while there is nothing to decide: if the process is
    still root or still carries a zygote name, [check_pid] returns false and
    changes nothing; in every other case it indexes outside the bitset. *)
Theorem check_pid_outside_bitmap (lp64 : bool) (w : world) (pid : Z)
    (m : monitor) :
  pid_set_in_bounds lp64 pid = false ->
  (not_yet w pid -> check_pid lp64 w pid m = Some (false, m)) /\
  (~ not_yet w pid -> check_pid lp64 w pid m = None).
Proof.
  intros Hb.
  assert (not_yet w pid /\ check_pid lp64 w pid m = Some (false, m) \/
          ~ not_yet w pid /\ check_pid lp64 w pid m = None) as Hcases.
  { unfold not_yet.
    remember (check_pid lp64 w pid m) as result eqn:Hres. unfold check_pid in Hres.
    assert (forall uid cmdline st, check_uid lp64 w pid uid cmdline st m = None) as Huid.
    { intros uid cmdline st. rewrite check_uid_lookup.
      destruct (uid_proc_map m !! uid).
      - apply check_names_undefined. exact Hb.
      - unfold not_target, bind. rewrite detach_pid_undefined by exact Hb.
        reflexivity. }
    destruct (proc_dir w pid) as [st |] eqn:Hdir.
    2: { right. split; [intros (? & [=] & _) |]. subst result. unfold bind.
         rewrite detach_pid_undefined by exact Hb. reflexivity. }
    destruct (Z.eqb_spec (st_uid st) 0) as [Hroot | Hnonroot].
    { left. split; [eauto | exact Hres]. }
    destruct (proc_cmdline w pid) as [cmdline |] eqn:Hcmd.
    2: { right. split.
         - intros (st' & [= <-] & [Hz | (? & [=] & _)]). congruence.
         - subst result. unfold bind. rewrite detach_pid_undefined by exact Hb.
           reflexivity. }
    destruct (is_zygote_name cmdline) eqn:Hzyg.
    { left. split; [eauto 6 | exact Hres]. }
    right. split.
    { intros (st' & [= <-] & [Hz | (c & [= <-] & Hname)]); congruence. }
    destruct (is_isolated (to_int (st_uid st))); [| rewrite Hres; apply Huid].
    unfold bind at 1, gets at 1 in Hres.
    destruct (uid_proc_map m !! (-1)) as [prefixes |].
    - destruct (existsb (str_starts cmdline) prefixes); [| rewrite Hres; apply Huid].
      subst result. unfold inject_and_hide, bind, emit, modify.
      rewrite detach_pid_undefined by exact Hb. reflexivity.
    - subst result. unfold not_target, bind.
      rewrite detach_pid_undefined by exact Hb. reflexivity. }
  split.
  - intros Hyet. destruct Hcases as [[_ Hcall] | [Hnot _]]; [exact Hcall | contradiction].
  - intros Hnot. destruct Hcases as [[Hyet _] | [_ Hcall]]; [contradiction | exact Hcall].
Qed.

Lemma check_pid_outside_bitmap_witness :
  let w := World (fun pid => if pid =? 40000 then Some (Stat 5 40000 10042) else None)
                 (fun _ => Some "com.example.target"%string)
                 (fun _ => None) (fun _ => None) (fun _ => None) [] [] ex_fs_stat in
  check_pid true w 40000 (ex_monitor ["com.example.target"%string]) = None.
Proof.
  intros w.
  apply (check_pid_outside_bitmap true w 40000
           (ex_monitor ["com.example.target"%string])); [reflexivity |].
  intros (st & Hdir & [Hroot | (cmdline & Hcmd & Hname)]).
  - cbn in Hdir. injection Hdir as <-. discriminate Hroot.
  - cbn in Hcmd. injection Hcmd as <-. discriminate Hname.
Defined.

(** ** The inotify handler *)

(** X27: the inotify handler.  With nothing to read it changes nothing.
    With an event read it always rescans the zygotes, and it rebuilds the uid
    map, before the scan, exactly when the event is a close-after-write of
    packages.xml; otherwise the uid map is as before.  The hide set is never
    changed. *)
Theorem inotify_event_refresh (lp64 : bool) (ISOLATED_MAGIC APP_DATA_DIR : string)
    (w : world) (m : monitor) :
  inotify_event lp64 ISOLATED_MAGIC APP_DATA_DIR w None m = Some (tt, m) /\
  forall mask name,
    exists m',
      inotify_event lp64 ISOLATED_MAGIC APP_DATA_DIR w (Some (mask, name)) m =
        Some (tt, m') /\
      uid_proc_map m' =
        (if Z.testbit mask 3 && String.eqb name "packages.xml"
         then uid_map_users ISOLATED_MAGIC APP_DATA_DIR w (data_entries w) true
                            (hide_set m) ∅
         else uid_proc_map m) /\
      hide_set m' = hide_set m /\
      forall q, zygote_map m' !! q =
                match scanned w (proc_entries w) q with
                | Some st => Some st
                | None => zygote_map m !! q
                end.
Proof.
  split; [reflexivity |]. intros mask name.
  assert (negb (Z.land mask IN_CLOSE_WRITE =? 0) = Z.testbit mask 3) as Hmask.
  { unfold IN_CLOSE_WRITE. change 8 with (2 ^ 3).
    destruct (Z.testbit mask 3) eqn:Hbit.
    - apply negb_true_iff, Z.eqb_neq. intros Hzero.
      assert (Z.testbit (Z.land mask (2 ^ 3)) 3 = true) as Hland
        by (rewrite Z.land_spec, Hbit, Z.pow2_bits_true by lia; reflexivity).
      rewrite Hzero, Z.bits_0 in Hland. discriminate.
    - apply negb_false_iff, Z.eqb_eq. apply Z.bits_inj'. intros n Hn.
      rewrite Z.land_spec, Z.bits_0, Z.pow2_bits_eqb by lia.
      destruct (Z.eqb_spec 3 n) as [<- | Hne];
        [rewrite Hbit; reflexivity | apply andb_false_r]. }
  unfold inotify_event. rewrite Hmask.
  set (refresh := Z.testbit mask 3 && String.eqb name "packages.xml").
  set (m0 := if refresh
             then set_uid_proc_map
                    (uid_map_users ISOLATED_MAGIC APP_DATA_DIR w (data_entries w)
                                   true (hide_set m) ∅) m
             else m).
  assert ((if refresh then update_uid_map ISOLATED_MAGIC APP_DATA_DIR w else ret tt) m =
          Some (tt, m0)) as Hfirst.
  { subst m0. destruct refresh; [apply update_uid_map_defined | reflexivity]. }
  destruct (crawl_zygotes w (proc_entries w) m0)
    as (m1 & Hcrawl & (Hh & Hu & _) & Hmap).
  exists (if is_zygote_done lp64 m1 then timer_set 0 m1 else m1).
  unfold bind at 1. rewrite Hfirst.
  split; [apply (check_zygote_defined lp64 w m0 m1 Hcrawl) |].
  assert (uid_proc_map m0 = (if refresh
                             then uid_map_users ISOLATED_MAGIC APP_DATA_DIR w
                                    (data_entries w) true (hide_set m) ∅
                             else uid_proc_map m) /\
          hide_set m0 = hide_set m /\ zygote_map m0 = zygote_map m) as (Hu0 & Hh0 & Hz0)
    by (subst m0; destruct refresh; repeat split; reflexivity).
  destruct (is_zygote_done lp64 m1); unfold timer_set; fields;
    (split; [congruence |]; split; [congruence |]);
    intros q; rewrite Hmap, Hz0; reflexivity.
Qed.
